(** * UltraAIService: the provider streaming gateway

    A shallow embedding of the [UltraAIService] class (README.md, lines
    833-1243): request dispatch, the OpenAI server-sent-event parse loop,
    message normalisation, settings validation, and the token and cost
    estimators, together with the properties the design document states
    about them; further, the server's [connectDB] and the methods of the
    Chat model.

    JavaScript data is modelled as the language has it:
    - a string is its sequence of UTF-16 code units ([list N]);
    - a number is an IEEE 754 binary64 value ([float], Rocq's primitive
      floats, which round as JavaScript's numbers do);
    - [undefined] is [None];
    - an object literal used as a table is a finite map of its own
      properties ([gmap]); a property read on it ([JS.get]) falls back
      on the members of [Object.prototype], as the prototype chain has
      it.

    Built-ins of the platform that the class calls ([String.prototype.trim],
    [split], [TextDecoder], [Math.ceil]) are written out after their
    specifications (ECMA-262, WHATWG Encoding).  [JSON.parse], [fetch],
    the provider SDKs, the caller's callbacks and the properties of the
    platform's own objects are parameters of the sections that use
    them. *)

From Stdlib Require Import ZArith NArith List Floats String Ascii Lia.
From Stdlib Require Import DecimalString.
From stdpp Require Import gmap strings list.

Set Warnings "-inexact-float,-register-all".

(** ** JavaScript strings *)

Abbreviation jsstring := (list N).

(** The code units of an ASCII literal. *)
Definition js (s : string) : jsstring :=
  N_of_ascii <$> list_ascii_of_string s.

Module JS.

(** [WhiteSpace] and [LineTerminator] of ECMA-262 (sections 12.2, 12.3):
    what [trim] strips and what the regular expression class [\s]
    matches. *)
Definition is_whitespace (c : N) : bool :=
  ((0x0009 <=? c) && (c <=? 0x000D) || (c =? 0x0020) || (c =? 0x00A0)
   || (c =? 0x1680) || (0x2000 <=? c) && (c <=? 0x200A)
   || (c =? 0x2028) || (c =? 0x2029) || (c =? 0x202F) || (c =? 0x205F)
   || (c =? 0x3000) || (c =? 0xFEFF))%N.

Fixpoint trimStart (s : jsstring) : jsstring :=
  match s with
  | c :: s' => if is_whitespace c then trimStart s' else s
  | [] => []
  end.

(** [String.prototype.trim]. *)
Definition trim (s : jsstring) : jsstring :=
  rev (trimStart (rev (trimStart s))).

(** [s.split(sep)] for a separator of one code unit: the pieces between
    the occurrences of [sep], always at least one piece. *)
Fixpoint split (sep : N) (s : jsstring) : list jsstring :=
  match s with
  | [] => [[]]
  | c :: s' =>
      if (c =? sep)%N then [] :: split sep s'
      else match split sep s' with
           | piece :: pieces => (c :: piece) :: pieces
           | [] => [[c]]
           end
  end.

(** [s.split(/\s+/)] (ECMA-262, RegExp.prototype[@@split]): the scan
    position [q] advances over [s]; a match of [\s+] at [q] is the
    maximal run of white space starting there, it closes the current
    piece and the scan resumes after the run.  [in_run] tells that the
    scan is inside a run already matched; [piece] is the current piece,
    newest code unit first. *)
Fixpoint split_ws_from (in_run : bool) (piece : jsstring) (s : jsstring)
  : list jsstring :=
  match s with
  | [] => [rev piece]
  | c :: s' =>
      if is_whitespace c then
        if in_run then split_ws_from true piece s'
        else rev piece :: split_ws_from true [] s'
      else split_ws_from false (c :: piece) s'
  end.

Definition split_ws (s : jsstring) : list jsstring :=
  split_ws_from false [] s.

(** [s.startsWith(p)]. *)
Fixpoint startsWith (p s : jsstring) : bool :=
  match p, s with
  | [], _ => true
  | a :: p', b :: s' => (a =? b)%N && startsWith p' s'
  | _ :: _, [] => false
  end.

(** [s.slice(n)] for [0 <= n]. *)
Definition slice (n : nat) (s : jsstring) : jsstring := drop n s.

(** [a.join(sep)] on an array of strings. *)
Fixpoint join (sep : jsstring) (a : list jsstring) : jsstring :=
  match a with
  | [] => []
  | [x] => x
  | x :: rest => x ++ sep ++ join sep rest
  end.

(** [a.pop()]: the last element ([undefined] on an empty array) and the
    array that is left. *)
Definition pop {A} (a : list A) : option A * list A :=
  (last a, removelast a).

(** Truthiness of a string and of a number. *)
Definition truthy_string (s : jsstring) : bool :=
  match s with [] => false | _ => true end.

Definition truthy_number (x : float) : bool :=
  negb (PrimFloat.eqb x 0 || PrimFloat.is_nan x).

(** Decimal digits of an integer, as template literals print it. *)
Definition string_of_Z (z : Z) : jsstring :=
  js (NilZero.string_of_int (Z.to_int z)).

(** The property names of [Object.prototype] (ECMA-262, sections 20.1.3
    and B.2.2): ten methods, the [constructor] and the accessor
    [__proto__].  Every object literal inherits them. *)
Definition Object_prototype : list jsstring :=
  [ js "constructor"; js "hasOwnProperty"; js "isPrototypeOf";
    js "propertyIsEnumerable"; js "toLocaleString"; js "toString";
    js "valueOf"; js "__proto__"; js "__defineGetter__";
    js "__defineSetter__"; js "__lookupGetter__"; js "__lookupSetter__" ].

(** What [o[key]] finds on an object literal [o]: an own property, or
    else the member of [Object.prototype] of that name -- a function of
    the platform, or for [__proto__] the prototype object itself. *)
Inductive property (A : Type) :=
| Own (a : A)
| Inherited (name : jsstring).
Arguments Own {A} a.
Arguments Inherited {A} name.

(** [o[key]] for an object literal with the own properties [o];
    [undefined] is [None]. *)
Definition get {A} (o : gmap jsstring A) (key : jsstring)
  : option (property A) :=
  match o !! key with
  | Some a => Some (Own a)
  | None =>
      if bool_decide (key ∈ Object_prototype) then Some (Inherited key)
      else None
  end.

End JS.

(** ** TextDecoder, UTF-8, streaming

    The decoder of the WHATWG Encoding standard (section 9.1.1) run with
    [{ stream: true }]: a state machine over bytes that keeps an unfinished
    sequence between calls and is never flushed.  Errors are replaced by
    U+FFFD (the decoder is not fatal), a leading byte order mark is
    dropped (ignoreBOM is false). *)

Module TextDecoder.

Record state := {
  code_point : N;
  bytes_seen : N;
  bytes_needed : N;
  lower : N;
  upper : N;
  bom_seen : bool
}.

Definition init : state :=
  {| code_point := 0; bytes_seen := 0; bytes_needed := 0;
     lower := 0x80; upper := 0xBF; bom_seen := false |}.

Definition reset (st : state) : state :=
  {| code_point := 0; bytes_seen := 0; bytes_needed := 0;
     lower := 0x80; upper := 0xBF; bom_seen := bom_seen st |}.

Definition between (lo hi b : N) : bool := ((lo <=? b) && (b <=? hi))%N.

(** Step 3 of the handler: no sequence is open. *)
Definition lead (st : state) (b : N) : state * list N :=
  if between 0x00 0x7F b then (st, [b])
  else if between 0xC2 0xDF b then
    ({| code_point := N.land b 0x1F; bytes_seen := 0; bytes_needed := 1;
        lower := 0x80; upper := 0xBF; bom_seen := bom_seen st |}, [])
  else if between 0xE0 0xEF b then
    ({| code_point := N.land b 0xF; bytes_seen := 0; bytes_needed := 2;
        lower := if (b =? 0xE0)%N then 0xA0 else 0x80;
        upper := if (b =? 0xED)%N then 0x9F else 0xBF;
        bom_seen := bom_seen st |}, [])
  else if between 0xF0 0xF4 b then
    ({| code_point := N.land b 0x7; bytes_seen := 0; bytes_needed := 3;
        lower := if (b =? 0xF0)%N then 0x90 else 0x80;
        upper := if (b =? 0xF4)%N then 0x8F else 0xBF;
        bom_seen := bom_seen st |}, [])
  else (st, [0xFFFD%N]).

(** The handler on one byte: the new state and the code points it
    returns (an error is the code point U+FFFD). *)
Definition handler (st : state) (b : N) : state * list N :=
  if (bytes_needed st =? 0)%N then lead st b
  else if negb (between (lower st) (upper st) b) then
    (* the sequence is broken: error, and the byte is read again *)
    let '(st', out) := lead (reset st) b in (st', 0xFFFD%N :: out)
  else
    let cp := N.lor (N.shiftl (code_point st) 6) (N.land b 0x3F) in
    let seen := (bytes_seen st + 1)%N in
    if (seen =? bytes_needed st)%N then (reset st, [cp])
    else ({| code_point := cp; bytes_seen := seen;
             bytes_needed := bytes_needed st;
             lower := 0x80; upper := 0xBF; bom_seen := bom_seen st |}, []).

(** A code point as UTF-16 code units. *)
Definition code_units (cp : N) : jsstring :=
  if (cp <=? 0xFFFF)%N then [cp]
  else let c := (cp - 0x10000)%N in
       [(0xD800 + N.shiftr c 10)%N; (0xDC00 + N.land c 0x3FF)%N].

(** Serialising the output: the first code point is dropped when it is
    the byte order mark. *)
Fixpoint serialize (bom : bool) (cps : list N) : bool * jsstring :=
  match cps with
  | [] => (bom, [])
  | cp :: rest =>
      let '(bom', out) := serialize true rest in
      if negb bom && (cp =? 0xFEFF)%N then (bom', out)
      else (bom', code_units cp ++ out)
  end.

Definition step (st : state) (b : Byte.byte) : state * jsstring :=
  let '(st', cps) := handler st (Byte.to_N b) in
  let '(bom, out) := serialize (bom_seen st') cps in
  ({| code_point := code_point st'; bytes_seen := bytes_seen st';
      bytes_needed := bytes_needed st'; lower := lower st';
      upper := upper st'; bom_seen := bom |}, out).

(** [decoder.decode(value, { stream: true })]. *)
Fixpoint decode (st : state) (value : list Byte.byte) : state * jsstring :=
  match value with
  | [] => (st, [])
  | b :: rest =>
      let '(st1, out1) := step st b in
      let '(st2, out2) := decode st1 rest in
      (st2, out1 ++ out2)
  end.

End TextDecoder.

(** ** Values, errors and effects *)

(** What [JSON.parse] returns. *)
Inductive json :=
| JNull
| JBool (b : bool)
| JNum (x : float)
| JStr (s : jsstring)
| JArr (items : list json)
| JObj (fields : list (jsstring * json)).

(** [error.response.data] of a rejection: absent, [null], or a value
    whose [error?.message] is the string given ([None] when it has
    none). *)
Inductive response_data :=
| DataUndefined
| DataNull
| Data (error_message : option jsstring).

(** Error objects.  [AxiosError] is what the provider SDKs reject with:
    [response] holds [error.response.status] and [error.response.data],
    [request] tells whether [error.request] is set. *)
Inductive js_error :=
| Error (message : jsstring)
| TypeError (message : jsstring)
| SyntaxError (message : jsstring)
| AxiosError (message : jsstring) (response : option (Z * response_data))
    (request : bool).

Definition error_message (e : js_error) : jsstring :=
  match e with
  | Error m | TypeError m | SyntaxError m | AxiosError m _ _ => m
  end.

(** The completion of an evaluation: a value, or a thrown error. *)
Inductive completion (A : Type) :=
| Return (a : A)
| Throw (e : js_error).
Arguments Return {A} a.
Arguments Throw {A} e.

Module Json.

(** Own property [key] of an object ([undefined] when absent). *)
Fixpoint field (key : jsstring) (fields : list (jsstring * json))
  : option json :=
  match fields with
  | [] => None
  | (k, v) :: rest => if decide (k = key) then Some v else field key rest
  end.

(** [v.key] for a value that is not nullish, [key] being none of the
    names the prototypes of strings, arrays, numbers and booleans
    define, nor an index. *)
Definition member (key : jsstring) (v : json) : option json :=
  match v with
  | JObj fields => field key fields
  | _ => None
  end.

(** [v?.key]. *)
Definition optional_member (key : jsstring) (v : option json)
  : option json :=
  match v with
  | None | Some JNull => None
  | Some v => member key v
  end.

(** [v[0]] for a value that is not nullish. *)
Definition index0 (v : json) : option json :=
  match v with
  | JArr items => head items
  | JStr s => (fun c => JStr [c]) <$> head s
  | JObj fields => field (js "0") fields
  | _ => None
  end.

(** Truthiness ([undefined] is falsy). *)
Definition truthy (v : option json) : bool :=
  match v with
  | None | Some JNull => false
  | Some (JBool b) => b
  | Some (JNum x) => JS.truthy_number x
  | Some (JStr s) => JS.truthy_string s
  | Some (JArr _) | Some (JObj _) => true
  end.

End Json.

(** A streamed response body: the chunks [reader.read()] resolves with,
    then either [done] or a rejection. *)
Inductive body_end :=
| EndOfStream
| ReadFailure (e : js_error).

Record body := {
  chunks : list (list Byte.byte);
  ending : body_end
}.

(** What [fetch] settles with. *)
Inductive fetch_outcome :=
| FetchRejected (e : js_error)
| FetchResolved (status : Z) (b : body).

(** [response.ok] of the Fetch standard. *)
Definition status_ok (status : Z) : bool :=
  ((200 <=? status) && (status <=? 299))%Z.

(** A conversation message. *)
Record message := {
  role : jsstring;
  content : jsstring
}.

(** A settings object; an absent field is [None]. *)
Record settings := {
  provider : option jsstring;
  model : option jsstring;
  temperature : option float;
  maxTokens : option float;
  topP : option float;
  frequencyPenalty : option float;
  presencePenalty : option float;
  stream : option bool
}.

(** The request a provider is sent. *)
Record provider_request := {
  req_settings : settings;
  req_messages : list message;
  req_stream : bool
}.

(** What a run of the service does, in order. *)
Inductive effect :=
| FetchOpenAI (req : provider_request)
| CreateChatCompletion (req : provider_request)
| MessagesCreate (req : provider_request)
| OnChunk (chunk : json)
| OnComplete
| OnError (e : js_error)
| ConsoleError (label : jsstring) (e : js_error).

(** A call to a provider's network endpoint. *)
Definition is_upstream_call (f : effect) : bool :=
  match f with
  | FetchOpenAI _ | CreateChatCompletion _ | MessagesCreate _ => true
  | _ => false
  end.

(** A terminal callback. *)
Definition is_terminal (f : effect) : bool :=
  match f with
  | OnComplete | OnError _ => true
  | _ => false
  end.

(** The callbacks of a run, in order: what the caller of
    [streamResponse] observes. *)
Definition is_callback (f : effect) : bool :=
  match f with
  | OnChunk _ | OnComplete | OnError _ => true
  | _ => false
  end.

Definition callbacks (t : list effect) : list effect := filter is_callback t.

(** The text of the content chunks of a run, concatenated in order. *)
Fixpoint emitted_text (t : list effect) : jsstring :=
  match t with
  | [] => []
  | OnChunk (JStr s) :: rest => s ++ emitted_text rest
  | _ :: rest => emitted_text rest
  end.

(** ** The monad of asynchronous methods

    A method runs from the number of upstream calls made so far, and
    yields a completion, the effects it performed and the new number of
    calls.  The outcome of the n-th upstream call is given by the
    environment. *)

Definition M (A : Type) : Type := nat -> completion A * list effect * nat.

Definition ret {A} (a : A) : M A := fun n => (Return a, [], n).

Definition throw {A} (e : js_error) : M A := fun n => (Throw e, [], n).

Definition bind {A B} (m : M A) (k : A -> M B) : M B :=
  fun n =>
    match m n with
    | (Return a, t1, n1) =>
        let '(r, t2, n2) := k a n1 in (r, t1 ++ t2, n2)
    | (Throw e, t1, n1) => (Throw e, t1, n1)
    end.

(** [try { m } catch (error) { h error }]. *)
Definition try_catch {A} (m : M A) (h : js_error -> M A) : M A :=
  fun n =>
    match m n with
    | (Return a, t1, n1) => (Return a, t1, n1)
    | (Throw e, t1, n1) =>
        let '(r, t2, n2) := h e n1 in (r, t1 ++ t2, n2)
    end.

Definition perform (f : effect) : M unit := fun n => (Return tt, [f], n).

#[global] Instance M_ret : MRet M := @ret.
#[global] Instance M_bind : MBind M := fun A B k m => bind m k.

Definition trace {A} (r : completion A * list effect * nat) : list effect :=
  snd (fst r).

Definition upstream_calls {A} (r : completion A * list effect * nat) : nat :=
  snd r.

#[global] Instance completion_ret : MRet completion := @Return.
#[global] Instance completion_bind : MBind completion :=
  fun A B k c => match c with Return a => k a | Throw e => Throw e end.

(** A computation without upstream calls, run inside a method. *)
Definition lift {A} (r : completion A * list effect) : M A :=
  fun n => (fst r, snd r, n).

(** [await] of an upstream call whose n-th outcome is [outcome n]. *)
Definition await_call {A} (f : effect) (outcome : nat -> completion A)
  : M A :=
  fun n => (outcome n, [f], S n).

Module JSNumber.

(** The number of a length or a count (exact below 2^53). *)
Definition of_nat (n : nat) : float :=
  PrimFloat.of_uint63 (Uint63.of_Z (Z.of_nat n)).

Definition of_Z (z : Z) : float :=
  PrimFloat.of_uint63 (Uint63.of_Z z).

(** [Math.ceil]: the least integral number not below [x]; zeros,
    infinities and NaN are returned as they are, and a negative number
    above -1 gives -0. *)
Definition ceil (x : float) : float :=
  match Prim2SF x with
  | S754_finite s m e =>
      if (0 <=? e)%Z then x
      else
        let q := (Z.pos m / 2 ^ (- e))%Z in
        let r := (Z.pos m mod 2 ^ (- e))%Z in
        if s then (- of_Z q)%float
        else of_Z (if (r =? 0)%Z then q else q + 1)
  | _ => x
  end.

End JSNumber.

(** ** The service *)

Module UltraAIService.

(** [this.availableModels]. *)
Definition availableModels : gmap jsstring (list jsstring) :=
  list_to_map
    [ (js "openai",
        [ js "gpt-4"; js "gpt-4-32k"; js "gpt-4-turbo-preview";
          js "gpt-3.5-turbo"; js "gpt-3.5-turbo-16k";
          js "gpt-4-vision-preview" ]);
      (js "anthropic",
        [ js "claude-3-opus-20240229"; js "claude-3-sonnet-20240229";
          js "claude-2.1"; js "claude-instant-1.2" ]);
      (js "cohere",
        [ js "command"; js "command-nightly"; js "command-light";
          js "command-light-nightly" ]);
      (js "huggingface",
        [ js "mistralai/Mistral-7B-Instruct-v0.2"; js "google/flan-t5-xxl";
          js "microsoft/DialoGPT-large" ]) ].

(** [this.defaultSettings]. *)
Definition defaultSettings : settings :=
  {| provider := Some (js "openai");
     model := Some (js "gpt-3.5-turbo");
     temperature := Some 0.7%float;
     maxTokens := Some 2000%float;
     topP := Some 1%float;
     frequencyPenalty := Some 0%float;
     presencePenalty := Some 0%float;
     stream := Some true |}.

(** [{ ...a, ...b }]: the fields of [b] override those of [a]. *)
Definition spread (a b : settings) : settings :=
  let over {A} (x y : option A) := match y with Some _ => y | None => x end in
  {| provider := over (provider a) (provider b);
     model := over (model a) (model b);
     temperature := over (temperature a) (temperature b);
     maxTokens := over (maxTokens a) (maxTokens b);
     topP := over (topP a) (topP b);
     frequencyPenalty := over (frequencyPenalty a) (frequencyPenalty b);
     presencePenalty := over (presencePenalty a) (presencePenalty b);
     stream := over (stream a) (stream b) |}.

(** [settings.provider || this.defaultSettings.provider]. *)
Definition provider_or_default (s : settings) : jsstring :=
  match provider s with
  | Some p => if JS.truthy_string p then p
              else default [] (provider defaultSettings)
  | None => default [] (provider defaultSettings)
  end.

(** *** Utility methods *)

Definition formatMessagesForOpenAI (messages : list message)
  : list message :=
  map (fun msg => {| role := role msg; content := content msg |}) messages.

Definition formatMessagesForAnthropic (messages : list message)
  : list message :=
  map (fun msg =>
         {| role := if decide (role msg = js "assistant")
                    then js "assistant" else js "user";
            content := content msg |}) messages.

(** [handleProviderError(error, provider)]: the error it returns, or
    the [TypeError] it throws when the default branch reads [data.error]
    on a [data] that is [undefined] or [null]. *)
Definition handleProviderError (error : js_error) (provider : jsstring)
  : completion js_error :=
  match error with
  | AxiosError message (Some (status, data)) _ =>
      if (status =? 401)%Z then
        Return (Error (js "Invalid " ++ provider ++ js " API key"))
      else if (status =? 429)%Z then
        Return (Error (js "Rate limit exceeded. Please try again later."))
      else if (status =? 500)%Z then
        Return (Error (provider ++ js " server error. Please try again."))
      else if (status =? 503)%Z then
        Return (Error (provider
                       ++ js " service unavailable. Please try again later."))
      else
        match data with
        | DataUndefined =>
            Throw (TypeError (js
              "Cannot read properties of undefined (reading 'error')"))
        | DataNull =>
            Throw (TypeError (js
              "Cannot read properties of null (reading 'error')"))
        | Data data_error_message =>
            Return (Error (provider ++ js " error: "
                           ++ match data_error_message with
                              | Some m =>
                                  if JS.truthy_string m then m else message
                              | None => message
                              end))
        end
  | AxiosError _ None true =>
      Return (Error (js "No response received from " ++ provider
                     ++ js ". Please check your connection."))
  | _ =>
      Return (Error (js "Error configuring " ++ provider ++ js " request: "
                     ++ error_message error))
  end.

(** [throw c]: the error thrown is the value of [c], or what evaluating
    [c] throws. *)
Definition thrown (c : completion js_error) : js_error :=
  match c with
  | Return e | Throw e => e
  end.

Definition estimateTokens (text : jsstring) : float :=
  let words := JSNumber.of_nat (length (JS.split_ws text)) in
  let characters := JSNumber.of_nat (length text) in
  JSNumber.ceil ((words * 1.3 + characters / 4) / 2)%float.

(** [validateSettings(settings)]: the list of errors, or the [TypeError]
    of [models.includes] when [this.availableModels[provider]] is no
    array but a member of [Object.prototype]. *)
Definition validateSettings (s : settings) : completion (list jsstring) :=
  let errors := [] in
  let errors :=
    match temperature s with
    | Some t =>
        if JS.truthy_number t && ((t <? 0) || (2 <? t))%float
        then errors ++ [js "Temperature must be between 0 and 2"]
        else errors
    | None => errors
    end in
  let errors :=
    match maxTokens s with
    | Some m =>
        if JS.truthy_number m && ((m <? 1) || (400000 <? m))%float
        then errors ++ [js "Max tokens must be between 1 and 400,000"]
        else errors
    | None => errors
    end in
  match model s with
  | Some mdl =>
      if JS.truthy_string mdl then
        let provider := provider_or_default s in
        match JS.get availableModels provider with
        | Some (JS.Own models) =>
            if negb (bool_decide (mdl ∈ models))
            then Return (errors ++ [js "Model must be one of: "
                                    ++ JS.join (js ", ") models])
            else Return errors
        | Some (JS.Inherited _) =>
            Throw (TypeError (js "models.includes is not a function"))
        | None => Return errors
        end
      else Return errors
  | None => Return errors
  end.

(** *** Cost estimation *)

Record rates := { input : float; output : float }.

Definition costRates : gmap jsstring (gmap jsstring rates) :=
  list_to_map
    [ (js "openai",
        list_to_map
          [ (js "gpt-4", {| input := 0.03; output := 0.06 |});
            (js "gpt-4-32k", {| input := 0.06; output := 0.12 |});
            (js "gpt-3.5-turbo", {| input := 0.0015; output := 0.002 |});
            (js "gpt-3.5-turbo-16k",
              {| input := 0.003; output := 0.004 |}) ]);
      (js "anthropic",
        list_to_map
          [ (js "claude-3-opus", {| input := 0.015; output := 0.075 |});
            (js "claude-3-sonnet", {| input := 0.003; output := 0.015 |});
            (js "claude-2.1", {| input := 0.008; output := 0.024 |}) ]) ].

(** What [costRates[provider]?.[model]] evaluates to: a rate entry, or a
    value that is none -- [undefined], or something found along the
    prototype chain, of which the method only tells whether it is
    truthy. *)
Inductive rates_value :=
| Rates (r : rates)
| NoRates (truthy : bool).

(** [rates.input] and [rates.output] as numbers: a value that is no rate
    entry has neither property, and [undefined] is NaN in a product. *)
Definition rates_input (v : rates_value) : float :=
  match v with
  | Rates r => input r
  | NoRates _ => nan
  end.

Definition rates_output (v : rates_value) : float :=
  match v with
  | Rates r => output r
  | NoRates _ => nan
  end.

Section Cost.

(** The platform's objects: [builtin_truthy name key] reads the property
    [key] of the member [name] of [Object.prototype] -- one of its
    functions, or the prototype itself for [__proto__] -- and tells
    whether the value is truthy, or throws what the read throws.  The
    truthy values found there (functions, objects, non-empty strings,
    numbers other than 0) have no property [input] or [output]. *)
Variable builtin_truthy : jsstring -> jsstring -> completion bool.

Definition estimateCost (provider model : jsstring)
  (inputTokens outputTokens : float) : completion float :=
  rates ← match JS.get costRates provider with
          | None => Return (NoRates false)
          | Some (JS.Own models) =>
              match JS.get models model with
              | None => Return (NoRates false)
              | Some (JS.Own r) => Return (Rates r)
              | Some (JS.Inherited _) => Return (NoRates true)
              end
          | Some (JS.Inherited name) =>
              truthy ← builtin_truthy name model;
              Return (NoRates truthy)
          end;
  match rates with
  | NoRates false => Return 0%float
  | _ =>
      let inputCost := ((inputTokens / 1000) * rates_input rates)%float in
      let outputCost := ((outputTokens / 1000) * rates_output rates)%float in
      Return (inputCost + outputCost)%float
  end.

End Cost.

(** *** Requests and streaming

    The environment of a run: [JSON_parse] is [JSON.parse]; [fetch n],
    [createChatCompletion n] and [messagesCreate n] are what the n-th
    upstream call of the run settles with (calls are counted from 0).
    The callbacks [onChunk], [onComplete] and [onError] are recorded as
    effects; here they are taken to return normally, [settings] and
    [callbacks] to be objects and a response to have a body.  The module
    [Callbacks] below runs the same two methods without these
    assumptions. *)

Record openai_response := {
  choices_0_message_content : jsstring;
  usage_total_tokens : float;
  openai_model : jsstring;
  choices_0_finish_reason : jsstring
}.

Record anthropic_response := {
  content_0_text : jsstring;
  usage_input_tokens : float;
  usage_output_tokens : float;
  anthropic_model : jsstring;
  stop_reason : jsstring
}.

Record generated := {
  gen_content : jsstring;
  gen_tokens : float;
  gen_model : jsstring;
  gen_finishReason : jsstring
}.

Section Requests.

Variable JSON_parse : jsstring -> completion json.
Variable fetch : nat -> fetch_outcome.
Variable createChatCompletion : nat -> completion openai_response.
Variable messagesCreate : nat -> completion anthropic_response.

Definition openAIRequest (messages : list message) (s : settings)
  : M generated :=
  response ← await_call
    (CreateChatCompletion
       {| req_settings := s;
          req_messages := formatMessagesForOpenAI messages;
          req_stream := false |})
    createChatCompletion;
  mret {| gen_content := choices_0_message_content response;
          gen_tokens := usage_total_tokens response;
          gen_model := openai_model response;
          gen_finishReason := choices_0_finish_reason response |}.

Definition anthropicRequest (messages : list message) (s : settings)
  : M generated :=
  response ← await_call
    (MessagesCreate
       {| req_settings := s;
          req_messages := formatMessagesForAnthropic messages;
          req_stream := false |})
    messagesCreate;
  mret {| gen_content := content_0_text response;
          gen_tokens := (usage_input_tokens response
                         + usage_output_tokens response)%float;
          gen_model := anthropic_model response;
          gen_finishReason := stop_reason response |}.

(** The methods [cohereRequest], [huggingFaceRequest] and
    [localRequest] are not defined by the class: calling them throws
    a [TypeError]. *)
Definition not_a_function (method : string) : js_error :=
  TypeError (js "this." ++ js method ++ js " is not a function").

Definition generateResponse (messages : list message) (s : settings)
  : M generated :=
  let finalSettings := spread defaultSettings s in
  let provider := default (js "undefined") (provider finalSettings) in
  try_catch
    (if decide (provider = js "openai") then
       openAIRequest messages finalSettings
     else if decide (provider = js "anthropic") then
       anthropicRequest messages finalSettings
     else if decide (provider = js "cohere") then
       throw (not_a_function "cohereRequest")
     else if decide (provider = js "huggingface") then
       throw (not_a_function "huggingFaceRequest")
     else if decide (provider = js "local") then
       throw (not_a_function "localRequest")
     else throw (Error (js "Unsupported provider: " ++ provider)))
    (fun error =>
       perform (ConsoleError
                  (js "AI Service Error (" ++ provider ++ js "):") error);;
       throw (thrown (handleProviderError error provider))).

(** [data.choices[0]?.delta?.content]. *)
Definition delta_content (data : json) : completion (option json) :=
  choices ← match data with
            | JNull =>
                Throw (TypeError (js
                  "Cannot read properties of null (reading 'choices')"))
            | _ => Return (Json.member (js "choices") data)
            end;
  first ← match choices with
          | None =>
              Throw (TypeError (js
                "Cannot read properties of undefined (reading '0')"))
          | Some JNull =>
              Throw (TypeError (js
                "Cannot read properties of null (reading '0')"))
          | Some v => Return (Json.index0 v)
          end;
  mret (Json.optional_member (js "content")
          (Json.optional_member (js "delta") first)).

(** The body of [for (const line of lines)]: the effects of one line,
    and whether the method returned. *)
Definition handle_line (line : jsstring) : list effect * bool :=
  let trimmedLine := JS.trim line in
  if bool_decide (trimmedLine = [])
     || bool_decide (trimmedLine = js "data: [DONE]")
  then ([OnComplete], true)
  else if JS.startsWith (js "data: ") trimmedLine then
    match data ← JSON_parse (JS.slice 6 trimmedLine); delta_content data
    with
    | Return chunk =>
        match chunk with
        | Some c => if Json.truthy chunk then ([OnChunk c], false)
                    else ([], false)
        | None => ([], false)
        end
    | Throw e =>
        ([ConsoleError (js "Error parsing stream data:") e], false)
    end
  else ([], false).

Fixpoint handle_lines (lines : list jsstring) : list effect * bool :=
  match lines with
  | [] => ([], false)
  | line :: rest =>
      let '(effects, returned) := handle_line line in
      if returned then (effects, true)
      else let '(effects', returned') := handle_lines rest in
           (effects ++ effects', returned')
  end.

(** [while (true)]: one iteration per [reader.read()]. *)
Fixpoint read_loop (decoder : TextDecoder.state) (buffer : jsstring)
  (reads : list (list Byte.byte)) (fin : body_end)
  : completion unit * list effect :=
  match reads with
  | [] =>
      match fin with
      | EndOfStream => (Return tt, [])
      | ReadFailure e => (Throw e, [])
      end
  | value :: reads' =>
      let '(decoder', text) := TextDecoder.decode decoder value in
      let buffer := buffer ++ text in
      let lines := JS.split 10 buffer in
      let '(popped, lines) := JS.pop lines in
      let buffer := default [] popped in
      let '(effects, returned) := handle_lines lines in
      if returned then (Return tt, effects)
      else let '(r, effects') := read_loop decoder' buffer reads' fin in
           (r, effects ++ effects')
  end.

Definition openAIStream (messages : list message) (s : settings)
  : M unit :=
  try_catch
    (response ← await_call
       (FetchOpenAI
          {| req_settings := s;
             req_messages := formatMessagesForOpenAI messages;
             req_stream := true |})
       (fun n => match fetch n with
                 | FetchRejected e => Throw e
                 | FetchResolved status b => Return (status, b)
                 end);
     let '(status, b) := response in
     if negb (status_ok status) then
       throw (Error (js "HTTP error! status: " ++ JS.string_of_Z status))
     else
       lift (read_loop TextDecoder.init [] (chunks b) (ending b)))
    (fun error => perform (OnError error)).

Definition streamResponse (messages : list message) (s : settings)
  : M unit :=
  let provider := provider_or_default s in
  try_catch
    (if decide (provider = js "openai") then openAIStream messages s
     else if decide (provider = js "anthropic") then
       throw (not_a_function "anthropicStream")
     else
       throw (Error (js "Streaming not supported for provider: "
                     ++ provider)))
    (fun error => perform (OnError error)).

End Requests.

End UltraAIService.

(** ** Notions of the design document *)

Module Design.

(** Token Estimator: the number of white-space-separated segments of a
    text, counted as one more than its maximal runs of white space.
    [prev] tells whether the previous code unit was white space. *)
Fixpoint whitespace_runs (prev : bool) (s : jsstring) : nat :=
  match s with
  | [] => 0
  | c :: s' =>
      (if JS.is_whitespace c && negb prev then 1 else 0)
      + whitespace_runs (JS.is_whitespace c) s'
  end.

Definition wordCount (text : jsstring) : nat :=
  S (whitespace_runs false text).

Definition charCount (text : jsstring) : nat := length text.

(** The exact value of ceil((wordCount * 1.3 + charCount / 4) / 2),
    over the integers: ceil((26 w + 5 c) / 40). *)
Definition estimate (w c : Z) : Z := ((26 * w + 5 * c + 39) / 40)%Z.

(** The number computed for [w] words and [c] code units is that
    integer. *)
Definition estimate_agrees (w c : nat) : bool :=
  PrimFloat.eqb
    (JSNumber.ceil
       ((JSNumber.of_nat w * 1.3 + JSNumber.of_nat c / 4) / 2))
    (JSNumber.of_Z (estimate (Z.of_nat w) (Z.of_nat c))).

(** Settings: temperature within 0.0-2.0, and a model the provider
    supports. *)
Definition temperature_valid (s : settings) : Prop :=
  match temperature s with
  | None => True
  | Some t => (0 <=? t)%float = true /\ (t <=? 2)%float = true
  end.

(** A provider the service is set up for ([this.providers]), or none
    named. *)
Definition provider_valid (s : settings) : Prop :=
  match provider s with
  | None => True
  | Some p =>
      p ∈ [ js "openai"; js "anthropic"; js "cohere"; js "huggingface";
            js "local" ]
  end.

Definition model_valid (s : settings) : Prop :=
  match model s with
  | None => True
  | Some mdl =>
      forall models : list jsstring,
        UltraAIService.availableModels
          !! UltraAIService.provider_or_default s = Some models ->
        mdl ∈ models
  end.

(** Callbacks of a run that end in exactly one terminal callback. *)
Definition one_terminal (t : list effect) : Prop :=
  exists pre f,
    callbacks t = pre ++ [f] /\ is_terminal f = true
    /\ Forall (fun g => is_terminal g = false) pre.

(** Callbacks of a run without any terminal callback. *)
Definition no_terminal (t : list effect) : Prop :=
  Forall (fun g => is_terminal g = false) (callbacks t).

Section Content.

Variable JSON_parse : jsstring -> completion json.

(** The content text of one record of a response: the string at
    choices[0].delta.content of a [data: ] line, nothing for any
    other line. *)
Definition record_content (line : jsstring) : jsstring :=
  let line := JS.trim line in
  if JS.startsWith (js "data: ") line then
    match data ← JSON_parse (JS.slice 6 line);
          UltraAIService.delta_content data with
    | Return (Some (JStr s)) => s
    | _ => []
    end
  else [].

(** The content a provider sent: the content of the records of the
    response up to the end-of-stream sentinel, blank separator lines
    between records carrying none. *)
Fixpoint content_until_done (lines : list jsstring) : jsstring :=
  match lines with
  | [] => []
  | line :: rest =>
      if bool_decide (JS.trim line = js "data: [DONE]") then []
      else record_content line ++ content_until_done rest
  end.

Definition sent_content (text : jsstring) : jsstring :=
  content_until_done (JS.split 10 text).

End Content.

End Design.

(** ** The parse loop, line by line

    What [read_loop] amounts to on the whole decoded text; used to
    reason about chunk boundaries. *)

Section Lines.

Variable JSON_parse : jsstring -> completion json.

(** The text the decoder yields for a sequence of reads. *)
Definition decoded (st : TextDecoder.state) (reads : list (list Byte.byte))
  : jsstring :=
  snd (TextDecoder.decode st (concat reads)).

(** The end of the loop when no line returned. *)
Definition finish (fin : body_end) : completion unit * list effect :=
  match fin with
  | EndOfStream => (Return tt, [])
  | ReadFailure e => (Throw e, [])
  end.

Definition run_lines (lines : list jsstring) (fin : body_end)
  : completion unit * list effect :=
  let '(effects, returned) := UltraAIService.handle_lines JSON_parse lines in
  if returned then (Return tt, effects)
  else let '(r, effects') := finish fin in (r, effects ++ effects').

(** The lines of a text that a newline ends, and the piece after the
    last separator, which [pop] removes and the buffer keeps. *)
Definition complete_lines (text : jsstring) : list jsstring :=
  removelast (JS.split 10 text).

Definition last_piece (sep : N) (s : jsstring) : jsstring :=
  default [] (last (JS.split sep s)).

End Lines.

(** ** validateSettings, check by check

    What each of the three checks of [validateSettings] pushes, and when
    the model check throws instead. *)

Definition temperature_errors (s : settings) : list jsstring :=
  match temperature s with
  | Some t =>
      if JS.truthy_number t && ((t <? 0) || (2 <? t))%float
      then [js "Temperature must be between 0 and 2"] else []
  | None => []
  end.

Definition maxTokens_errors (s : settings) : list jsstring :=
  match maxTokens s with
  | Some m =>
      if JS.truthy_number m && ((m <? 1) || (400000 <? m))%float
      then [js "Max tokens must be between 1 and 400,000"] else []
  | None => []
  end.

Definition model_errors (s : settings) : list jsstring :=
  match model s with
  | Some mdl =>
      if JS.truthy_string mdl then
        match UltraAIService.availableModels
                !! UltraAIService.provider_or_default s with
        | Some models =>
            if negb (bool_decide (mdl ∈ models))
            then [js "Model must be one of: " ++ JS.join (js ", ") models]
            else []
        | None => []
        end
      else []
  | None => []
  end.

(** The model check finds a member of [Object.prototype] where it
    expects the provider's list: a model is set and the provider in
    force names no own property of [availableModels] but an inherited
    one. *)
Definition model_check_throws (s : settings) : bool :=
  match model s with
  | Some mdl =>
      JS.truthy_string mdl
      && bool_decide (UltraAIService.availableModels
                        !! UltraAIService.provider_or_default s = None)
      && bool_decide (UltraAIService.provider_or_default s
                        ∈ JS.Object_prototype)
  | None => false
  end.

(** ** A sample environment

    [JSON.parse] on the payloads of the examples: a content record
    [{"choices":[{"delta":{"content":TEXT}}]}] for the texts used below;
    every other payload used below is not JSON. *)

Module Sample.

Definition quoted (s : string) : jsstring := 34%N :: js s ++ [34%N].

Definition delta_payload (text : string) : jsstring :=
  js "{" ++ quoted "choices" ++ js ":[{" ++ quoted "delta" ++ js ":{"
  ++ quoted "content" ++ js ":" ++ quoted text ++ js "}}]}".

Definition delta_json (text : string) : json :=
  JObj [(js "choices",
         JArr [JObj [(js "delta",
                      JObj [(js "content", JStr (js text))])]])].

Definition JSON_parse (payload : jsstring) : completion json :=
  if decide (payload = delta_payload "Hel") then Return (delta_json "Hel")
  else if decide (payload = delta_payload "lo") then
    Return (delta_json "lo")
  else Throw (SyntaxError (js "Unexpected token in JSON")).

(** The UTF-8 bytes of a text of ASCII code units. *)
Definition utf8 (s : jsstring) : list Byte.byte :=
  omap Byte.of_N s.

Definition nl : jsstring := [10%N].

Definition data_line (payload : jsstring) : jsstring :=
  js "data: " ++ payload ++ nl.

(** A response as the provider frames it: each record is followed by a
    blank line, the sentinel closes the stream. *)
Definition sse_response : jsstring :=
  data_line (delta_payload "Hel") ++ nl
  ++ data_line (delta_payload "lo") ++ nl
  ++ data_line (js "[DONE]") ++ nl.

(** Two records and no sentinel: the provider closes the connection
    after the last record. *)
Definition unterminated_response : jsstring :=
  data_line (delta_payload "Hel") ++ data_line (delta_payload "lo").

(** A record cut short between two well-formed ones. *)
Definition corrupted_line : jsstring :=
  js "data: {" ++ quoted "choices" ++ js ":[{".

Definition corrupted_response : jsstring :=
  data_line (delta_payload "Hel") ++ corrupted_line ++ nl
  ++ data_line (delta_payload "lo") ++ data_line (js "[DONE]").

Definition clean_response : jsstring :=
  data_line (delta_payload "Hel")
  ++ data_line (delta_payload "lo") ++ data_line (js "[DONE]").

Definition no_settings : settings :=
  {| provider := None; model := None; temperature := None;
     maxTokens := None; topP := None; frequencyPenalty := None;
     presencePenalty := None; stream := None |}.

Definition hot_settings : settings :=
  {| provider := None; model := None; temperature := Some 2.5%float;
     maxTokens := None; topP := None; frequencyPenalty := None;
     presencePenalty := None; stream := None |}.

Definition zero_tokens_settings : settings :=
  {| provider := Some (js "openai"); model := Some (js "gpt-4");
     temperature := Some 0%float; maxTokens := Some 0%float;
     topP := Some 1%float; frequencyPenalty := None;
     presencePenalty := None; stream := None |}.

Definition network_error : js_error := TypeError (js "fetch failed").

Definition respond (text : jsstring) : fetch_outcome :=
  FetchResolved 200 {| chunks := [utf8 text]; ending := EndOfStream |}.

(** The connection fails on attempts 1 and 2 and succeeds on attempt 3. *)
Definition flaky_fetch (n : nat) : fetch_outcome :=
  if (n <? 2)%nat then FetchRejected network_error
  else respond clean_response.

Definition steady_fetch (text : jsstring) (n : nat) : fetch_outcome :=
  respond text.

Definition createChatCompletion (n : nat)
  : completion UltraAIService.openai_response :=
  Return {| UltraAIService.choices_0_message_content := js "Hello";
            UltraAIService.usage_total_tokens := 12%float;
            UltraAIService.openai_model := js "gpt-3.5-turbo";
            UltraAIService.choices_0_finish_reason := js "stop" |}.

Definition messagesCreate (n : nat)
  : completion UltraAIService.anthropic_response :=
  Return {| UltraAIService.content_0_text := js "Hello";
            UltraAIService.usage_input_tokens := 8%float;
            UltraAIService.usage_output_tokens := 4%float;
            UltraAIService.anthropic_model := js "claude-2.1";
            UltraAIService.stop_reason := js "end_turn" |}.

Definition conversation : list message :=
  [ {| role := js "system"; content := js "Be brief." |};
    {| role := js "user"; content := js "Hi" |};
    {| role := js "assistant"; content := js "Hello" |};
    {| role := js "tool"; content := js "42" |} ].

End Sample.

(** ** Further methods of the service *)

Module UltraAIService2.

(** What [getAvailableModels] returns: an array of model names, the
    member of [Object.prototype] found under the provider's name, or the
    whole table. *)
Inductive available :=
| Models (models : list jsstring)
| Member (name : jsstring)
| Table (table : gmap jsstring (list jsstring)).

(** [getAvailableModels(provider = null)]: what the table holds under
    the provider's name -- the provider's models, or whatever the
    prototype chain has there --, an empty array when that is
    [undefined], and the whole table when no provider is given. *)
Definition getAvailableModels (provider : option jsstring) : available :=
  match provider with
  | Some p =>
      if JS.truthy_string p then
        match JS.get UltraAIService.availableModels p with
        | Some (JS.Own models) => Models models
        | Some (JS.Inherited name) => Member name
        | None => Models []
        end
      else Table UltraAIService.availableModels
  | None => Table UltraAIService.availableModels
  end.

(** The error [validateSettings] pushes for a model outside [models]. *)
Definition model_error (models : list jsstring) : jsstring :=
  js "Model must be one of: " ++ JS.join (js ", ") models.

End UltraAIService2.

(** ** More sample responses *)

Module Sample2.

(** A provider's error object, as it may arrive inside a stream. *)
Definition error_payload : jsstring :=
  js "{" ++ Sample.quoted "error" ++ js ":{" ++ Sample.quoted "message"
  ++ js ":" ++ Sample.quoted "overloaded" ++ js "}}".

Definition error_json : json :=
  JObj [(js "error", JObj [(js "message", JStr (js "overloaded"))])].

(** [JSON.parse] on the payloads of the examples, error object
    included. *)
Definition JSON_parse (payload : jsstring) : completion json :=
  if decide (payload = error_payload) then Return error_json
  else Sample.JSON_parse payload.

(** A response with an [event:] field, a comment and an error object
    among its records. *)
Definition mixed_response : jsstring :=
  Sample.data_line (Sample.delta_payload "Hel")
  ++ js "event: ping" ++ Sample.nl
  ++ Sample.data_line error_payload
  ++ Sample.data_line (Sample.delta_payload "lo")
  ++ Sample.data_line (js "[DONE]").

Definition records : list jsstring :=
  [ js "data: " ++ Sample.delta_payload "Hel";
    js "data: " ++ Sample.delta_payload "lo";
    js "data: [DONE]" ].

Definition anthropic_settings : settings :=
  {| provider := Some (js "anthropic"); model := None; temperature := None;
     maxTokens := None; topP := None; frequencyPenalty := None;
     presencePenalty := None; stream := None |}.

Definition local_settings : settings :=
  {| provider := Some (js "local"); model := Some (js "llama3");
     temperature := None; maxTokens := None; topP := None;
     frequencyPenalty := None; presencePenalty := None; stream := None |}.

Definition rate_limited : js_error :=
  AxiosError (js "Request failed with status code 429")
    (Some (429%Z, Data (Some (js "Rate limit reached")))) true.

(** A gateway in front of the provider answers 502 with an empty body:
    the rejection has a response without data. *)
Definition bad_gateway : js_error :=
  AxiosError (js "Request failed with status code 502")
    (Some (502%Z, DataUndefined)) true.

Definition failing_createChatCompletion (n : nat)
  : completion UltraAIService.openai_response :=
  Throw bad_gateway.

(** Settings that name a member of [Object.prototype] as provider. *)
Definition constructor_settings : settings :=
  {| provider := Some (js "constructor"); model := Some (js "gpt-4");
     temperature := Some 0%float; maxTokens := Some 0%float;
     topP := None; frequencyPenalty := None; presencePenalty := None;
     stream := None |}.

Definition rejecting_createChatCompletion (n : nat)
  : completion UltraAIService.openai_response :=
  Throw rate_limited.

End Sample2.

(** ** The server's database connection ([connectDB])

    [connect k] is what the k-th call of [mongoose.connect] settles with:
    [None] when it resolves, [Some error] when it rejects.  [retries] is
    an integer; the loop [while (retries)] runs on fuel, one unit per
    iteration. *)

Module Server.

Inductive effect :=
| MongooseConnect
| LoggerInfo (message : jsstring)
| LoggerError (message : jsstring) (error : js_error)
| SetTimeout (ms : Z).

Section ConnectDB.

Variable connect : nat -> option js_error.

Fixpoint connectDB_loop (fuel : nat) (retries : Z) (attempt : nat)
  : option (list effect) :=
  if (retries =? 0)%Z then Some []
  else
    match fuel with
    | O => None
    | S fuel' =>
        match connect attempt with
        | None =>
            Some [MongooseConnect; LoggerInfo (js "Connected to MongoDB")]
        | Some error =>
            rest ← connectDB_loop fuel' (retries - 1) (S attempt);
            Some ([MongooseConnect;
                   LoggerError
                     (js "MongoDB connection failed. Retries left: "
                      ++ JS.string_of_Z retries) error;
                   SetTimeout 5000] ++ rest)
        end
    end.

(** [connectDB(retries = 5)]: the effects of a run that ends, [None]
    when [fuel] iterations do not end it. *)
Definition connectDB (fuel : nat) (retries : option Z)
  : option (list effect) :=
  connectDB_loop fuel (default 5%Z retries) 0.

End ConnectDB.






End Server.

(** ** The chat document (the Chat model)

    The fields of a chat that its virtuals, its pre-save hook and its
    instance methods read or write.  An ObjectId stands as the string
    [toString()] gives for it, a date as its time value. *)

Module Chat.

Record participant := {
  p_userId : jsstring;
  p_role : jsstring;
  p_joinedAt : Z
}.

Record chat_message := {
  msg_role : jsstring;
  msg_content : jsstring;
  msg_tokens_prompt : float;
  msg_tokens_completion : float;
  msg_createdAt : Z
}.

Record chat := {
  title : jsstring;
  userId : jsstring;
  messages : list chat_message;
  participants : list participant;
  visibility : jsstring;
  shareToken : option jsstring;
  tokenCount_prompt : float;
  tokenCount_completion : float;
  tokenCount_total : float;
  messageCount_user : nat;
  messageCount_assistant : nat;
  messageCount_total : nat;
  lastMessageAt : option Z
}.

Definition with_participants (c : chat) (ps : list participant) : chat :=
  {| title := title c; userId := userId c; messages := messages c;
     participants := ps; visibility := visibility c;
     shareToken := shareToken c;
     tokenCount_prompt := tokenCount_prompt c;
     tokenCount_completion := tokenCount_completion c;
     tokenCount_total := tokenCount_total c;
     messageCount_user := messageCount_user c;
     messageCount_assistant := messageCount_assistant c;
     messageCount_total := messageCount_total c;
     lastMessageAt := lastMessageAt c |}.

(** [participants.find(p => p.userId.toString() === userId.toString())]. *)
Fixpoint find (u : jsstring) (ps : list participant) : option participant :=
  match ps with
  | [] => None
  | p :: rest => if decide (p_userId p = u) then Some p else find u rest
  end.

(** [existing.role = role] on the participant [find] returns. *)
Fixpoint set_role (u role : jsstring) (ps : list participant)
  : list participant :=
  match ps with
  | [] => []
  | p :: rest =>
      if decide (p_userId p = u)
      then {| p_userId := p_userId p; p_role := role;
              p_joinedAt := p_joinedAt p |} :: rest
      else p :: set_role u role rest
  end.

(** Virtuals. *)
Definition lastMessage (c : chat) : option chat_message := last (messages c).

Definition participantCount (c : chat) : nat := length (participants c).

Definition isShared (c : chat) : bool :=
  negb (bool_decide (visibility c = js "private")).

(** [addParticipant(userId, role = 'viewer')], called at time [now]. *)
Definition addParticipant (now : Z) (u : jsstring) (role : option jsstring)
  (c : chat) : chat :=
  let role := default (js "viewer") role in
  match find u (participants c) with
  | Some existing => with_participants c (set_role u role (participants c))
  | None =>
      with_participants c
        (participants c
         ++ [{| p_userId := u; p_role := role; p_joinedAt := now |}])
  end.

Definition removeParticipant (u : jsstring) (c : chat) : chat :=
  with_participants c
    (filter (fun p => p_userId p <> u) (participants c)).

(** [canEdit(userId)]: [true], or [participant && participant.role ===
    'editor'], which is [undefined] when there is no such participant. *)
Definition canEdit (u : jsstring) (c : chat) : option bool :=
  if decide (userId c = u) then Some true
  else
    match find u (participants c) with
    | Some participant => Some (bool_decide (p_role participant = js "editor"))
    | None => None
    end.

Definition canView (u : jsstring) (c : chat) : bool :=
  if decide (visibility c = js "public") then true
  else if decide (userId c = u) then true
  else match find u (participants c) with Some _ => true | None => false end.

(** Truthiness of what [canEdit] returns. *)
Definition granted (r : option bool) : bool := default false r.

(** [msg.tokens.prompt || 0]. *)
Definition or_zero (x : float) : float :=
  if JS.truthy_number x then x else 0%float.

(** The pre-save hook; [random_hex] is what
    [crypto.randomBytes(16).toString('hex')] gives. *)
Definition pre_save (random_hex : jsstring) (c : chat) : chat :=
  let prompt :=
    fold_left (fun sum msg => (sum + or_zero (msg_tokens_prompt msg))%float)
      (messages c) 0%float in
  let completion :=
    fold_left
      (fun sum msg => (sum + or_zero (msg_tokens_completion msg))%float)
      (messages c) 0%float in
  {| title := title c; userId := userId c; messages := messages c;
     participants := participants c; visibility := visibility c;
     shareToken :=
       if negb (bool_decide (visibility c = js "private"))
          && negb (match shareToken c with
                   | Some token => JS.truthy_string token
                   | None => false
                   end)
       then Some random_hex else shareToken c;
     tokenCount_prompt := prompt;
     tokenCount_completion := completion;
     tokenCount_total := (prompt + completion)%float;
     messageCount_user :=
       length (filter (fun msg => msg_role msg = js "user") (messages c));
     messageCount_assistant :=
       length (filter (fun msg => msg_role msg = js "assistant")
                 (messages c));
     messageCount_total := length (messages c);
     lastMessageAt :=
       match last (messages c) with
       | Some msg => Some (msg_createdAt msg)
       | None => lastMessageAt c
       end |}.

(** The class [\w]. *)
Definition is_word (c : N) : bool :=
  ((0x30 <=? c) && (c <=? 0x39) || (0x41 <=? c) && (c <=? 0x5A)
   || (c =? 0x5F) || (0x61 <=? c) && (c <=? 0x7A))%N.

(** [generateTitle(content)]: [content.replace(/[^\w\s]/gi, '')], its
    first eight pieces between runs of white space joined by spaces, and
    an ellipsis when the cleaned content is longer than 50. *)
Definition generateTitle (content : jsstring) : jsstring :=
  let cleanContent :=
    filter (fun c => is_word c || JS.is_whitespace c) content in
  let words := take 8 (JS.split_ws cleanContent) in
  JS.join (js " ") words
  ++ (if (50 <? length cleanContent)%nat then js "..." else []).

End Chat.

(** ** More samples *)

Module Sample3.

(** A database that refuses every connection, and one that accepts the
    third. *)
Definition refusing (k : nat) : option js_error :=
  Some (Error (js "connect ECONNREFUSED")).


Definition shared_chat : Chat.chat :=
  {| Chat.title := js "Plans"; Chat.userId := js "64a1";
     Chat.messages :=
       [ {| Chat.msg_role := js "system"; Chat.msg_content := js "Be brief.";
            Chat.msg_tokens_prompt := 0; Chat.msg_tokens_completion := 0;
            Chat.msg_createdAt := 1000 |};
         {| Chat.msg_role := js "user"; Chat.msg_content := js "Hi";
            Chat.msg_tokens_prompt := 3; Chat.msg_tokens_completion := 0;
            Chat.msg_createdAt := 2000 |};
         {| Chat.msg_role := js "assistant"; Chat.msg_content := js "Hello";
            Chat.msg_tokens_prompt := 0; Chat.msg_tokens_completion := 5;
            Chat.msg_createdAt := 3000 |} ];
     Chat.participants :=
       [ {| Chat.p_userId := js "64b2"; Chat.p_role := js "viewer";
            Chat.p_joinedAt := 1500 |} ];
     Chat.visibility := js "shared"; Chat.shareToken := None;
     Chat.tokenCount_prompt := 0; Chat.tokenCount_completion := 0;
     Chat.tokenCount_total := 0; Chat.messageCount_user := 0;
     Chat.messageCount_assistant := 0; Chat.messageCount_total := 0;
     Chat.lastMessageAt := None |}.

Definition random_hex : jsstring := js "00112233445566778899aabbccddeeff".

End Sample3.

(** ** Callbacks that throw

    [streamResponse] and [openAIStream] once more, with everything the
    caller and the platform may do to them: a callback may throw (a
    callback that is missing from [callbacks] throws a [TypeError] when
    it is called), [settings] and [callbacks] may be [undefined] or
    [null], and a response may come without a body ([response.body] is
    [null] for a status such as 204).  With callbacks that return,
    arguments that are objects and responses that have a body these are
    the methods of [UltraAIService]. *)

Module Callbacks.

(** An argument of a call. *)
Inductive argument (A : Type) :=
| Undefined
| Null
| Given (a : A).
Arguments Undefined {A}.
Arguments Null {A}.
Arguments Given {A} a.

Definition nullish_name {A} (a : argument A) : jsstring :=
  match a with
  | Null => js "null"
  | _ => js "undefined"
  end.

(** What [fetch] settles with; [body] is [None] when [response.body] is
    [null]. *)
Inductive response :=
| Rejected (e : js_error)
| Resolved (status : Z) (body : option body).

(** A response of [fetch] above, which has a body. *)
Definition with_body (r : fetch_outcome) : response :=
  match r with
  | FetchRejected e => Rejected e
  | FetchResolved status b => Resolved status (Some b)
  end.

(** How the body of [for (const line of lines)] ends. *)
Inductive outcome :=
| Continue
| Returned
| Thrown (e : js_error).

Section Run.

Variable JSON_parse : jsstring -> completion json.
Variable fetch : nat -> response.

(** The callbacks: [throws h f] is what the call [f] of a callback
    throws, if it throws, the effects [h] of the run having come before
    it.  The effect of a call is recorded whether it returns or
    throws. *)
Variable throws : list effect -> effect -> option js_error.

Definition call (h : list effect) (f : effect) : completion unit :=
  match throws h f with
  | Some e => Throw e
  | None => Return tt
  end.

(** The body of [for (const line of lines)] after the effects [h]: a
    throwing [onComplete] leaves the loop with its error, a throwing
    [onChunk] is caught with the parse errors and logged. *)
Definition handle_line (h : list effect) (line : jsstring)
  : list effect * outcome :=
  let trimmedLine := JS.trim line in
  if bool_decide (trimmedLine = [])
     || bool_decide (trimmedLine = js "data: [DONE]")
  then
    ([OnComplete],
     match call h OnComplete with
     | Return _ => Returned
     | Throw e => Thrown e
     end)
  else if JS.startsWith (js "data: ") trimmedLine then
    match data ← JSON_parse (JS.slice 6 trimmedLine);
          UltraAIService.delta_content data
    with
    | Return chunk =>
        match chunk with
        | Some c =>
            if Json.truthy chunk then
              match call h (OnChunk c) with
              | Return _ => ([OnChunk c], Continue)
              | Throw e =>
                  ([OnChunk c;
                    ConsoleError (js "Error parsing stream data:") e],
                   Continue)
              end
            else ([], Continue)
        | None => ([], Continue)
        end
    | Throw e =>
        ([ConsoleError (js "Error parsing stream data:") e], Continue)
    end
  else ([], Continue).

Fixpoint handle_lines (h : list effect) (lines : list jsstring)
  : list effect * outcome :=
  match lines with
  | [] => ([], Continue)
  | line :: rest =>
      let '(effects, r) := handle_line h line in
      match r with
      | Continue =>
          let '(effects', r') := handle_lines (h ++ effects) rest in
          (effects ++ effects', r')
      | _ => (effects, r)
      end
  end.

Fixpoint read_loop (h : list effect) (decoder : TextDecoder.state)
  (buffer : jsstring) (reads : list (list Byte.byte)) (fin : body_end)
  : completion unit * list effect :=
  match reads with
  | [] =>
      match fin with
      | EndOfStream => (Return tt, [])
      | ReadFailure e => (Throw e, [])
      end
  | value :: reads' =>
      let '(decoder', text) := TextDecoder.decode decoder value in
      let buffer := buffer ++ text in
      let lines := JS.split 10 buffer in
      let '(popped, lines) := JS.pop lines in
      let buffer := default [] popped in
      let '(effects, r) := handle_lines h lines in
      match r with
      | Returned => (Return tt, effects)
      | Thrown e => (Throw e, effects)
      | Continue =>
          let '(c, effects') :=
            read_loop (h ++ effects) decoder' buffer reads' fin in
          (c, effects ++ effects')
      end
  end.

(** [catch (error) { onError(error); }] after the effects [h] of the
    [try] block, which ended in [r]. *)
Definition catch_onError (h : list effect) (r : completion unit)
  : completion unit * list effect :=
  match r with
  | Return _ => (Return tt, h)
  | Throw e => (call h (OnError e), h ++ [OnError e])
  end.

Definition openAIStream (messages : list message) (s : settings) (n : nat)
  : completion unit * list effect * nat :=
  let request :=
    FetchOpenAI
      {| req_settings := s;
         req_messages := UltraAIService.formatMessagesForOpenAI messages;
         req_stream := true |} in
  let '(r, effects) :=
    match fetch n with
    | Rejected e => (Throw e, [])
    | Resolved status b =>
        if negb (status_ok status) then
          (Throw (Error (js "HTTP error! status: "
                         ++ JS.string_of_Z status)), [])
        else
          match b with
          | None =>
              (Throw (TypeError (js
                 "Cannot read properties of null (reading 'getReader')")),
               [])
          | Some b =>
              read_loop [request] TextDecoder.init [] (chunks b) (ending b)
          end
    end in
  (catch_onError (request :: effects) r, S n).

Definition streamResponse (messages : list message)
  (s : argument settings) (callbacks : argument unit) (n : nat)
  : completion unit * list effect * nat :=
  match callbacks, s with
  | Given _, Given s =>
      let provider := UltraAIService.provider_or_default s in
      if decide (provider = js "openai") then
        let '(r, effects, n') := openAIStream messages s n in
        (catch_onError effects r, n')
      else if decide (provider = js "anthropic") then
        (catch_onError []
           (Throw (UltraAIService.not_a_function "anthropicStream")), n)
      else
        (catch_onError []
           (Throw (Error (js "Streaming not supported for provider: "
                          ++ provider))), n)
  | Given _, _ =>
      (Throw (TypeError (js "Cannot read properties of "
                         ++ nullish_name s ++ js " (reading 'provider')")),
       [], n)
  | _, _ =>
      (Throw (TypeError (js "Cannot destructure property 'onChunk' of "
                         ++ js "'callbacks' as it is "
                         ++ nullish_name callbacks ++ js ".")),
       [], n)
  end.

End Run.

(** The terminal callbacks of a run, [f] and those after it, the effects
    [h] having come before [f]: each callback after the first is
    [onError], called with what the callback before it threw. *)
Fixpoint error_chain (throws : list effect -> effect -> option js_error)
  (h : list effect) (f : effect) (rest : list effect) : Prop :=
  match rest with
  | [] => True
  | g :: rest' =>
      exists e,
        throws h f = Some e /\ g = OnError e
        /\ error_chain throws (h ++ [f]) g rest'
  end.

(** Callbacks that return. *)
Definition returning (h : list effect) (f : effect) : option js_error :=
  None.

End Callbacks.

(** ** Sample callbacks *)

Module Sample4.

(** A caller whose [onComplete] fails, as when rendering the finished
    message throws. *)
Definition failing_onComplete (h : list effect) (f : effect)
  : option js_error :=
  match f with
  | OnComplete => Some (Error (js "render failed"))
  | _ => None
  end.

(** The same caller, having passed no [onError] either. *)
Definition no_onError (h : list effect) (f : effect) : option js_error :=
  match f with
  | OnComplete => Some (Error (js "render failed"))
  | OnError _ => Some (TypeError (js "onError is not a function"))
  | _ => None
  end.

(** A caller whose [onChunk] fails on every chunk after the first. *)
Definition failing_onChunk (h : list effect) (f : effect)
  : option js_error :=
  match f with
  | OnChunk _ =>
      if existsb (fun g => match g with OnChunk _ => true | _ => false end) h
      then Some (Error (js "append failed")) else None
  | _ => None
  end.

Definition respond (text : jsstring) (n : nat) : Callbacks.response :=
  Callbacks.with_body (Sample.respond text).

(** A response without content. *)
Definition no_content (n : nat) : Callbacks.response :=
  Callbacks.Resolved 204 None.

End Sample4.

(** ** Lemmas on the built-ins *)

Section SplitLemmas.

Variable sep : N.

Lemma split_nonempty (s : jsstring) : JS.split sep s <> [].
Proof.
  induction s as [|c s IH]; simpl; [done|].
  destruct (c =? sep)%N; [done|].
  destruct (JS.split sep s); done.
Qed.

Lemma split_no_sep (s : jsstring) : sep ∉ s -> JS.split sep s = [s].
Proof.
  induction s as [|c s IH]; intros Hs; simpl; [done|].
  apply not_elem_of_cons in Hs as [Hc Hs].
  destruct (N.eqb_spec c sep) as [->|_]; [done|].
  by rewrite IH.
Qed.

Lemma split_app (a b : jsstring) :
  JS.split sep (a ++ b)
  = removelast (JS.split sep a) ++ JS.split sep (last_piece sep a ++ b).
Proof.
  unfold last_piece.
  induction a as [|c a IH]; simpl; [done|].
  destruct (N.eqb_spec c sep) as [->|Hc].
  - rewrite IH. pose proof (split_nonempty a) as Hne.
    destruct (JS.split sep a) as [|p ps]; [done|]. done.
  - rewrite IH. clear IH. pose proof (split_nonempty a) as Hne.
    destruct (JS.split sep a) as [|p ps]; [done|].
    destruct ps as [|p' ps]; simpl.
    + destruct (N.eqb_spec c sep); [done|]. done.
    + done.
Qed.

Lemma last_piece_no_sep (s : jsstring) : sep ∉ last_piece sep s.
Proof.
  unfold last_piece.
  induction s as [|c s IH]; simpl; [apply not_elem_of_nil|].
  pose proof (split_nonempty s) as Hne.
  destruct (N.eqb_spec c sep) as [->|Hc].
  - destruct (JS.split sep s) as [|p ps]; [done|]. done.
  - destruct (JS.split sep s) as [|p ps]; [done|].
    destruct ps as [|p' ps]; simpl in *; [|done].
    apply not_elem_of_cons. split; [congruence|done].
Qed.

End SplitLemmas.

Lemma decode_app (st : TextDecoder.state) (a b : list Byte.byte) :
  TextDecoder.decode st (a ++ b)
  = let '(st1, out1) := TextDecoder.decode st a in
    let '(st2, out2) := TextDecoder.decode st1 b in
    (st2, out1 ++ out2).
Proof.
  revert st. induction a as [|x a IH]; intros st; simpl.
  - by destruct (TextDecoder.decode st b).
  - destruct (TextDecoder.step st x) as [st1 out1]. rewrite IH.
    destruct (TextDecoder.decode st1 a) as [st2 out2].
    destruct (TextDecoder.decode st2 b) as [st3 out3].
    by rewrite app_assoc.
Qed.

Lemma decoded_nil (st : TextDecoder.state) : decoded st [] = [].
Proof. reflexivity. Qed.

Lemma decoded_cons (st : TextDecoder.state) value reads :
  decoded st (value :: reads)
  = snd (TextDecoder.decode st value)
    ++ decoded (fst (TextDecoder.decode st value)) reads.
Proof.
  unfold decoded. simpl. rewrite decode_app.
  destruct (TextDecoder.decode st value) as [st1 out1]. simpl.
  by destruct (TextDecoder.decode st1 (concat reads)).
Qed.

Section LoopLemmas.

Variable JSON_parse : jsstring -> completion json.

Abbreviation handle_lines := (UltraAIService.handle_lines JSON_parse).
Abbreviation handle_line := (UltraAIService.handle_line JSON_parse).
Abbreviation read_loop := (UltraAIService.read_loop JSON_parse).

Lemma handle_lines_app (l1 l2 : list jsstring) :
  handle_lines (l1 ++ l2)
  = let '(e1, r1) := handle_lines l1 in
    if r1 then (e1, true)
    else let '(e2, r2) := handle_lines l2 in (e1 ++ e2, r2).
Proof.
  induction l1 as [|line l1 IH]; simpl.
  - by destruct (handle_lines l2).
  - destruct (handle_line line) as [e [|]]; [done|].
    rewrite IH. destruct (handle_lines l1) as [e1 [|]]; [done|].
    destruct (handle_lines l2) as [e2 r2]. by rewrite app_assoc.
Qed.

Lemma complete_lines_app (a b : jsstring) :
  complete_lines (a ++ b)
  = complete_lines a ++ complete_lines (last_piece 10 a ++ b).
Proof.
  unfold complete_lines. rewrite split_app.
  apply removelast_app, split_nonempty.
Qed.

Lemma last_piece_app (a b : jsstring) :
  last_piece 10 (a ++ b) = last_piece 10 (last_piece 10 a ++ b).
Proof.
  unfold last_piece at 1. rewrite split_app, last_app.
  set (u := last_piece 10 a ++ b). unfold last_piece.
  destruct (last (JS.split 10 u)) eqn:E; [done|].
  apply last_None in E. by apply split_nonempty in E.
Qed.

(** The loop sees the complete lines of the text received so far, in
    order, and stops reading once a line returns. *)
Lemma read_loop_lines (reads : list (list Byte.byte)) :
  forall st buffer fin,
    10%N ∉ buffer ->
    read_loop st buffer reads fin
    = run_lines JSON_parse (complete_lines (buffer ++ decoded st reads)) fin.
Proof.
  induction reads as [|value reads IH]; intros st buffer fin Hbuf.
  - rewrite decoded_nil, app_nil_r. unfold complete_lines, run_lines.
    rewrite split_no_sep by done. simpl. by destruct fin.
  - simpl. rewrite decoded_cons.
    destruct (TextDecoder.decode st value) as [st1 text]. simpl.
    rewrite app_assoc, complete_lines_app.
    unfold run_lines. rewrite handle_lines_app.
    fold (complete_lines (buffer ++ text)).
    destruct (handle_lines (complete_lines (buffer ++ text)))
      as [e1 [|]]; [done|].
    fold (last_piece 10 (buffer ++ text)).
    rewrite IH by apply last_piece_no_sep. unfold run_lines.
    destruct (handle_lines _) as [e2 [|]]; [done|].
    destruct (finish fin) as [r e3]. by rewrite app_assoc.
Qed.

End LoopLemmas.

Lemma split_sep_cons (sep : N) (x s : jsstring) :
  sep ∉ x -> JS.split sep (x ++ sep :: s) = x :: JS.split sep s.
Proof.
  induction x as [|c x IH]; intros Hx; simpl.
  - by rewrite N.eqb_refl.
  - apply not_elem_of_cons in Hx as [Hc Hx].
    destruct (N.eqb_spec c sep) as [->|_]; [done|].
    by rewrite IH.
Qed.

Lemma last_piece_closed (pre : jsstring) :
  pre = [] \/ last pre = Some 10%N -> last_piece 10 pre = [].
Proof.
  intros [->|Hlast]; [done|].
  destruct (last_Some pre 10%N) as [[pre' ->] _]; [done|].
  unfold last_piece. rewrite split_app.
  rewrite (split_sep_cons 10 (last_piece 10 pre') [])
    by apply last_piece_no_sep.
  simpl. by rewrite last_app.
Qed.

Lemma complete_lines_cons (line rest : jsstring) :
  10%N ∉ line ->
  complete_lines (line ++ 10%N :: rest) = line :: complete_lines rest.
Proof.
  intros Hline. unfold complete_lines. rewrite split_sep_cons by done.
  pose proof (split_nonempty 10 rest).
  by destruct (JS.split 10 rest).
Qed.

Lemma startsWith_app (p s : jsstring) : JS.startsWith p (p ++ s) = true.
Proof.
  induction p as [|a p IH]; simpl; [done|]. by rewrite N.eqb_refl, IH.
Qed.

Lemma slice_app (p s : jsstring) : JS.slice (length p) (p ++ s) = s.
Proof. unfold JS.slice. by rewrite drop_app_length. Qed.

Lemma callbacks_app (t1 t2 : list effect) :
  callbacks (t1 ++ t2) = callbacks t1 ++ callbacks t2.
Proof. apply filter_app. Qed.

Section MalformedRecord.

Variable JSON_parse : jsstring -> completion json.

(** A [data: ] line whose payload is not JSON is logged and skipped. *)
Lemma handle_line_malformed (line payload : jsstring) (e : js_error) :
  JS.trim line = js "data: " ++ payload ->
  payload <> js "[DONE]" ->
  JSON_parse payload = Throw e ->
  UltraAIService.handle_line JSON_parse line
  = ([ConsoleError (js "Error parsing stream data:") e], false).
Proof.
  intros Htrim Hdone Hparse. unfold UltraAIService.handle_line.
  rewrite Htrim.
  rewrite (bool_decide_eq_false_2 (js "data: " ++ payload = [])) by done.
  rewrite bool_decide_eq_false_2; last first.
  { intros H. apply Hdone.
    change (js "data: [DONE]") with (js "data: " ++ js "[DONE]") in H.
    by apply app_inv_head in H. }
  simpl orb. cbv iota. rewrite startsWith_app.
  change 6 with (length (js "data: ")). rewrite slice_app, Hparse.
  reflexivity.
Qed.

Lemma run_lines_skip (l1 l2 : list jsstring) (line : jsstring)
  (logged : list effect) (fin : body_end) :
  UltraAIService.handle_line JSON_parse line = (logged, false) ->
  callbacks logged = [] ->
  fst (run_lines JSON_parse (l1 ++ line :: l2) fin)
  = fst (run_lines JSON_parse (l1 ++ l2) fin)
  /\ callbacks (snd (run_lines JSON_parse (l1 ++ line :: l2) fin))
     = callbacks (snd (run_lines JSON_parse (l1 ++ l2) fin)).
Proof.
  intros Hline Hlog. unfold run_lines. rewrite !handle_lines_app.
  destruct (UltraAIService.handle_lines JSON_parse l1) as [e1 [|]];
    [done|].
  simpl. rewrite Hline.
  destruct (UltraAIService.handle_lines JSON_parse l2) as [e2 [|]]; simpl.
  - by rewrite !callbacks_app, Hlog.
  - destruct (finish fin) as [r e3]. simpl.
    by rewrite !callbacks_app, Hlog.
Qed.

End MalformedRecord.

(** ** Lemmas on number comparisons *)

Lemma SFcompare_refl (x : spec_float) (c : comparison) (y : spec_float) :
  SFcompare x y = Some c -> SFcompare x x = Some Eq.
Proof.
  destruct x as [s|s| |s m e]; simpl; try done.
  all: try (by destruct s).
  intros _. rewrite Z.compare_refl.
  change PosDef.Pos.compare_cont with Pos.compare_cont.
  rewrite Pos.compare_cont_refl. by destruct s.
Qed.

Lemma SFcompare_antisym (x y : spec_float) (c : comparison) :
  SFcompare x y = Some c -> SFcompare y x = Some (CompOpp c).
Proof.
  destruct x as [s1|s1| |s1 m1 e1], y as [s2|s2| |s2 m2 e2]; simpl;
    try done; intros [= <-]; try (by destruct s1); try (by destruct s2);
    try (by destruct s1, s2).
  change PosDef.Pos.compare_cont with Pos.compare_cont.
  pose proof (Pos.compare_cont_antisym m1 m2 Eq) as Hm. simpl in Hm.
  destruct s1, s2; try done; rewrite (Z.compare_antisym e1 e2);
    destruct (e1 ?= e2)%Z; simpl; try done; by rewrite <- Hm.
Qed.

Lemma ltb_not_nan (x y : float) :
  (x <? y)%float = true ->
  PrimFloat.is_nan x = false /\ PrimFloat.is_nan y = false.
Proof.
  rewrite FloatAxioms.ltb_spec. unfold SFltb, PrimFloat.is_nan.
  rewrite !FloatAxioms.eqb_spec. unfold SFeqb.
  destruct (SFcompare (Prim2SF x) (Prim2SF y)) as [c|] eqn:E; [|done].
  intros _. rewrite (SFcompare_refl _ _ _ E).
  apply SFcompare_antisym in E. by rewrite (SFcompare_refl _ _ _ E).
Qed.

Lemma ltb_not_eqb (x y : float) :
  (x <? y)%float = true -> (x =? y)%float = false.
Proof.
  rewrite FloatAxioms.ltb_spec, FloatAxioms.eqb_spec. unfold SFltb, SFeqb.
  by destruct (SFcompare (Prim2SF x) (Prim2SF y)) as [[]|].
Qed.

Lemma ltb_flip_not_eqb (x y : float) :
  (x <? y)%float = true -> (y =? x)%float = false.
Proof.
  rewrite FloatAxioms.ltb_spec, FloatAxioms.eqb_spec. unfold SFltb, SFeqb.
  destruct (SFcompare (Prim2SF x) (Prim2SF y)) as [c|] eqn:E; [|done].
  apply SFcompare_antisym in E. rewrite E. by destruct c.
Qed.

Lemma leb_not_ltb (x y : float) :
  (x <=? y)%float = true -> (y <? x)%float = false.
Proof.
  rewrite FloatAxioms.leb_spec, FloatAxioms.ltb_spec. unfold SFleb, SFltb.
  destruct (SFcompare (Prim2SF x) (Prim2SF y)) as [c|] eqn:E; [|done].
  apply SFcompare_antisym in E. rewrite E. by destruct c.
Qed.

(** A number below 0 or above a positive bound is truthy. *)
Lemma below_zero_truthy (x : float) :
  (x <? 0)%float = true -> JS.truthy_number x = true.
Proof.
  intros H. unfold JS.truthy_number.
  rewrite (ltb_not_eqb _ _ H). by destruct (ltb_not_nan _ _ H) as [-> _].
Qed.

Lemma above_truthy (b x : float) :
  (0 <? b)%float = true -> (b <? x)%float = true -> JS.truthy_number x = true.
Proof.
  intros Hb H. unfold JS.truthy_number.
  destruct (ltb_not_nan _ _ H) as [_ ->].
  rewrite orb_false_r. apply negb_true_iff.
  revert Hb H. rewrite !FloatAxioms.ltb_spec, FloatAxioms.eqb_spec.
  unfold SFltb, SFeqb.
  change (Prim2SF 0) with (S754_zero false).
  destruct (Prim2SF b) as [s|s| |s m e], (Prim2SF x) as [s'|s'| |s' m' e'];
    simpl; try done.
  all: try (by destruct s); try (by destruct s'); by destruct s, s'.
Qed.

(** ** Chunk boundaries *)

Lemma read_loop_one_chunk (JSON_parse : jsstring -> completion json)
  (reads : list (list Byte.byte)) (fin : body_end) :
  UltraAIService.read_loop JSON_parse TextDecoder.init [] reads fin
  = UltraAIService.read_loop JSON_parse TextDecoder.init [] [concat reads] fin.
Proof.
  rewrite !read_loop_lines by apply not_elem_of_nil.
  unfold decoded. simpl. by rewrite app_nil_r.
Qed.

(** C4: the parse loop of openAIStream performs the same effects, in the
    same order and with the same completion, whether the upstream bytes
    arrive split at arbitrary chunk boundaries or as one single chunk;
    so does the whole method run on such a response. *)
Theorem openAIStream_chunk_boundaries
  (JSON_parse : jsstring -> completion json)
  (reads : list (list Byte.byte)) (fin : body_end) :
  UltraAIService.read_loop JSON_parse TextDecoder.init [] reads fin
  = UltraAIService.read_loop JSON_parse TextDecoder.init [] [concat reads] fin
  /\ forall status messages s n,
      UltraAIService.openAIStream JSON_parse
        (fun _ => FetchResolved status {| chunks := reads; ending := fin |})
        messages s n
      = UltraAIService.openAIStream JSON_parse
          (fun _ => FetchResolved status
                      {| chunks := [concat reads]; ending := fin |})
          messages s n.
Proof.
  split; [apply read_loop_one_chunk|].
  intros status messages s n.
  unfold UltraAIService.openAIStream, try_catch, mbind, M_bind, bind,
    await_call, lift.
  cbn [chunks ending]. by rewrite read_loop_one_chunk.
Qed.

(** The same response read as three chunks, cut inside a record and
    inside a line break, and as one chunk. *)
Example three_chunks_as_one :
  let whole := Sample.utf8 Sample.clean_response in
  UltraAIService.read_loop Sample.JSON_parse TextDecoder.init []
    [take 9 whole; take 40 (drop 9 whole); drop 49 whole] EndOfStream
  = (Return tt,
     [OnChunk (JStr (js "Hel")); OnChunk (JStr (js "lo")); OnComplete]).
Proof. vm_compute. reflexivity. Qed.

(** ** Malformed records *)

(** C9: a [data: ] line whose payload fails to parse as JSON is skipped:
    the parse loop emits for the stream what it emits for the stream
    without that line -- the same callbacks in the same order and the same
    completion -- so the line yields no content chunk, ends nothing, and
    reaches the caller through no callback; it is only logged. *)
Theorem openAIStream_skips_malformed
  (JSON_parse : jsstring -> completion json)
  (reads reads' : list (list Byte.byte)) (fin : body_end)
  (pre bad post payload : jsstring) (e : js_error) :
  decoded TextDecoder.init reads = pre ++ bad ++ 10%N :: post ->
  decoded TextDecoder.init reads' = pre ++ post ->
  pre = [] \/ last pre = Some 10%N ->
  10%N ∉ bad ->
  JS.trim bad = js "data: " ++ payload ->
  payload <> js "[DONE]" ->
  JSON_parse payload = Throw e ->
  let with_bad :=
    UltraAIService.read_loop JSON_parse TextDecoder.init [] reads fin in
  let without :=
    UltraAIService.read_loop JSON_parse TextDecoder.init [] reads' fin in
  fst with_bad = fst without
  /\ callbacks (snd with_bad) = callbacks (snd without)
  /\ UltraAIService.handle_line JSON_parse bad
     = ([ConsoleError (js "Error parsing stream data:") e], false).
Proof.
  intros Hreads Hreads' Hpre Hbad Htrim Hdone Hparse. cbv zeta.
  pose proof (handle_line_malformed JSON_parse bad payload e Htrim Hdone
                Hparse) as Hline.
  rewrite !read_loop_lines by apply not_elem_of_nil.
  rewrite !app_nil_l, Hreads, Hreads'.
  rewrite (complete_lines_app pre (bad ++ 10%N :: post)).
  rewrite (complete_lines_app pre post).
  rewrite (last_piece_closed pre Hpre), !app_nil_l.
  rewrite complete_lines_cons by done.
  destruct (run_lines_skip JSON_parse (complete_lines pre)
              (complete_lines post) bad _ fin Hline eq_refl) as [H1 H2].
  done.
Qed.

Lemma openAIStream_skips_malformed_witness :
  let run text :=
    UltraAIService.read_loop Sample.JSON_parse TextDecoder.init []
      [Sample.utf8 text] EndOfStream in
  fst (run Sample.corrupted_response) = fst (run Sample.clean_response)
  /\ callbacks (snd (run Sample.corrupted_response))
     = callbacks (snd (run Sample.clean_response))
  /\ UltraAIService.handle_line Sample.JSON_parse Sample.corrupted_line
     = ([ConsoleError (js "Error parsing stream data:")
           (SyntaxError (js "Unexpected token in JSON"))], false).
Proof.
  apply (openAIStream_skips_malformed Sample.JSON_parse
           [Sample.utf8 Sample.corrupted_response]
           [Sample.utf8 Sample.clean_response] EndOfStream
           (Sample.data_line (Sample.delta_payload "Hel"))
           Sample.corrupted_line
           (Sample.data_line (Sample.delta_payload "lo")
            ++ Sample.data_line (js "[DONE]"))
           (js "{" ++ Sample.quoted "choices" ++ js ":[{")
           (SyntaxError (js "Unexpected token in JSON"))).
  - vm_compute. reflexivity.
  - vm_compute. reflexivity.
  - right. vm_compute. reflexivity.
  - vm_compute. intros H.
    repeat (apply elem_of_cons in H as [H|H]; [discriminate H|]).
    by apply elem_of_nil in H.
  - vm_compute. reflexivity.
  - vm_compute. discriminate.
  - vm_compute. reflexivity.
Defined.

(** ** Message normalisation *)

(** C8: formatMessagesForAnthropic returns a list of the same length in
    the same order; each content is unchanged, the role 'assistant' is
    kept and every other role ('user', 'system', 'tool', ...) becomes
    'user'. *)
Theorem formatMessagesForAnthropic_roles (messages : list message) :
  length (UltraAIService.formatMessagesForAnthropic messages)
  = length messages
  /\ forall (i : nat) (msg : message),
      messages !! i = Some msg ->
      exists out : message,
        UltraAIService.formatMessagesForAnthropic messages !! i = Some out
        /\ content out = content msg
        /\ (role msg = js "assistant" -> role out = js "assistant")
        /\ (role msg <> js "assistant" -> role out = js "user")
        /\ (role msg ∈ [js "user"; js "system"; js "tool"] ->
            role out = js "user").
Proof.
  unfold UltraAIService.formatMessagesForAnthropic. split.
  - apply length_map.
  - induction messages as [|m messages IH]; intros [|i] msg Hi;
      simpl in *; try done.
    + injection Hi as ->. eexists. split; [done|]. simpl.
      split; [done|]. split; [|split].
      * intros H. by rewrite decide_True.
      * intros H. by rewrite decide_False.
      * intros H. rewrite decide_False; [done|]. intros Heq.
        rewrite Heq in H. vm_compute in H.
        repeat (apply elem_of_cons in H as [H|H]; [discriminate H|]).
        by apply elem_of_nil in H.
    + by apply IH.
Qed.

Example formatMessagesForAnthropic_conversation :
  UltraAIService.formatMessagesForAnthropic Sample.conversation
  = [ {| role := js "user"; content := js "Be brief." |};
      {| role := js "user"; content := js "Hi" |};
      {| role := js "assistant"; content := js "Hello" |};
      {| role := js "user"; content := js "42" |} ].
Proof. vm_compute. reflexivity. Qed.

(** ** Token estimation *)

Lemma split_ws_from_length (s : jsstring) :
  forall in_run piece,
    length (JS.split_ws_from in_run piece s)
    = S (Design.whitespace_runs in_run s).
Proof.
  induction s as [|c s IH]; intros in_run piece; simpl; [done|].
  destruct (JS.is_whitespace c); simpl.
  - destruct in_run; simpl; by rewrite IH.
  - by rewrite IH.
Qed.

(** C7: estimateTokens(text) is ceil((wordCount * 1.3 + charCount / 4) / 2)
    in the arithmetic of JavaScript numbers, wordCount being the number of
    white-space-separated segments of the text and charCount its
    length. *)
Theorem estimateTokens_formula (text : jsstring) :
  UltraAIService.estimateTokens text
  = JSNumber.ceil
      ((JSNumber.of_nat (Design.wordCount text) * 1.3
        + JSNumber.of_nat (Design.charCount text) / 4) / 2)%float.
Proof.
  unfold UltraAIService.estimateTokens, JS.split_ws, Design.wordCount,
    Design.charCount.
  by rewrite split_ws_from_length.
Qed.

(** The value is the integer ceil((26 w + 5 c) / 40): rounding does not
    show, here checked for every word count up to 120 and every length up
    to 240. *)
Lemma estimate_agrees_grid :
  forallb (fun w => forallb (Design.estimate_agrees w) (seq 0 241)) (seq 1 120)
  = true.
Proof. vm_compute. reflexivity. Qed.

Example estimateTokens_sentence :
  UltraAIService.estimateTokens (js "hello world, this is a test") = 8%float
  /\ UltraAIService.estimateTokens (js "") = 1%float
  /\ UltraAIService.estimateTokens (js " a  b ") = 4%float.
Proof. vm_compute. done. Qed.

(** ** Cost estimation *)

(** For a provider and model with a rate entry, estimateCost is
    (inputTokens / 1000 * inputRate) + (outputTokens / 1000 * outputRate);
    'openai' / 'gpt-3.5-turbo' has rates 0.0015 and 0.002, so 1000 input
    and 500 output tokens cost 0.0025; where the lookup finds nothing,
    neither an own property nor an inherited one, the result is 0. *)
Lemma estimateCost_formula
  (builtin_truthy : jsstring -> jsstring -> completion bool) :
  (forall provider model inputTokens outputTokens r,
      UltraAIService.costRates !! provider
        ≫= (fun models => models !! model) = Some r ->
      UltraAIService.estimateCost builtin_truthy provider model
        inputTokens outputTokens
      = Return (inputTokens / 1000 * UltraAIService.input r
                + outputTokens / 1000 * UltraAIService.output r)%float)
  /\ UltraAIService.costRates !! js "openai"
       ≫= (fun models => models !! js "gpt-3.5-turbo")
     = Some {| UltraAIService.input := 0.0015;
               UltraAIService.output := 0.002 |}
  /\ UltraAIService.estimateCost builtin_truthy (js "openai")
       (js "gpt-3.5-turbo") 1000 500
     = Return 0.0025%float
  /\ (forall provider model inputTokens outputTokens,
        UltraAIService.costRates !! provider
          ≫= (fun models => models !! model) = None ->
        provider ∉ JS.Object_prototype -> model ∉ JS.Object_prototype ->
        UltraAIService.estimateCost builtin_truthy provider model
          inputTokens outputTokens
        = Return 0%float).
Proof.
  split; [|split; [|split]].
  - intros provider model i o r H.
    unfold UltraAIService.estimateCost, JS.get.
    destruct (UltraAIService.costRates !! provider) as [models|];
      [|done].
    simpl in H. by rewrite H.
  - vm_compute. reflexivity.
  - vm_compute. reflexivity.
  - intros provider model i o H Hp Hm.
    unfold UltraAIService.estimateCost, JS.get.
    destruct (UltraAIService.costRates !! provider) as [models|].
    + simpl in H. rewrite H. by rewrite bool_decide_eq_false_2.
    + by rewrite bool_decide_eq_false_2.
Qed.

(** A product with [undefined] is NaN, and so is the sum of two. *)
Lemma cost_of_no_rates (x y : float) :
  PrimFloat.is_nan (x * nan + y * nan)%float = true.
Proof.
  unfold PrimFloat.is_nan.
  rewrite FloatAxioms.eqb_spec, add_spec, !mul_spec.
  change (Prim2SF nan) with S754_nan.
  assert (forall a, SF64mul a S754_nan = S754_nan) as Hmul.
  { intros a. by destruct a as [| | |? ? ?]. }
  rewrite !Hmul. reflexivity.
Qed.

(** C6: a model name that is a member of Object.prototype, such as
    'constructor', has no rate entry under 'openai', yet estimateCost
    does not return 0 for it: the lookup finds the inherited member,
    which is truthy, and the products with its missing rates are NaN --
    at 1000 and 500 tokens, and at any token counts, for every such name
    under both providers of the rate table. *)
Theorem estimateCost_inherited_member_nan
  (builtin_truthy : jsstring -> jsstring -> completion bool) :
  UltraAIService.costRates !! js "openai"
    ≫= (fun models => models !! js "constructor") = None
  /\ UltraAIService.estimateCost builtin_truthy (js "openai")
       (js "constructor") 1000 500
     = Return nan
  /\ (forall provider model inputTokens outputTokens,
        provider ∈ [js "openai"; js "anthropic"] ->
        model ∈ JS.Object_prototype ->
        UltraAIService.costRates !! provider
          ≫= (fun models => models !! model) = None
        /\ exists cost,
            UltraAIService.estimateCost builtin_truthy provider model
              inputTokens outputTokens = Return cost
            /\ PrimFloat.is_nan cost = true).
Proof.
  split; [vm_compute; reflexivity|]. split; [vm_compute; reflexivity|].
  intros provider model i o Hp Hm.
  assert (forallb
            (fun p =>
               forallb
                 (fun m =>
                    match UltraAIService.costRates !! p with
                    | Some models =>
                        match models !! m with
                        | None => true
                        | Some _ => false
                        end
                    | None => false
                    end) JS.Object_prototype)
            [js "openai"; js "anthropic"] = true) as Hall
    by (vm_compute; reflexivity).
  rewrite forallb_forall in Hall.
  specialize (Hall provider (proj1 (list_elem_of_In _ _) Hp)).
  rewrite forallb_forall in Hall.
  specialize (Hall model (proj1 (list_elem_of_In _ _) Hm)).
  destruct (UltraAIService.costRates !! provider) as [models|] eqn:Hmodels;
    [|discriminate Hall].
  destruct (models !! model) eqn:Hnone; [discriminate Hall|].
  split; [done|].
  unfold UltraAIService.estimateCost, JS.get.
  rewrite Hmodels, Hnone, bool_decide_eq_true_2 by done.
  eexists. split; [reflexivity|]. apply cost_of_no_rates.
Qed.

Example estimateCost_unknown
  (builtin_truthy : jsstring -> jsstring -> completion bool) :
  UltraAIService.estimateCost builtin_truthy (js "openai")
    (js "gpt-4-turbo-preview") 1000 500 = Return 0%float
  /\ UltraAIService.estimateCost builtin_truthy (js "cohere") (js "command")
       1000 500
     = Return 0%float
  /\ UltraAIService.estimateCost builtin_truthy (js "anthropic")
       (js "claude-2.1") 2000 1000
     = Return 0.04%float.
Proof. vm_compute. done. Qed.

(** ** Settings validation *)

Lemma falsy_zero (x : float) :
  (x =? 0)%float = true -> JS.truthy_number x = false.
Proof. intros H. unfold JS.truthy_number. by rewrite H. Qed.

Lemma validateSettings_checks (s : settings) :
  UltraAIService.validateSettings s
  = if model_check_throws s
    then Throw (TypeError (js "models.includes is not a function"))
    else Return (temperature_errors s ++ maxTokens_errors s
                 ++ model_errors s).
Proof.
  unfold UltraAIService.validateSettings, temperature_errors,
    maxTokens_errors, model_errors, model_check_throws, JS.get.
  destruct (model s) as [mdl|]; [destruct (JS.truthy_string mdl)|];
    [destruct (UltraAIService.availableModels !! _) as [models|];
     [rewrite (bool_decide_eq_false_2 (Some models = None)) by done;
      destruct (negb _)
     |rewrite (bool_decide_eq_true_2 (None = None)) by done;
      destruct (bool_decide (_ ∈ _))]| |];
    cbn [andb]; try reflexivity;
    (destruct (temperature s) as [t|];
     [destruct (JS.truthy_number t && _)|]);
    (destruct (maxTokens s) as [m|];
     [destruct (JS.truthy_number m && _)|]);
    reflexivity.
Qed.

Lemma validateSettings_returns (s : settings) (errors : list jsstring) :
  UltraAIService.validateSettings s = Return errors ->
  errors = temperature_errors s ++ maxTokens_errors s ++ model_errors s.
Proof.
  rewrite validateSettings_checks.
  destruct (model_check_throws s); [discriminate|]. by intros [= <-].
Qed.

Lemma validateSettings_own (s : settings) :
  model_check_throws s = false ->
  UltraAIService.validateSettings s
  = Return (temperature_errors s ++ maxTokens_errors s ++ model_errors s).
Proof. intros H. by rewrite validateSettings_checks, H. Qed.

Lemma model_check_no_model (s : settings) :
  model s = None -> model_check_throws s = false.
Proof. intros H. unfold model_check_throws. by rewrite H. Qed.

Lemma model_check_own (s : settings) (models : list jsstring) :
  UltraAIService.availableModels !! UltraAIService.provider_or_default s
  = Some models ->
  model_check_throws s = false.
Proof.
  intros H. unfold model_check_throws. rewrite H.
  destruct (model s) as [mdl|]; [|done].
  rewrite bool_decide_eq_false_2 by done. by rewrite andb_false_r.
Qed.

Lemma model_check_not_inherited (s : settings) :
  UltraAIService.provider_or_default s ∉ JS.Object_prototype ->
  model_check_throws s = false.
Proof.
  intros H. unfold model_check_throws.
  destruct (model s) as [mdl|]; [|done].
  rewrite (bool_decide_eq_false_2 (_ ∈ _)) by done. apply andb_false_r.
Qed.

Lemma provider_valid_not_inherited (s : settings) :
  Design.provider_valid s ->
  UltraAIService.provider_or_default s ∉ JS.Object_prototype.
Proof.
  unfold Design.provider_valid, UltraAIService.provider_or_default.
  destruct (provider s) as [p|].
  - intros H.
    repeat (apply elem_of_cons in H as [->|H]);
      try (by apply elem_of_nil in H);
      apply (bool_decide_eq_false_1 _); vm_compute; reflexivity.
  - intros _. apply (bool_decide_eq_false_1 _). vm_compute. reflexivity.
Qed.

Lemma maxTokens_errors_message (s : settings) (x : jsstring) :
  x ∈ maxTokens_errors s -> x = js "Max tokens must be between 1 and 400,000".
Proof.
  unfold maxTokens_errors.
  destruct (maxTokens s) as [m|]; [destruct (JS.truthy_number m && _)|];
    intros H.
  - by apply list_elem_of_singleton in H.
  - by apply elem_of_nil in H.
  - by apply elem_of_nil in H.
Qed.

Lemma model_errors_message (s : settings) (x : jsstring) :
  x ∈ model_errors s -> exists rest, x = js "Model must be one of: " ++ rest.
Proof.
  unfold model_errors.
  destruct (model s) as [mdl|];
    [destruct (JS.truthy_string mdl);
     [destruct (UltraAIService.availableModels !! _) as [models|];
      [destruct (negb _)|]|]|];
    intros H; try (by apply elem_of_nil in H).
  apply list_elem_of_singleton in H. by eexists.
Qed.

(** C10: a settings object whose maxTokens is 0, the other fields being
    valid -- a temperature within 0-2, a provider of the service, a model
    of that provider --, passes validateSettings with an empty error
    list although 0 lies outside 1-400000: the truthiness guard skips
    the range check.  The same guard means that a temperature of 0 is
    never range-checked: whatever the other fields, the temperature
    error is not in the list validateSettings returns. *)
Theorem validateSettings_zero_unchecked :
  (forall (s : settings) (m : float),
      maxTokens s = Some m -> (m =? 0)%float = true ->
      Design.temperature_valid s -> Design.provider_valid s ->
      Design.model_valid s ->
      UltraAIService.validateSettings s = Return [])
  /\ (forall (s : settings) (t : float) (errors : list jsstring),
        temperature s = Some t -> (t =? 0)%float = true ->
        UltraAIService.validateSettings s = Return errors ->
        js "Temperature must be between 0 and 2" ∉ errors).
Proof.
  split.
  - intros s m Hm Hzero Htemp Hprov Hmodel.
    rewrite validateSettings_own
      by (apply model_check_not_inherited, provider_valid_not_inherited,
            Hprov).
    assert (temperature_errors s = []) as ->.
    { unfold temperature_errors. unfold Design.temperature_valid in Htemp.
      destruct (temperature s) as [t|]; [|done].
      destruct Htemp as [H0 H2].
      by rewrite (leb_not_ltb _ _ H0), (leb_not_ltb _ _ H2), andb_false_r. }
    assert (maxTokens_errors s = []) as ->.
    { unfold maxTokens_errors. by rewrite Hm, (falsy_zero m Hzero). }
    unfold model_errors. unfold Design.model_valid in Hmodel.
    destruct (model s) as [mdl|]; [|done].
    destruct (JS.truthy_string mdl); [|done].
    destruct (UltraAIService.availableModels !! _) as [models|] eqn:E;
      [|done].
    by rewrite (bool_decide_eq_true_2 _ (Hmodel models eq_refl)).
  - intros s t errors Ht Hzero Hr.
    rewrite (validateSettings_returns s errors Hr).
    assert (temperature_errors s = []) as ->.
    { unfold temperature_errors. by rewrite Ht, (falsy_zero t Hzero). }
    rewrite app_nil_l. intros H. apply elem_of_app in H as [H|H].
    + apply maxTokens_errors_message in H. vm_compute in H. discriminate H.
    + apply model_errors_message in H as [rest H]. vm_compute in H.
      discriminate H.
Qed.

Example validateSettings_zero :
  UltraAIService.validateSettings Sample.zero_tokens_settings = Return []
  /\ UltraAIService.validateSettings
       {| provider := None; model := None; temperature := Some 0%float;
          maxTokens := Some 400001%float; topP := None;
          frequencyPenalty := None; presencePenalty := None;
          stream := None |}
     = Return [js "Max tokens must be between 1 and 400,000"]
  /\ UltraAIService.validateSettings Sample2.constructor_settings
     = Throw (TypeError (js "models.includes is not a function")).
Proof. vm_compute. done. Qed.

(** ** Validation and dispatch *)

(** The settings of the design document's example (temperature 2.5) fail
    validateSettings, yet generateResponse sends them to the provider: the
    request is issued, and answered. *)
Lemma generateResponse_hot_settings_dispatched :
  UltraAIService.validateSettings Sample.hot_settings
  = Return [js "Temperature must be between 0 and 2"]
  /\ UltraAIService.generateResponse Sample.createChatCompletion
       Sample.messagesCreate Sample.conversation Sample.hot_settings 0
     = (Return {| UltraAIService.gen_content := js "Hello";
                  UltraAIService.gen_tokens := 12%float;
                  UltraAIService.gen_model := js "gpt-3.5-turbo";
                  UltraAIService.gen_finishReason := js "stop" |},
        [CreateChatCompletion
           {| req_settings :=
                {| provider := Some (js "openai");
                   model := Some (js "gpt-3.5-turbo");
                   temperature := Some 2.5%float;
                   maxTokens := Some 2000%float;
                   topP := Some 1%float;
                   frequencyPenalty := Some 0%float;
                   presencePenalty := Some 0%float;
                   stream := Some true |};
              req_messages := Sample.conversation;
              req_stream := false |}],
        1).
Proof. vm_compute. done. Qed.

(** C3, as the code has it: the list validateSettings returns holds the
    matching message for every temperature below 0 or above 2 and every
    maxTokens other than 0 that is below 1 or above 400000, and
    validateSettings does return a list when the settings name no model
    or their provider is no member of Object.prototype; generateResponse
    does not consult it: for the providers 'openai' and 'anthropic' it
    issues the provider request with the settings as given, whatever
    their temperature and maxTokens. *)
Theorem validation_not_enforced_on_dispatch :
  (forall (s : settings) (t : float),
      temperature s = Some t ->
      (t <? 0)%float = true \/ (2 <? t)%float = true ->
      (forall errors,
          UltraAIService.validateSettings s = Return errors ->
          js "Temperature must be between 0 and 2" ∈ errors)
      /\ (model s = None
          \/ UltraAIService.provider_or_default s ∉ JS.Object_prototype ->
          exists errors, UltraAIService.validateSettings s = Return errors))
  /\ (forall (s : settings) (m : float),
        maxTokens s = Some m ->
        (m <? 1)%float = true /\ (m =? 0)%float = false
        \/ (400000 <? m)%float = true ->
        (forall errors,
            UltraAIService.validateSettings s = Return errors ->
            js "Max tokens must be between 1 and 400,000" ∈ errors)
        /\ (model s = None
            \/ UltraAIService.provider_or_default s ∉ JS.Object_prototype ->
            exists errors,
              UltraAIService.validateSettings s = Return errors))
  /\ (forall createChatCompletion messagesCreate messages s n,
        provider (UltraAIService.spread UltraAIService.defaultSettings s)
        = Some (js "openai") ->
        let run :=
          UltraAIService.generateResponse createChatCompletion
            messagesCreate messages s n in
        filter is_upstream_call (trace run)
        = [CreateChatCompletion
             {| req_settings :=
                  UltraAIService.spread UltraAIService.defaultSettings s;
                req_messages :=
                  UltraAIService.formatMessagesForOpenAI messages;
                req_stream := false |}]
        /\ upstream_calls run = S n)
  /\ (forall createChatCompletion messagesCreate messages s n,
        provider (UltraAIService.spread UltraAIService.defaultSettings s)
        = Some (js "anthropic") ->
        let run :=
          UltraAIService.generateResponse createChatCompletion
            messagesCreate messages s n in
        filter is_upstream_call (trace run)
        = [MessagesCreate
             {| req_settings :=
                  UltraAIService.spread UltraAIService.defaultSettings s;
                req_messages :=
                  UltraAIService.formatMessagesForAnthropic messages;
                req_stream := false |}]
        /\ upstream_calls run = S n).
Proof.
  assert (forall s,
             model s = None
             \/ UltraAIService.provider_or_default s ∉ JS.Object_prototype ->
             exists errors,
               UltraAIService.validateSettings s = Return errors)
    as Hreturns.
  { intros s H. eexists. apply validateSettings_own.
    destruct H as [H|H];
      [by apply model_check_no_model|by apply model_check_not_inherited]. }
  split; [|split; [|split]].
  - intros s t Ht Hrange. split; [|apply Hreturns].
    intros errors Hr. rewrite (validateSettings_returns s errors Hr).
    apply elem_of_app. left. unfold temperature_errors. rewrite Ht.
    assert (JS.truthy_number t && ((t <? 0) || (2 <? t))%float = true)
      as ->.
    { destruct Hrange as [H|H].
      - by rewrite (below_zero_truthy t H), H.
      - rewrite (above_truthy 2 t eq_refl H), H. apply orb_true_r. }
    by apply list_elem_of_singleton.
  - intros s m Hm Hrange. split; [|apply Hreturns].
    intros errors Hr. rewrite (validateSettings_returns s errors Hr).
    apply elem_of_app. right. apply elem_of_app. left.
    unfold maxTokens_errors. rewrite Hm.
    assert (JS.truthy_number m && ((m <? 1) || (400000 <? m))%float = true)
      as ->.
    { destruct Hrange as [[H Hz]|H].
      - unfold JS.truthy_number. rewrite Hz, H.
        by destruct (ltb_not_nan _ _ H) as [-> _].
      - rewrite (above_truthy 400000 m eq_refl H), H. apply orb_true_r. }
    by apply list_elem_of_singleton.
  - intros cc mc messages s n Hp. cbv zeta.
    unfold UltraAIService.generateResponse. rewrite Hp. simpl default.
    rewrite decide_True by done.
    unfold try_catch, UltraAIService.openAIRequest, mbind, M_bind, bind,
      await_call, trace, upstream_calls.
    by destruct (cc n).
  - intros cc mc messages s n Hp. cbv zeta.
    unfold UltraAIService.generateResponse. rewrite Hp. simpl default.
    rewrite decide_False by (vm_compute; discriminate).
    rewrite decide_True by done.
    unfold try_catch, UltraAIService.anthropicRequest, mbind, M_bind, bind,
      await_call, trace, upstream_calls.
    by destruct (mc n).
Qed.

(** ** Connection failures *)

(** The connection fails on attempts 1 and 2 and would succeed on
    attempt 3: streamResponse reports the first failure through onError
    after a single attempt; started at the third attempt, the same run
    completes. *)
Lemma streamResponse_flaky_no_retry :
  UltraAIService.streamResponse Sample.JSON_parse Sample.flaky_fetch
    Sample.conversation Sample.no_settings 0
  = (Return tt,
     [FetchOpenAI {| req_settings := Sample.no_settings;
                     req_messages := Sample.conversation;
                     req_stream := true |};
      OnError Sample.network_error],
     1)
  /\ callbacks
       (trace (UltraAIService.streamResponse Sample.JSON_parse
                 Sample.flaky_fetch Sample.conversation Sample.no_settings 2))
     = [OnChunk (JStr (js "Hel")); OnChunk (JStr (js "lo")); OnComplete].
Proof. vm_compute. done. Qed.

(** C5, as the code has it: streamResponse opens the upstream connection
    at most once per invocation; when that attempt is rejected, whatever
    the error, the error goes to onError at once and nothing else
    happens: there is no retry and no backoff. *)
Theorem streamResponse_single_attempt
  (JSON_parse : jsstring -> completion json) (fetch : nat -> fetch_outcome)
  (messages : list message) (s : settings) (n : nat) :
  upstream_calls
    (UltraAIService.streamResponse JSON_parse fetch messages s n) <= S n
  /\ forall e : js_error,
      UltraAIService.provider_or_default s = js "openai" ->
      fetch n = FetchRejected e ->
      UltraAIService.streamResponse JSON_parse fetch messages s n
      = (Return tt,
         [FetchOpenAI {| req_settings := s;
                         req_messages :=
                           UltraAIService.formatMessagesForOpenAI messages;
                         req_stream := true |};
          OnError e],
         S n).
Proof.
  unfold UltraAIService.streamResponse, UltraAIService.openAIStream,
    try_catch, mbind, M_bind, bind, await_call, lift, perform, throw,
    upstream_calls.
  split.
  - destruct (decide (UltraAIService.provider_or_default s = js "openai"))
      as [Hp|Hp]; [|destruct (decide _); simpl; lia].
    destruct (fetch n) as [e|status b]; simpl; [lia|].
    destruct (status_ok status); simpl; [|lia].
    destruct (UltraAIService.read_loop _ _ _ _ _) as [[|] t]; simpl; lia.
  - intros e Hp Hfetch. rewrite decide_True by done. by rewrite Hfetch.
Qed.

(** ** Terminal callbacks *)

Abbreviation quiet := (Forall (fun g : effect => is_terminal g = false)).

Section Terminal.

Variable JSON_parse : jsstring -> completion json.

Lemma handle_line_terminal (line : jsstring) :
  match UltraAIService.handle_line JSON_parse line with
  | (effects, true) => effects = [OnComplete]
  | (effects, false) => quiet effects
  end.
Proof.
  unfold UltraAIService.handle_line.
  destruct (bool_decide _ || bool_decide _); [done|].
  destruct (JS.startsWith _ _); [|by constructor].
  destruct (_ ≫= _) as [[c|]|e]; [|by constructor|by repeat constructor].
  destruct (Json.truthy _); by repeat constructor.
Qed.

Lemma handle_lines_terminal (lines : list jsstring) :
  match UltraAIService.handle_lines JSON_parse lines with
  | (effects, true) =>
      exists pre, effects = pre ++ [OnComplete] /\ quiet pre
  | (effects, false) => quiet effects
  end.
Proof.
  induction lines as [|line lines IH]; simpl; [by constructor|].
  pose proof (handle_line_terminal line) as Hline.
  destruct (UltraAIService.handle_line JSON_parse line) as [e [|]].
  - exists []. by subst.
  - destruct (UltraAIService.handle_lines JSON_parse lines) as [e' [|]].
    + destruct IH as (pre & -> & Hpre). exists (e ++ pre).
      split; [by rewrite app_assoc|by apply Forall_app].
    + by apply Forall_app.
Qed.

(** The parse loop either returns after a single onComplete, its last
    effect, or ends without any terminal callback. *)
Lemma read_loop_terminal (reads : list (list Byte.byte)) :
  forall st buffer fin,
    match UltraAIService.read_loop JSON_parse st buffer reads fin with
    | (Return _, t) =>
        (exists pre, t = pre ++ [OnComplete] /\ quiet pre)
        \/ (quiet t /\ fin = EndOfStream)
    | (Throw e, t) => quiet t /\ fin = ReadFailure e
    end.
Proof.
  induction reads as [|value reads IH]; intros st buffer fin; simpl.
  - destruct fin; [right|]; by split; [constructor|].
  - destruct (TextDecoder.decode st value) as [st1 text].
    pose proof (handle_lines_terminal
                  (removelast (JS.split 10 (buffer ++ text)))) as Hl.
    destruct (UltraAIService.handle_lines _ _) as [e [|]]; [by left|].
    specialize (IH st1 (default [] (last (JS.split 10 (buffer ++ text))))
                  fin).
    destruct (UltraAIService.read_loop _ _ _ _ _) as [[[]|e'] t].
    + destruct IH as [(pre & -> & Hpre)|[Ht Hfin]].
      * left. exists (e ++ pre).
        split; [by rewrite app_assoc|by apply Forall_app].
      * right. split; [by apply Forall_app|done].
    + destruct IH as [Ht Hfin]. split; [by apply Forall_app|done].
Qed.

Lemma callbacks_fetch (req : provider_request) (t : list effect) :
  callbacks (FetchOpenAI req :: t) = callbacks t.
Proof. reflexivity. Qed.

Lemma callbacks_quiet (t : list effect) : quiet t -> quiet (callbacks t).
Proof.
  intros H. apply Forall_forall. intros g Hg.
  apply list_elem_of_filter in Hg as [_ Hg].
  by eapply Forall_forall in H.
Qed.

(** With callbacks that return, every run of streamResponse ends in
    exactly one terminal callback or has none at all: never two, and no
    callback follows a terminal one. *)
Lemma streamResponse_terminal (fetch : nat -> fetch_outcome)
  (messages : list message) (s : settings) (n : nat) :
  let t := trace (UltraAIService.streamResponse JSON_parse fetch
                    messages s n) in
  Design.one_terminal t \/ Design.no_terminal t.
Proof.
  cbv zeta.
  unfold UltraAIService.streamResponse, UltraAIService.openAIStream,
    try_catch, mbind, M_bind, bind, await_call, lift, perform, throw,
    trace.
  destruct (decide (UltraAIService.provider_or_default s = js "openai"))
    as [Hp|Hp].
  2: { left. destruct (decide _); simpl; eexists [], _;
       (split; [reflexivity|split; [reflexivity|constructor]]). }
  destruct (fetch n) as [e|status b]; simpl.
  { left. eexists [], _.
    split; [reflexivity|split; [reflexivity|constructor]]. }
  destruct (status_ok status); simpl.
  2: { left. eexists [], _.
       split; [reflexivity|split; [reflexivity|constructor]]. }
  pose proof (read_loop_terminal (chunks b) TextDecoder.init []
                (ending b)) as Hloop.
  destruct (UltraAIService.read_loop _ _ _ _ _) as [[[]|e] t]; simpl.
  - destruct Hloop as [(pre & -> & Hpre)|[Ht _]].
    + left. exists (callbacks pre), OnComplete.
      split; [by rewrite callbacks_fetch, callbacks_app|].
      split; [done|by apply callbacks_quiet].
    + right. unfold Design.no_terminal. rewrite callbacks_fetch.
      by apply callbacks_quiet.
  - destruct Hloop as [Ht _]. left. exists (callbacks t), (OnError e).
    split; [by rewrite callbacks_fetch, callbacks_app|].
    split; [done|by apply callbacks_quiet].
Qed.

End Terminal.

(** ** Content of a response without blank lines *)

Lemma emitted_text_app (t1 t2 : list effect) :
  emitted_text (t1 ++ t2) = emitted_text t1 ++ emitted_text t2.
Proof.
  induction t1 as [|f t1 IH]; simpl; [done|].
  destruct f as [| | |[]| | |]; simpl; try done.
  by rewrite IH, app_assoc.
Qed.

Lemma last_default {A} (l : list A) (d : A) :
  List.last l d = default d (last l).
Proof.
  induction l as [|a [|b l] IH]; try done.
Qed.

Section Content.

Variable JSON_parse : jsstring -> completion json.

Lemma handle_line_content (line : jsstring) :
  JS.trim line <> [] ->
  match UltraAIService.handle_line JSON_parse line with
  | (effects, true) =>
      JS.trim line = js "data: [DONE]" /\ emitted_text effects = []
  | (effects, false) =>
      JS.trim line <> js "data: [DONE]"
      /\ emitted_text effects = Design.record_content JSON_parse line
  end.
Proof.
  intros Hline.
  unfold UltraAIService.handle_line, Design.record_content.
  rewrite (bool_decide_eq_false_2 _ Hline). simpl orb.
  destruct (bool_decide_reflect (JS.trim line = js "data: [DONE]"))
    as [Hdone|Hdone]; [done|].
  destruct (JS.startsWith _ _); [|done].
  destruct (_ ≫= _) as [[c|]|e]; [|done|done].
  destruct c as [|b|x|s|items|fields]; simpl; try done.
  - by destruct b.
  - by destruct (JS.truthy_number x).
  - destruct s; simpl; [done|by rewrite app_nil_r].
Qed.

Lemma handle_lines_content (lines : list jsstring) :
  Forall (fun line => JS.trim line <> []) lines ->
  emitted_text (fst (UltraAIService.handle_lines JSON_parse lines))
  = Design.content_until_done JSON_parse lines.
Proof.
  induction 1 as [|line lines Hline _ IH]; simpl; [done|].
  pose proof (handle_line_content line Hline) as H.
  destruct (UltraAIService.handle_line JSON_parse line) as [e [|]].
  - destruct H as [Hdone He]. by rewrite (bool_decide_eq_true_2 _ Hdone).
  - destruct H as [Hdone He]. rewrite (bool_decide_eq_false_2 _ Hdone).
    destruct (UltraAIService.handle_lines JSON_parse lines) as [e' r].
    simpl in *. by rewrite emitted_text_app, He, IH.
Qed.

Lemma content_until_done_closed (lines : list jsstring) :
  Design.content_until_done JSON_parse (lines ++ [[]])
  = Design.content_until_done JSON_parse lines.
Proof.
  induction lines as [|line lines IH]; simpl; [done|].
  destruct (bool_decide _); [done|]. by rewrite IH.
Qed.

(** X2: when no complete line of the response is blank and the
    response ends with a line break, the chunks passed to onChunk spell
    the content the provider sent. *)
Lemma read_loop_content (reads : list (list Byte.byte)) (fin : body_end) :
  let text := decoded TextDecoder.init reads in
  Forall (fun line => JS.trim line <> []) (complete_lines text) ->
  last_piece 10 text = [] ->
  emitted_text
    (snd (UltraAIService.read_loop JSON_parse TextDecoder.init [] reads fin))
  = Design.sent_content JSON_parse text.
Proof.
  cbv zeta. intros Hlines Hlast.
  rewrite read_loop_lines by apply not_elem_of_nil. rewrite app_nil_l.
  unfold Design.sent_content.
  rewrite (app_removelast_last [] (split_nonempty 10 _)).
  fold (complete_lines (decoded TextDecoder.init reads)).
  rewrite last_default.
  fold (last_piece 10 (decoded TextDecoder.init reads)).
  rewrite Hlast, content_until_done_closed.
  rewrite <- (handle_lines_content _ Hlines). unfold run_lines.
  destruct (UltraAIService.handle_lines _ _) as [e [|]]; [done|].
  destruct fin; simpl; by rewrite app_nil_r.
Qed.

End Content.

(** ** Terminal callback and content on concrete responses *)

(** C2: a response whose body ends without a blank line or a
    [data: [DONE]] line.  The loop leaves through [if (done) break] and
    the method ends: both content chunks were delivered, and neither
    onComplete nor onError is called. *)
Theorem streamResponse_unterminated_no_terminal :
  UltraAIService.streamResponse Sample.JSON_parse
    (Sample.steady_fetch Sample.unterminated_response)
    Sample.conversation Sample.no_settings 0
  = (Return tt,
     [FetchOpenAI {| req_settings := Sample.no_settings;
                     req_messages := Sample.conversation;
                     req_stream := true |};
      OnChunk (JStr (js "Hel")); OnChunk (JStr (js "lo"))],
     1)
  /\ filter is_terminal
       (trace (UltraAIService.streamResponse Sample.JSON_parse
                 (Sample.steady_fetch Sample.unterminated_response)
                 Sample.conversation Sample.no_settings 0))
     = [].
Proof. vm_compute. done. Qed.

(** C1: a response framed as server-sent events, a blank line after each
    record.  The provider sent "Hello" in two records; the blank line
    after the first record makes the loop call onComplete and return, so
    the chunks passed to onChunk spell "Hel" only. *)
Theorem openAIStream_blank_line_truncates :
  Design.sent_content Sample.JSON_parse Sample.sse_response = js "Hello"
  /\ UltraAIService.read_loop Sample.JSON_parse TextDecoder.init []
       [Sample.utf8 Sample.sse_response] EndOfStream
     = (Return tt, [OnChunk (JStr (js "Hel")); OnComplete])
  /\ emitted_text
       (trace (UltraAIService.streamResponse Sample.JSON_parse
                 (Sample.steady_fetch Sample.sse_response)
                 Sample.conversation Sample.no_settings 0))
     = js "Hel".
Proof. vm_compute. done. Qed.

(** Without blank lines, and closed by the sentinel, the same records
    are delivered whole. *)
Example openAIStream_clean_response :
  emitted_text
    (trace (UltraAIService.streamResponse Sample.JSON_parse
              (Sample.steady_fetch Sample.clean_response)
              Sample.conversation Sample.no_settings 0))
  = Design.sent_content Sample.JSON_parse Sample.clean_response
  /\ Design.sent_content Sample.JSON_parse Sample.clean_response
     = js "Hello".
Proof. vm_compute. done. Qed.

(** * Further properties

    ** The parse loop on whole responses *)

Lemma complete_lines_closed_app (pre rest : jsstring) :
  pre = [] \/ last pre = Some 10%N ->
  complete_lines (pre ++ rest) = complete_lines pre ++ complete_lines rest.
Proof.
  intros Hpre. by rewrite complete_lines_app, (last_piece_closed pre Hpre).
Qed.

Lemma complete_lines_no_break (tail : jsstring) :
  10%N ∉ tail -> complete_lines tail = [].
Proof. intros H. unfold complete_lines. by rewrite split_no_sep. Qed.

Section WholeResponses.

Variable JSON_parse : jsstring -> completion json.

Abbreviation parse_loop :=
  (UltraAIService.read_loop JSON_parse TextDecoder.init []).

Lemma read_loop_text (reads : list (list Byte.byte)) (fin : body_end) :
  parse_loop reads fin
  = run_lines JSON_parse (complete_lines (decoded TextDecoder.init reads)) fin.
Proof. by rewrite read_loop_lines by apply not_elem_of_nil. Qed.

(** X3: the bytes after the last line break are never parsed: a response
    whose last record lacks its line break runs as the response without
    that record. *)
Theorem read_loop_drops_unfinished_line
  (reads reads' : list (list Byte.byte)) (fin : body_end)
  (text tail : jsstring) :
  decoded TextDecoder.init reads = text ++ tail ->
  decoded TextDecoder.init reads' = text ->
  text = [] \/ last text = Some 10%N ->
  10%N ∉ tail ->
  parse_loop reads fin = parse_loop reads' fin.
Proof.
  intros Hreads Hreads' Htext Htail.
  rewrite !read_loop_text, Hreads, Hreads'.
  rewrite (complete_lines_closed_app text tail Htext).
  by rewrite (complete_lines_no_break tail Htail), app_nil_r.
Qed.

(** X4: the first line that is blank or the sentinel ends the run: what
    the response holds after it -- further records, or a failing read --
    has no effect. *)
Theorem read_loop_ignores_rest_after_terminator
  (reads reads' : list (list Byte.byte)) (fin fin' : body_end)
  (pre line post : jsstring) :
  decoded TextDecoder.init reads = pre ++ line ++ 10%N :: post ->
  decoded TextDecoder.init reads' = pre ++ line ++ [10%N] ->
  pre = [] \/ last pre = Some 10%N ->
  10%N ∉ line ->
  JS.trim line = [] \/ JS.trim line = js "data: [DONE]" ->
  parse_loop reads fin = parse_loop reads' fin'
  /\ fst (parse_loop reads fin) = Return tt
  /\ last (snd (parse_loop reads fin)) = Some OnComplete.
Proof.
  intros Hreads Hreads' Hpre Hline Hterm.
  assert (UltraAIService.handle_line JSON_parse line = ([OnComplete], true))
    as Hl.
  { unfold UltraAIService.handle_line.
    destruct Hterm as [->| ->]; [done|].
    by rewrite (bool_decide_eq_true_2 (_ = js "data: [DONE]")), orb_true_r. }
  assert (forall rest fin0,
             run_lines JSON_parse
               (complete_lines pre ++ line :: rest) fin0
             = (Return tt,
                (if snd (UltraAIService.handle_lines JSON_parse
                           (complete_lines pre))
                 then fst (UltraAIService.handle_lines JSON_parse
                             (complete_lines pre))
                 else fst (UltraAIService.handle_lines JSON_parse
                             (complete_lines pre)) ++ [OnComplete])))
    as Hrun.
  { intros rest fin0. unfold run_lines. rewrite handle_lines_app.
    destruct (UltraAIService.handle_lines JSON_parse (complete_lines pre))
      as [e [|]]; [done|].
    simpl. by rewrite Hl. }
  rewrite !read_loop_text, Hreads, Hreads'.
  rewrite !(complete_lines_closed_app pre _ Hpre).
  rewrite (complete_lines_cons line post Hline).
  rewrite (complete_lines_cons line [] Hline).
  rewrite !Hrun. split; [done|]. split; [done|]. simpl.
  pose proof (handle_lines_terminal JSON_parse (complete_lines pre)) as Ht.
  destruct (UltraAIService.handle_lines JSON_parse (complete_lines pre))
    as [e [|]]; simpl.
  - destruct Ht as (pre0 & -> & _). by rewrite last_snoc.
  - by rewrite last_snoc.
Qed.

End WholeResponses.

Lemma read_loop_drops_unfinished_line_witness :
  UltraAIService.read_loop Sample.JSON_parse TextDecoder.init []
    [Sample.utf8 (Sample.data_line (Sample.delta_payload "Hel")
                  ++ js "data: " ++ Sample.delta_payload "lo")]
    EndOfStream
  = UltraAIService.read_loop Sample.JSON_parse TextDecoder.init []
      [Sample.utf8 (Sample.data_line (Sample.delta_payload "Hel"))]
      EndOfStream.
Proof.
  apply (read_loop_drops_unfinished_line Sample.JSON_parse _ _ EndOfStream
           (Sample.data_line (Sample.delta_payload "Hel"))
           (js "data: " ++ Sample.delta_payload "lo")).
  - vm_compute. reflexivity.
  - vm_compute. reflexivity.
  - right. vm_compute. reflexivity.
  - vm_compute. intros H.
    repeat (apply elem_of_cons in H as [H|H]; [discriminate H|]).
    by apply elem_of_nil in H.
Defined.

Lemma read_loop_ignores_rest_after_terminator_witness :
  let run text fin :=
    UltraAIService.read_loop Sample.JSON_parse TextDecoder.init []
      [Sample.utf8 text] fin in
  run (Sample.data_line (Sample.delta_payload "Hel")
       ++ js "data: [DONE]" ++ 10%N :: Sample.data_line
                                         (Sample.delta_payload "lo"))
    (ReadFailure Sample.network_error)
  = run (Sample.data_line (Sample.delta_payload "Hel")
         ++ js "data: [DONE]" ++ [10%N]) EndOfStream
  /\ fst (run (Sample.data_line (Sample.delta_payload "Hel")
             ++ js "data: [DONE]" ++ 10%N :: Sample.data_line
                                               (Sample.delta_payload "lo"))
            (ReadFailure Sample.network_error)) = Return tt
  /\ last (snd (run (Sample.data_line (Sample.delta_payload "Hel")
             ++ js "data: [DONE]" ++ 10%N :: Sample.data_line
                                               (Sample.delta_payload "lo"))
            (ReadFailure Sample.network_error))) = Some OnComplete.
Proof.
  apply (read_loop_ignores_rest_after_terminator Sample.JSON_parse _ _
           (ReadFailure Sample.network_error) EndOfStream
           (Sample.data_line (Sample.delta_payload "Hel"))
           (js "data: [DONE]")
           (Sample.data_line (Sample.delta_payload "lo"))).
  - vm_compute. reflexivity.
  - vm_compute. reflexivity.
  - right. vm_compute. reflexivity.
  - vm_compute. intros H.
    repeat (apply elem_of_cons in H as [H|H]; [discriminate H|]).
    by apply elem_of_nil in H.
  - right. vm_compute. reflexivity.
Defined.

(** ** Lines that leave no trace, failing reads, line endings *)

Lemma trimStart_snoc_ws (s : jsstring) (w : N) :
  JS.is_whitespace w = true ->
  JS.trimStart (s ++ [w])
  = match JS.trimStart s with [] => [] | _ => JS.trimStart s ++ [w] end.
Proof.
  intros Hw. induction s as [|c s IH]; simpl; [by rewrite Hw|].
  destruct (JS.is_whitespace c); [done|]. done.
Qed.

Lemma trim_snoc_ws (s : jsstring) (w : N) :
  JS.is_whitespace w = true -> JS.trim (s ++ [w]) = JS.trim s.
Proof.
  intros Hw. unfold JS.trim. rewrite (trimStart_snoc_ws s w Hw).
  destruct (JS.trimStart s) as [|c t] eqn:E; [done|].
  rewrite rev_app_distr. simpl rev at 1. simpl app. simpl JS.trimStart.
  by rewrite Hw.
Qed.

Lemma trim_cons_ws (s : jsstring) (w : N) :
  JS.is_whitespace w = true -> JS.trim (w :: s) = JS.trim s.
Proof. intros Hw. unfold JS.trim. simpl. by rewrite Hw. Qed.

Lemma complete_lines_concat (ending : jsstring) (lines : list jsstring) :
  Forall (fun line => 10%N ∉ line ++ ending) lines ->
  complete_lines (concat (map (fun line => line ++ ending ++ [10%N]) lines))
  = map (fun line => line ++ ending) lines.
Proof.
  induction 1 as [|line lines Hline _ IH]; simpl; [done|].
  rewrite <- (app_assoc line), <- (app_assoc ending).
  rewrite (app_assoc line ending). simpl.
  by rewrite complete_lines_cons, IH.
Qed.

Section QuietLines.

Variable JSON_parse : jsstring -> completion json.

Abbreviation parse_loop :=
  (UltraAIService.read_loop JSON_parse TextDecoder.init []).

Lemma handle_line_trim (l1 l2 : jsstring) :
  JS.trim l1 = JS.trim l2 ->
  UltraAIService.handle_line JSON_parse l1
  = UltraAIService.handle_line JSON_parse l2.
Proof. intros H. unfold UltraAIService.handle_line. by rewrite H. Qed.

Lemma run_lines_drop (l1 l2 : list jsstring) (line : jsstring)
  (fin : body_end) :
  UltraAIService.handle_line JSON_parse line = ([], false) ->
  run_lines JSON_parse (l1 ++ line :: l2) fin
  = run_lines JSON_parse (l1 ++ l2) fin.
Proof.
  intros Hline. unfold run_lines. rewrite !handle_lines_app. simpl.
  rewrite Hline.
  destruct (UltraAIService.handle_lines JSON_parse l1) as [e1 [|]]; [done|].
  by destruct (UltraAIService.handle_lines JSON_parse l2) as [e2 [|]].
Qed.

(** X5: a line that is not blank and does not start with [data: ] -- an
    [event:] or [id:] field, a comment, [data:] without the space -- has
    no effect at all: the response runs as it does without that line. *)
Theorem read_loop_ignores_other_fields
  (reads reads' : list (list Byte.byte)) (fin : body_end)
  (pre line post : jsstring) :
  decoded TextDecoder.init reads = pre ++ line ++ 10%N :: post ->
  decoded TextDecoder.init reads' = pre ++ post ->
  pre = [] \/ last pre = Some 10%N ->
  10%N ∉ line ->
  JS.trim line <> [] ->
  JS.startsWith (js "data: ") (JS.trim line) = false ->
  parse_loop reads fin = parse_loop reads' fin.
Proof.
  intros Hreads Hreads' Hpre Hline Hblank Hdata.
  assert (UltraAIService.handle_line JSON_parse line = ([], false)) as Hl.
  { unfold UltraAIService.handle_line.
    rewrite (bool_decide_eq_false_2 _ Hblank), Hdata.
    rewrite bool_decide_eq_false_2; [done|].
    intros H. by rewrite H in Hdata. }
  rewrite !read_loop_text, Hreads, Hreads'.
  rewrite !(complete_lines_closed_app pre _ Hpre).
  rewrite (complete_lines_cons line post Hline).
  by apply run_lines_drop.
Qed.

(** X6: a [data: ] line carrying JSON without a [choices] field -- the
    shape of a provider's error object -- is logged as a TypeError and
    skipped: the response yields the callbacks and the completion of the
    response without that line, and onError is not called for it. *)
Theorem read_loop_swallows_error_objects
  (reads reads' : list (list Byte.byte)) (fin : body_end)
  (pre line post payload : jsstring) (fields : list (jsstring * json)) :
  decoded TextDecoder.init reads = pre ++ line ++ 10%N :: post ->
  decoded TextDecoder.init reads' = pre ++ post ->
  pre = [] \/ last pre = Some 10%N ->
  10%N ∉ line ->
  JS.trim line = js "data: " ++ payload ->
  payload <> js "[DONE]" ->
  JSON_parse payload = Return (JObj fields) ->
  Json.field (js "choices") fields = None ->
  fst (parse_loop reads fin) = fst (parse_loop reads' fin)
  /\ callbacks (snd (parse_loop reads fin))
     = callbacks (snd (parse_loop reads' fin))
  /\ UltraAIService.handle_line JSON_parse line
     = ([ConsoleError (js "Error parsing stream data:")
           (TypeError
              (js "Cannot read properties of undefined (reading '0')"))],
        false).
Proof.
  intros Hreads Hreads' Hpre Hline Htrim Hdone Hparse Hchoices.
  assert (UltraAIService.handle_line JSON_parse line
          = ([ConsoleError (js "Error parsing stream data:")
                (TypeError
                   (js "Cannot read properties of undefined (reading '0')"))],
             false)) as Hl.
  { unfold UltraAIService.handle_line. rewrite Htrim.
    rewrite (bool_decide_eq_false_2 (js "data: " ++ payload = [])) by done.
    rewrite bool_decide_eq_false_2; last first.
    { intros H.
      change (js "data: [DONE]") with (js "data: " ++ js "[DONE]") in H.
      by apply app_inv_head in H. }
    simpl orb. cbv iota. rewrite startsWith_app.
    change 6 with (length (js "data: ")). rewrite slice_app, Hparse.
    unfold UltraAIService.delta_content. simpl. by rewrite Hchoices. }
  rewrite !read_loop_text, Hreads, Hreads'.
  rewrite !(complete_lines_closed_app pre _ Hpre).
  rewrite (complete_lines_cons line post Hline).
  destruct (run_lines_skip JSON_parse (complete_lines pre)
              (complete_lines post) line _ fin Hl eq_refl) as [H1 H2].
  done.
Qed.

(** X7: a read that fails after the end-of-stream line was seen is never
    noticed; a read that fails before it throws the failure, and every
    effect of the lines read so far has already happened. *)
Theorem read_loop_failing_read (reads : list (list Byte.byte))
  (e : js_error) :
  (OnComplete ∈ snd (parse_loop reads EndOfStream) ->
   parse_loop reads (ReadFailure e) = parse_loop reads EndOfStream)
  /\ (OnComplete ∉ snd (parse_loop reads EndOfStream) ->
      parse_loop reads (ReadFailure e)
      = (Throw e, snd (parse_loop reads EndOfStream))).
Proof.
  rewrite !read_loop_text. unfold run_lines.
  pose proof (handle_lines_terminal JSON_parse
                (complete_lines (decoded TextDecoder.init reads))) as Ht.
  destruct (UltraAIService.handle_lines JSON_parse _) as [t [|]]; simpl.
  - split; [done|]. intros H. destruct Ht as (pre & -> & _).
    exfalso. apply H, elem_of_app. right. by apply list_elem_of_singleton.
  - split; [|done]. rewrite app_nil_r. intros H.
    eapply Forall_forall in Ht; [|exact H]. done.
Qed.

(** X8: line endings.  A response whose lines end in CR LF runs as the
    same lines ending in LF. *)
Theorem read_loop_crlf (reads reads' : list (list Byte.byte))
  (fin : body_end) (lines : list jsstring) :
  decoded TextDecoder.init reads
  = concat (map (fun line => line ++ [13%N] ++ [10%N]) lines) ->
  decoded TextDecoder.init reads'
  = concat (map (fun line => line ++ [10%N]) lines) ->
  Forall (fun line => 10%N ∉ line) lines ->
  parse_loop reads fin = parse_loop reads' fin.
Proof.
  intros Hreads Hreads' Hlines.
  change (concat (map (fun line => line ++ [10%N]) lines))
    with (concat (map (fun line => line ++ [] ++ [10%N]) lines)) in Hreads'.
  rewrite !read_loop_text, Hreads, Hreads'.
  rewrite !complete_lines_concat.
  - unfold run_lines.
    assert (UltraAIService.handle_lines JSON_parse
              (map (fun line => line ++ [13%N]) lines)
            = UltraAIService.handle_lines JSON_parse
                (map (fun line => line ++ []) lines)) as ->; [|done].
    clear. induction lines as [|line lines IH]; simpl; [done|].
    rewrite app_nil_r.
    rewrite (handle_line_trim (line ++ [13%N]) line
               (trim_snoc_ws line 13 eq_refl)).
    by rewrite IH.
  - eapply Forall_impl; [exact Hlines|]. intros l Hl. by rewrite app_nil_r.
  - eapply Forall_impl; [exact Hlines|]. intros l Hl H.
    apply elem_of_app in H as [H|H]; [done|].
    apply list_elem_of_singleton in H. discriminate H.
Qed.

End QuietLines.

Lemma read_loop_ignores_other_fields_witness :
  let run text :=
    UltraAIService.read_loop Sample2.JSON_parse TextDecoder.init []
      [Sample.utf8 text] EndOfStream in
  run (Sample.data_line (Sample.delta_payload "Hel")
       ++ js "event: ping" ++ 10%N :: Sample.data_line (js "[DONE]"))
  = run (Sample.data_line (Sample.delta_payload "Hel")
         ++ Sample.data_line (js "[DONE]")).
Proof.
  apply (read_loop_ignores_other_fields Sample2.JSON_parse _ _ EndOfStream
           (Sample.data_line (Sample.delta_payload "Hel"))
           (js "event: ping") (Sample.data_line (js "[DONE]"))).
  - vm_compute. reflexivity.
  - vm_compute. reflexivity.
  - right. vm_compute. reflexivity.
  - vm_compute. intros H.
    repeat (apply elem_of_cons in H as [H|H]; [discriminate H|]).
    by apply elem_of_nil in H.
  - vm_compute. discriminate.
  - vm_compute. reflexivity.
Defined.

Lemma read_loop_swallows_error_objects_witness :
  let run text :=
    UltraAIService.read_loop Sample2.JSON_parse TextDecoder.init []
      [Sample.utf8 text] EndOfStream in
  let line := js "data: " ++ Sample2.error_payload in
  let with_error :=
    Sample.data_line (Sample.delta_payload "Hel")
    ++ line ++ 10%N :: Sample.data_line (js "[DONE]") in
  let without :=
    Sample.data_line (Sample.delta_payload "Hel")
    ++ Sample.data_line (js "[DONE]") in
  fst (run with_error) = fst (run without)
  /\ callbacks (snd (run with_error)) = callbacks (snd (run without))
  /\ UltraAIService.handle_line Sample2.JSON_parse line
     = ([ConsoleError (js "Error parsing stream data:")
           (TypeError
              (js "Cannot read properties of undefined (reading '0')"))],
        false).
Proof.
  apply (read_loop_swallows_error_objects Sample2.JSON_parse _ _ EndOfStream
           (Sample.data_line (Sample.delta_payload "Hel"))
           (js "data: " ++ Sample2.error_payload)
           (Sample.data_line (js "[DONE]")) Sample2.error_payload
           [(js "error", JObj [(js "message", JStr (js "overloaded"))])]).
  - vm_compute. reflexivity.
  - vm_compute. reflexivity.
  - right. vm_compute. reflexivity.
  - vm_compute. intros H.
    repeat (apply elem_of_cons in H as [H|H]; [discriminate H|]).
    by apply elem_of_nil in H.
  - vm_compute. reflexivity.
  - vm_compute. discriminate.
  - vm_compute. reflexivity.
  - vm_compute. reflexivity.
Defined.

Lemma read_loop_crlf_witness :
  UltraAIService.read_loop Sample.JSON_parse TextDecoder.init []
    [Sample.utf8
       (concat (map (fun line => line ++ [13%N] ++ [10%N]) Sample2.records))]
    EndOfStream
  = UltraAIService.read_loop Sample.JSON_parse TextDecoder.init []
      [Sample.utf8
         (concat (map (fun line => line ++ [10%N]) Sample2.records))]
      EndOfStream.
Proof.
  apply (read_loop_crlf Sample.JSON_parse _ _ EndOfStream Sample2.records).
  - vm_compute. reflexivity.
  - vm_compute. reflexivity.
  - repeat constructor; vm_compute; intros H;
      repeat (apply elem_of_cons in H as [H|H]; [discriminate H|]);
      by apply elem_of_nil in H.
Defined.

Example mixed_response_callbacks :
  callbacks
    (snd (UltraAIService.read_loop Sample2.JSON_parse TextDecoder.init []
            [Sample.utf8 Sample2.mixed_response] EndOfStream))
  = [OnChunk (JStr (js "Hel")); OnChunk (JStr (js "lo")); OnComplete].
Proof. vm_compute. reflexivity. Qed.

(** ** streamResponse: errors *)

Section StreamErrors.

Variable JSON_parse : jsstring -> completion json.
Variable fetch : nat -> fetch_outcome.

(** X10: for every provider other than 'openai' streamResponse contacts no
    upstream and calls onError once, nothing else: with a TypeError for
    'anthropic', whose stream method the class does not define, and with
    "Streaming not supported for provider: ..." for any other. *)
Theorem streamResponse_other_providers (messages : list message)
  (s : settings) (n : nat) :
  UltraAIService.provider_or_default s <> js "openai" ->
  UltraAIService.streamResponse JSON_parse fetch messages s n
  = (Return tt,
     [OnError
        (if decide (UltraAIService.provider_or_default s = js "anthropic")
         then TypeError (js "this.anthropicStream is not a function")
         else Error (js "Streaming not supported for provider: "
                     ++ UltraAIService.provider_or_default s))],
     n).
Proof.
  intros Hp. unfold UltraAIService.streamResponse, try_catch, throw, perform.
  rewrite decide_False by done. by destruct (decide _).
Qed.

(** X11: a response with a status outside 200-299 is reported through
    onError as "HTTP error! status: " followed by the status in decimal;
    its body is not read, whatever it holds. *)
Theorem streamResponse_http_error (messages : list message)
  (s : settings) (n : nat) (status : Z) (b : body) :
  UltraAIService.provider_or_default s = js "openai" ->
  fetch n = FetchResolved status b ->
  (status < 200 \/ 299 < status)%Z ->
  UltraAIService.streamResponse JSON_parse fetch messages s n
  = (Return tt,
     [FetchOpenAI {| req_settings := s;
                     req_messages :=
                       UltraAIService.formatMessagesForOpenAI messages;
                     req_stream := true |};
      OnError (Error (js "HTTP error! status: " ++ JS.string_of_Z status))],
     S n).
Proof.
  intros Hp Hfetch Hstatus.
  unfold UltraAIService.streamResponse, UltraAIService.openAIStream,
    try_catch, mbind, M_bind, bind, await_call, lift, perform, throw.
  rewrite decide_True by done. rewrite Hfetch.
  assert (status_ok status = false) as ->; [|done].
  unfold status_ok. apply andb_false_iff. lia.
Qed.

End StreamErrors.

Lemma streamResponse_other_providers_witness :
  UltraAIService.streamResponse Sample.JSON_parse Sample.flaky_fetch
    Sample.conversation Sample2.anthropic_settings 0
  = (Return tt,
     [OnError
        (if decide (UltraAIService.provider_or_default
                      Sample2.anthropic_settings = js "anthropic")
         then TypeError (js "this.anthropicStream is not a function")
         else Error (js "Streaming not supported for provider: "
                     ++ UltraAIService.provider_or_default
                          Sample2.anthropic_settings))],
     0).
Proof.
  apply (streamResponse_other_providers Sample.JSON_parse Sample.flaky_fetch
           Sample.conversation Sample2.anthropic_settings 0).
  vm_compute. discriminate.
Defined.

Lemma streamResponse_http_error_witness :
  UltraAIService.streamResponse Sample.JSON_parse
    (fun _ => FetchResolved 429
                {| chunks := [Sample.utf8 Sample.clean_response];
                   ending := EndOfStream |})
    Sample.conversation Sample.no_settings 0
  = (Return tt,
     [FetchOpenAI {| req_settings := Sample.no_settings;
                     req_messages :=
                       UltraAIService.formatMessagesForOpenAI
                         Sample.conversation;
                     req_stream := true |};
      OnError (Error (js "HTTP error! status: " ++ JS.string_of_Z 429))],
     1).
Proof.
  apply (streamResponse_http_error Sample.JSON_parse _ Sample.conversation
           Sample.no_settings 0 429
           {| chunks := [Sample.utf8 Sample.clean_response];
              ending := EndOfStream |}).
  - vm_compute. reflexivity.
  - reflexivity.
  - right. lia.
Defined.

Example http_error_message :
  js "HTTP error! status: " ++ JS.string_of_Z 429
  = js "HTTP error! status: 429".
Proof. vm_compute. reflexivity. Qed.

(** ** generateResponse: dispatch and errors *)

Section Dispatch.

Variable createChatCompletion
  : nat -> completion UltraAIService.openai_response.
Variable messagesCreate
  : nat -> completion UltraAIService.anthropic_response.

Abbreviation generate :=
  (UltraAIService.generateResponse createChatCompletion messagesCreate).

Abbreviation final s :=
  (UltraAIService.spread UltraAIService.defaultSettings s).

Lemma generate_openai (messages : list message) (s : settings) (n : nat) :
  provider (final s) = Some (js "openai") ->
  generate messages s n
  = match createChatCompletion n with
    | Return r =>
        (Return {| UltraAIService.gen_content :=
                     UltraAIService.choices_0_message_content r;
                   UltraAIService.gen_tokens :=
                     UltraAIService.usage_total_tokens r;
                   UltraAIService.gen_model := UltraAIService.openai_model r;
                   UltraAIService.gen_finishReason :=
                     UltraAIService.choices_0_finish_reason r |},
         [CreateChatCompletion
            {| req_settings := final s;
               req_messages :=
                 UltraAIService.formatMessagesForOpenAI messages;
               req_stream := false |}],
         S n)
    | Throw e =>
        (Throw (UltraAIService.thrown
                  (UltraAIService.handleProviderError e (js "openai"))),
         [CreateChatCompletion
            {| req_settings := final s;
               req_messages :=
                 UltraAIService.formatMessagesForOpenAI messages;
               req_stream := false |};
          ConsoleError (js "AI Service Error (" ++ js "openai" ++ js "):") e],
         S n)
    end.
Proof.
  intros Hp. unfold UltraAIService.generateResponse. rewrite Hp.
  simpl default. rewrite decide_True by done.
  unfold try_catch, UltraAIService.openAIRequest, mbind, M_bind, bind,
    await_call, perform, throw.
  by destruct (createChatCompletion n).
Qed.

Lemma generate_anthropic (messages : list message) (s : settings) (n : nat) :
  provider (final s) = Some (js "anthropic") ->
  generate messages s n
  = match messagesCreate n with
    | Return r =>
        (Return {| UltraAIService.gen_content :=
                     UltraAIService.content_0_text r;
                   UltraAIService.gen_tokens :=
                     (UltraAIService.usage_input_tokens r
                      + UltraAIService.usage_output_tokens r)%float;
                   UltraAIService.gen_model :=
                     UltraAIService.anthropic_model r;
                   UltraAIService.gen_finishReason :=
                     UltraAIService.stop_reason r |},
         [MessagesCreate
            {| req_settings := final s;
               req_messages :=
                 UltraAIService.formatMessagesForAnthropic messages;
               req_stream := false |}],
         S n)
    | Throw e =>
        (Throw (UltraAIService.thrown
                  (UltraAIService.handleProviderError e (js "anthropic"))),
         [MessagesCreate
            {| req_settings := final s;
               req_messages :=
                 UltraAIService.formatMessagesForAnthropic messages;
               req_stream := false |};
          ConsoleError (js "AI Service Error (" ++ js "anthropic" ++ js "):")
            e],
         S n)
    end.
Proof.
  intros Hp. unfold UltraAIService.generateResponse. rewrite Hp.
  simpl default. rewrite decide_False by (vm_compute; discriminate).
  rewrite decide_True by done.
  unfold try_catch, UltraAIService.anthropicRequest, mbind, M_bind, bind,
    await_call, perform, throw.
  by destruct (messagesCreate n).
Qed.

Lemma generate_other (messages : list message) (s : settings) (n : nat)
  (p : jsstring) :
  provider (final s) = Some p ->
  p <> js "openai" -> p <> js "anthropic" ->
  exists e,
    generate messages s n
    = (Throw (Error (js "Error configuring " ++ p ++ js " request: "
                     ++ error_message e)),
       [ConsoleError (js "AI Service Error (" ++ p ++ js "):") e], n).
Proof.
  intros Hp Ho Ha. unfold UltraAIService.generateResponse. rewrite Hp.
  simpl default. rewrite !decide_False by done.
  unfold try_catch, mbind, M_bind, bind, perform, throw.
  repeat (destruct (decide _); [by eexists|]). by eexists.
Qed.

(** X12: generateResponse reaches a provider only for 'openai' and
    'anthropic'.  For every other provider -- 'cohere', 'huggingface' and
    'local', which the constructor sets up, included -- it contacts no
    upstream, logs once and throws "Error configuring <provider>
    request: ...": the request methods of those three are not defined,
    any further name is an unsupported provider. *)
Theorem generateResponse_other_providers (messages : list message)
  (s : settings) (n : nat) (p : jsstring) :
  provider (final s) = Some p ->
  p <> js "openai" -> p <> js "anthropic" ->
  exists e,
    generate messages s n
    = (Throw (Error (js "Error configuring " ++ p ++ js " request: "
                     ++ error_message e)),
       [ConsoleError (js "AI Service Error (" ++ p ++ js "):") e], n)
    /\ (p = js "cohere" ->
        e = TypeError (js "this.cohereRequest is not a function"))
    /\ (p = js "huggingface" ->
        e = TypeError (js "this.huggingFaceRequest is not a function"))
    /\ (p = js "local" ->
        e = TypeError (js "this.localRequest is not a function"))
    /\ (p <> js "cohere" -> p <> js "huggingface" -> p <> js "local" ->
        e = Error (js "Unsupported provider: " ++ p)).
Proof.
  intros Hp Ho Ha. unfold UltraAIService.generateResponse. rewrite Hp.
  simpl default. rewrite !decide_False by done.
  unfold try_catch, mbind, M_bind, bind, perform, throw.
  destruct (decide (p = js "cohere")) as [->|Hc].
  { eexists. split; [reflexivity|]. repeat apply conj; try done.
    all: intros H; try discriminate H. }
  destruct (decide (p = js "huggingface")) as [->|Hh].
  { eexists. split; [reflexivity|]. repeat apply conj; try done.
    all: intros H; try discriminate H. }
  destruct (decide (p = js "local")) as [->|Hl].
  { eexists. split; [reflexivity|]. repeat apply conj; try done.
    all: intros H; try discriminate H. }
  eexists. split; [reflexivity|]. repeat apply conj; done.
Qed.


(** What handleProviderError makes of an error: a plain Error, or --
    for a response that has no data and a status outside its four
    cases -- the TypeError of reading [data.error]. *)
Lemma handleProviderError_completion (e : js_error) (p : jsstring) :
  (exists message,
      UltraAIService.handleProviderError e p = Return (Error message))
  \/ (exists message status data request,
        e = AxiosError message (Some (status, data)) request
        /\ (status ∉ [401; 429; 500; 503])%Z
        /\ (data = DataUndefined
            /\ UltraAIService.handleProviderError e p
               = Throw (TypeError (js
                   "Cannot read properties of undefined (reading 'error')"))
            \/ data = DataNull
               /\ UltraAIService.handleProviderError e p
                  = Throw (TypeError (js
                      "Cannot read properties of null (reading 'error')")))).
Proof.
  unfold UltraAIService.handleProviderError.
  destruct e as [m|m|m|m [[status d]|] [|]]; try (left; by eexists).
  all: destruct (status =? 401)%Z eqn:E1; [left; by eexists|].
  all: destruct (status =? 429)%Z eqn:E2; [left; by eexists|].
  all: destruct (status =? 500)%Z eqn:E3; [left; by eexists|].
  all: destruct (status =? 503)%Z eqn:E4; [left; by eexists|].
  all: assert ((status ∉ [401; 429; 500; 503])%Z) as Hs
    by (intros H; repeat (apply elem_of_cons in H as [->|H]);
        try discriminate; by apply elem_of_nil in H).
  all: destruct d as [| |d]; [right|right|left; by eexists].
  all: do 4 eexists; split; [reflexivity|]; split; [exact Hs|].
  all: first [by left|by right].
Qed.

(** X13: what generateResponse throws is a plain Error carrying only a
    message -- the status, the response and the kind of the original
    error do not reach the caller -- with one exception: when the
    provider's rejection carries a response whose status is none of 401,
    429, 500 and 503 and whose data is undefined or null, reading
    data.error throws inside the catch block, and generateResponse
    rejects with that TypeError. *)
Theorem generateResponse_thrown_errors (messages : list message)
  (s : settings) (n : nat) (e : js_error) :
  fst (fst (generate messages s n)) = Throw e ->
  (exists message, e = Error message)
  \/ (exists message status data request,
        (createChatCompletion n
         = Throw (AxiosError message (Some (status, data)) request)
         \/ messagesCreate n
            = Throw (AxiosError message (Some (status, data)) request))
        /\ (status ∉ [401; 429; 500; 503])%Z
        /\ (data = DataUndefined
            /\ e = TypeError (js
                  "Cannot read properties of undefined (reading 'error')")
            \/ data = DataNull
               /\ e = TypeError (js
                     "Cannot read properties of null (reading 'error')"))).
Proof.
  destruct (provider (final s)) as [p|] eqn:Hp.
  2: { unfold UltraAIService.spread in Hp. simpl in Hp.
       by destruct (provider s). }
  destruct (decide (p = js "openai")) as [->|Ho].
  { rewrite (generate_openai messages s n Hp).
    destruct (createChatCompletion n) as [r|e0] eqn:Hcc; simpl; [done|].
    intros [= He].
    destruct (handleProviderError_completion e0 (js "openai"))
      as [[m Hm]|(m & status & d & r & -> & Hs & [[-> Hd]|[-> Hd]])].
    - left. exists m. by rewrite Hm in He.
    - right. exists m, status, DataUndefined, r. rewrite Hd in He.
      split; [by left|]. split; [done|]. by left.
    - right. exists m, status, DataNull, r. rewrite Hd in He.
      split; [by left|]. split; [done|]. by right. }
  destruct (decide (p = js "anthropic")) as [->|Ha].
  { rewrite (generate_anthropic messages s n Hp).
    destruct (messagesCreate n) as [r|e0] eqn:Hmc; simpl; [done|].
    intros [= He].
    destruct (handleProviderError_completion e0 (js "anthropic"))
      as [[m Hm]|(m & status & d & r & -> & Hs & [[-> Hd]|[-> Hd]])].
    - left. exists m. by rewrite Hm in He.
    - right. exists m, status, DataUndefined, r. rewrite Hd in He.
      split; [by right|]. split; [done|]. by left.
    - right. exists m, status, DataNull, r. rewrite Hd in He.
      split; [by right|]. split; [done|]. by right. }
  destruct (generate_other messages s n p Hp Ho Ha) as (e0 & ->).
  simpl. intros [= <-]. left. by eexists.
Qed.

(** X14: a rejection by the provider's SDK is thrown on as
    handleProviderError makes it, after one request and one log line and
    without a second attempt; a 429 becomes "Rate limit exceeded. Please
    try again later." whatever the provider said. *)
Theorem generateResponse_provider_rejection (messages : list message)
  (s : settings) (n : nat) (e : js_error) :
  provider (final s) = Some (js "openai") ->
  createChatCompletion n = Throw e ->
  generate messages s n
  = (Throw (UltraAIService.thrown
              (UltraAIService.handleProviderError e (js "openai"))),
     [CreateChatCompletion
        {| req_settings := final s;
           req_messages := UltraAIService.formatMessagesForOpenAI messages;
           req_stream := false |};
      ConsoleError (js "AI Service Error (openai):") e],
     S n)
  /\ (forall message data request,
        e = AxiosError message (Some (429%Z, data)) request ->
        fst (fst (generate messages s n))
        = Throw (Error (js "Rate limit exceeded. Please try again later."))).
Proof.
  intros Hp Hcc. rewrite (generate_openai messages s n Hp), Hcc.
  split; [done|]. by intros message data request ->.
Qed.

End Dispatch.

Lemma generateResponse_other_providers_witness :
  exists e,
    UltraAIService.generateResponse Sample.createChatCompletion
      Sample.messagesCreate Sample.conversation Sample2.local_settings 0
    = (Throw (Error (js "Error configuring " ++ js "local" ++ js " request: "
                     ++ error_message e)),
       [ConsoleError (js "AI Service Error (" ++ js "local" ++ js "):") e], 0)
    /\ (js "local" = js "cohere" ->
        e = TypeError (js "this.cohereRequest is not a function"))
    /\ (js "local" = js "huggingface" ->
        e = TypeError (js "this.huggingFaceRequest is not a function"))
    /\ (js "local" = js "local" ->
        e = TypeError (js "this.localRequest is not a function"))
    /\ (js "local" <> js "cohere" -> js "local" <> js "huggingface" ->
        js "local" <> js "local" ->
        e = Error (js "Unsupported provider: " ++ js "local")).
Proof.
  apply (generateResponse_other_providers Sample.createChatCompletion
           Sample.messagesCreate Sample.conversation Sample2.local_settings
           0 (js "local")).
  - vm_compute. reflexivity.
  - vm_compute. discriminate.
  - vm_compute. discriminate.
Defined.

Lemma generateResponse_thrown_errors_witness :
  let e := TypeError (js
             "Cannot read properties of undefined (reading 'error')") in
  (exists message, e = Error message)
  \/ (exists message status data request,
        (Sample2.failing_createChatCompletion 0
         = Throw (AxiosError message (Some (status, data)) request)
         \/ Sample.messagesCreate 0
            = Throw (AxiosError message (Some (status, data)) request))
        /\ (status ∉ [401; 429; 500; 503])%Z
        /\ (data = DataUndefined
            /\ e = TypeError (js
                  "Cannot read properties of undefined (reading 'error')")
            \/ data = DataNull
               /\ e = TypeError (js
                     "Cannot read properties of null (reading 'error')"))).
Proof.
  apply (generateResponse_thrown_errors
           Sample2.failing_createChatCompletion Sample.messagesCreate
           Sample.conversation Sample.no_settings 0).
  vm_compute. reflexivity.
Defined.

(** The two kinds of thrown error on sample rejections: a 429 gives the
    rate-limit Error, a 502 without data the TypeError. *)
Example generateResponse_rejections :
  fst (fst (UltraAIService.generateResponse
              Sample2.rejecting_createChatCompletion Sample.messagesCreate
              Sample.conversation Sample.no_settings 0))
  = Throw (Error (js "Rate limit exceeded. Please try again later."))
  /\ fst (fst (UltraAIService.generateResponse
                 Sample2.failing_createChatCompletion Sample.messagesCreate
                 Sample.conversation Sample.no_settings 0))
     = Throw (TypeError (js
         "Cannot read properties of undefined (reading 'error')")).
Proof. vm_compute. done. Qed.

Lemma generateResponse_provider_rejection_witness :
  UltraAIService.generateResponse Sample2.rejecting_createChatCompletion
    Sample.messagesCreate Sample.conversation Sample.no_settings 0
  = (Throw (UltraAIService.thrown
              (UltraAIService.handleProviderError Sample2.rate_limited
                 (js "openai"))),
     [CreateChatCompletion
        {| req_settings :=
             UltraAIService.spread UltraAIService.defaultSettings
               Sample.no_settings;
           req_messages :=
             UltraAIService.formatMessagesForOpenAI Sample.conversation;
           req_stream := false |};
      ConsoleError (js "AI Service Error (openai):") Sample2.rate_limited],
     1)
  /\ (forall message data request,
        Sample2.rate_limited
        = AxiosError message (Some (429%Z, data)) request ->
        fst (fst (UltraAIService.generateResponse
                    Sample2.rejecting_createChatCompletion
                    Sample.messagesCreate Sample.conversation
                    Sample.no_settings 0))
        = Throw (Error (js "Rate limit exceeded. Please try again later."))).
Proof.
  apply (generateResponse_provider_rejection
           Sample2.rejecting_createChatCompletion Sample.messagesCreate
           Sample.conversation Sample.no_settings 0 Sample2.rate_limited).
  - vm_compute. reflexivity.
  - reflexivity.
Defined.

(** ** Settings, models and rates *)

Lemma availableModels_keys (p : jsstring) (models : list jsstring) :
  UltraAIService.availableModels !! p = Some models ->
  p ∈ [js "openai"; js "anthropic"; js "cohere"; js "huggingface"].
Proof.
  intros H. unfold UltraAIService.availableModels in H.
  apply elem_of_list_to_map_2 in H.
  repeat (apply elem_of_cons in H as [H|H];
          [injection H as -> _; set_solver|]).
  by apply elem_of_nil in H.
Qed.

Lemma model_errors_provider (s : settings) (mdl : jsstring)
  (models : list jsstring) :
  model s = Some mdl -> mdl <> [] ->
  UltraAIService.availableModels !! UltraAIService.provider_or_default s
  = Some models ->
  model_errors s
  = if bool_decide (mdl ∈ models) then []
    else [UltraAIService2.model_error models].
Proof.
  intros Hm Hne Hp. unfold model_errors. rewrite Hm, Hp.
  destruct mdl; [done|]. simpl. by destruct (bool_decide _).
Qed.

Lemma in_validateSettings_model (s : settings) (x : jsstring)
  (errors : list jsstring) :
  UltraAIService.validateSettings s = Return errors ->
  x ∈ model_errors s -> x ∈ errors.
Proof.
  intros Hr H. rewrite (validateSettings_returns s errors Hr).
  apply elem_of_app. right. apply elem_of_app. by right.
Qed.

Lemma model_error_only_from_model (s : settings)
  (models errors : list jsstring) :
  UltraAIService.validateSettings s = Return errors ->
  UltraAIService2.model_error models ∈ errors ->
  UltraAIService2.model_error models ∈ model_errors s.
Proof.
  intros Hr. rewrite (validateSettings_returns s errors Hr). intros H.
  apply elem_of_app in H as [H|H]; [|apply elem_of_app in H as [H|H]];
    [| |done].
  - unfold temperature_errors in H.
    destruct (temperature s) as [t|]; [destruct (_ && _)|];
      try (by apply elem_of_nil in H).
    apply list_elem_of_singleton in H. vm_compute in H. discriminate H.
  - apply maxTokens_errors_message in H. vm_compute in H. discriminate H.
Qed.

(** The model check of validateSettings, case by case: against the own
    list of the provider in force -- 'openai' when the settings name
    none or an empty one -- a listed model passes and any other
    non-empty model is reported with that list; where the table has
    nothing under the provider's name (as for 'local') no model is ever
    reported; where it has an inherited member, validateSettings
    throws. *)
Lemma validateSettings_model_check (s : settings) (mdl : jsstring) :
  model s = Some mdl -> mdl <> [] ->
  (forall models,
      UltraAIService.availableModels !! UltraAIService.provider_or_default s
      = Some models ->
      exists errors,
        UltraAIService.validateSettings s = Return errors
        /\ (mdl ∈ models ->
            forall models', UltraAIService2.model_error models' ∉ errors)
        /\ (mdl ∉ models -> UltraAIService2.model_error models ∈ errors))
  /\ (JS.get UltraAIService.availableModels
         (UltraAIService.provider_or_default s) = None ->
      exists errors,
        UltraAIService.validateSettings s = Return errors
        /\ forall models', UltraAIService2.model_error models' ∉ errors)
  /\ (forall name,
        JS.get UltraAIService.availableModels
          (UltraAIService.provider_or_default s) = Some (JS.Inherited name) ->
        UltraAIService.validateSettings s
        = Throw (TypeError (js "models.includes is not a function"))).
Proof.
  intros Hm Hne. split; [|split].
  - intros models Hp.
    pose proof (model_errors_provider s mdl models Hm Hne Hp) as He.
    pose proof (validateSettings_own s (model_check_own s models Hp)) as Hr.
    eexists. split; [exact Hr|]. split.
    + intros Hin models' H.
      apply (model_error_only_from_model s _ _ Hr) in H.
      rewrite He, bool_decide_eq_true_2 in H by done.
      by apply elem_of_nil in H.
    + intros Hout. apply (in_validateSettings_model s _ _ Hr).
      rewrite He, bool_decide_eq_false_2 by done.
      by apply list_elem_of_singleton.
  - unfold JS.get.
    destruct (UltraAIService.availableModels !! _) as [models|] eqn:Hp;
      [done|].
    destruct (bool_decide (_ ∈ _)) eqn:Hproto; [done|]. intros _.
    apply bool_decide_eq_false_1 in Hproto.
    pose proof (validateSettings_own s
                  (model_check_not_inherited s Hproto)) as Hr.
    eexists. split; [exact Hr|]. intros models' H.
    apply (model_error_only_from_model s _ _ Hr) in H.
    unfold model_errors in H. rewrite Hm, Hp in H.
    destruct (JS.truthy_string mdl); by apply elem_of_nil in H.
  - intros name. unfold JS.get.
    destruct (UltraAIService.availableModels !! _) as [models|] eqn:Hp;
      [done|].
    destruct (bool_decide (_ ∈ _)) eqn:Hproto; [|done]. intros _.
    rewrite validateSettings_checks. unfold model_check_throws.
    rewrite Hm, Hp, Hproto, (bool_decide_eq_true_2 (None = None)) by done.
    by destruct mdl.
Qed.

(** X15: no model belongs to two providers, so a model listed for one
    provider is reported under every other provider that has a list. *)
Theorem validateSettings_model_of_other_provider (s : settings)
  (mdl p : jsstring) (models_p models : list jsstring) :
  model s = Some mdl ->
  UltraAIService.availableModels !! p = Some models_p ->
  mdl ∈ models_p ->
  UltraAIService.availableModels !! UltraAIService.provider_or_default s
  = Some models ->
  UltraAIService.provider_or_default s <> p ->
  exists errors,
    UltraAIService.validateSettings s = Return errors
    /\ UltraAIService2.model_error models ∈ errors.
Proof.
  intros Hm Hp Hin Hq Hne.
  assert (mdl <> [] /\ mdl ∉ models) as [Hmdl Hout].
  { revert Hne Hq. generalize (UltraAIService.provider_or_default s).
    intros q Hne Hq.
    pose proof (availableModels_keys _ _ Hp) as Kp.
    pose proof (availableModels_keys _ _ Hq) as Kq.
    repeat (apply elem_of_cons in Kp as [->|Kp]);
      try (by apply elem_of_nil in Kp);
      (repeat (apply elem_of_cons in Kq as [->|Kq]);
       try (by apply elem_of_nil in Kq); try done);
      vm_compute in Hp; injection Hp as <-;
      vm_compute in Hq; injection Hq as <-;
      (repeat (apply elem_of_cons in Hin as [->|Hin]);
       try (by apply elem_of_nil in Hin));
      (split; [done|]); intros H;
      repeat (apply elem_of_cons in H as [H|H]; [discriminate H|]);
      by apply elem_of_nil in H. }
  pose proof (validateSettings_own s (model_check_own s models Hq)) as Hr.
  eexists. split; [exact Hr|].
  apply (in_validateSettings_model s _ _ Hr).
  rewrite (model_errors_provider s mdl models Hm Hmdl Hq).
  rewrite bool_decide_eq_false_2 by done. by apply list_elem_of_singleton.
Qed.

Ltac in_list :=
  repeat first [apply list_elem_of_here | apply list_elem_of_further].

Lemma costRates_entries (p mdl : jsstring) (r : UltraAIService.rates) :
  UltraAIService.costRates !! p ≫= (fun models => models !! mdl) = Some r ->
  (p, mdl, r)
  ∈ [ (js "openai", js "gpt-4",
        {| UltraAIService.input := 0.03; UltraAIService.output := 0.06 |});
      (js "openai", js "gpt-4-32k",
        {| UltraAIService.input := 0.06; UltraAIService.output := 0.12 |});
      (js "openai", js "gpt-3.5-turbo",
        {| UltraAIService.input := 0.0015;
           UltraAIService.output := 0.002 |});
      (js "openai", js "gpt-3.5-turbo-16k",
        {| UltraAIService.input := 0.003;
           UltraAIService.output := 0.004 |});
      (js "anthropic", js "claude-3-opus",
        {| UltraAIService.input := 0.015;
           UltraAIService.output := 0.075 |});
      (js "anthropic", js "claude-3-sonnet",
        {| UltraAIService.input := 0.003;
           UltraAIService.output := 0.015 |});
      (js "anthropic", js "claude-2.1",
        {| UltraAIService.input := 0.008;
           UltraAIService.output := 0.024 |}) ].
Proof.
  intros H.
  destruct (UltraAIService.costRates !! p) as [models|] eqn:Hp; [|done].
  simpl in H. unfold UltraAIService.costRates in Hp.
  apply elem_of_list_to_map_2 in Hp.
  repeat (apply elem_of_cons in Hp as [Hp|Hp];
          [injection Hp as -> ->;
           repeat (apply lookup_insert_Some in H as [[<- <-]|[_ H]];
                   [in_list|]);
           by rewrite lookup_empty in H|]).
  by apply elem_of_nil in Hp.
Qed.

(** X18: the rate table and the model lists disagree.  Of the models
    validateSettings accepts, only four of 'openai' and 'claude-2.1' have
    rates; every other listed model is estimated at cost 0, whatever the
    token counts: the rates of Claude 3 are filed under names without the
    date suffix, which are not listed models. *)
Theorem estimateCost_unpriced_models
  (builtin_truthy : jsstring -> jsstring -> completion bool)
  (p mdl : jsstring) (models : list jsstring)
  (inputTokens outputTokens : float) :
  UltraAIService.availableModels !! p = Some models ->
  mdl ∈ models ->
  (p, mdl) ∉ [ (js "openai", js "gpt-4"); (js "openai", js "gpt-4-32k");
               (js "openai", js "gpt-3.5-turbo");
               (js "openai", js "gpt-3.5-turbo-16k");
               (js "anthropic", js "claude-2.1") ] ->
  UltraAIService.estimateCost builtin_truthy p mdl inputTokens outputTokens
  = Return 0%float.
Proof.
  intros Hp Hin Hpriced.
  pose proof (availableModels_keys _ _ Hp) as Kp.
  repeat (apply elem_of_cons in Kp as [->|Kp]);
    try (by apply elem_of_nil in Kp);
    vm_compute in Hp; injection Hp as <-;
    (repeat (apply elem_of_cons in Hin as [->|Hin]);
     try (by apply elem_of_nil in Hin));
    try (vm_compute; reflexivity);
    exfalso; apply Hpriced; in_list.
Qed.

Lemma estimateCost_unpriced_models_witness :
  UltraAIService.estimateCost (fun _ _ => Return true) (js "anthropic")
    (js "claude-3-opus-20240229") 1000 500 = Return 0%float.
Proof.
  apply (estimateCost_unpriced_models (fun _ _ => Return true)
           (js "anthropic") (js "claude-3-opus-20240229")
           [ js "claude-3-opus-20240229"; js "claude-3-sonnet-20240229";
             js "claude-2.1"; js "claude-instant-1.2" ]).
  - vm_compute. reflexivity.
  - in_list.
  - vm_compute. intros H.
    repeat (apply elem_of_cons in H as [H|H]; [discriminate H|]).
    by apply elem_of_nil in H.
Defined.

Lemma validateSettings_model_of_other_provider_witness :
  exists errors,
    UltraAIService.validateSettings
      {| provider := None; model := Some (js "claude-2.1");
         temperature := None; maxTokens := None; topP := None;
         frequencyPenalty := None; presencePenalty := None;
         stream := None |} = Return errors
    /\ UltraAIService2.model_error
         [ js "gpt-4"; js "gpt-4-32k"; js "gpt-4-turbo-preview";
           js "gpt-3.5-turbo"; js "gpt-3.5-turbo-16k";
           js "gpt-4-vision-preview" ] ∈ errors.
Proof.
  apply (validateSettings_model_of_other_provider _ (js "claude-2.1")
           (js "anthropic")
           [ js "claude-3-opus-20240229"; js "claude-3-sonnet-20240229";
             js "claude-2.1"; js "claude-instant-1.2" ]).
  - reflexivity.
  - vm_compute. reflexivity.
  - in_list.
  - vm_compute. reflexivity.
  - vm_compute. discriminate.
Defined.

Lemma nan_falsy (x : float) :
  PrimFloat.is_nan x = true -> JS.truthy_number x = false.
Proof.
  intros H. unfold JS.truthy_number. rewrite H. by rewrite orb_true_r.
Qed.

(** X16: NaN escapes both range checks: a temperature or a maxTokens that
    is NaN is never reported in the list validateSettings returns. *)
Theorem validateSettings_nan_unchecked :
  (forall (s : settings) (t : float) (errors : list jsstring),
      temperature s = Some t -> PrimFloat.is_nan t = true ->
      UltraAIService.validateSettings s = Return errors ->
      js "Temperature must be between 0 and 2" ∉ errors)
  /\ (forall (s : settings) (m : float) (errors : list jsstring),
        maxTokens s = Some m -> PrimFloat.is_nan m = true ->
        UltraAIService.validateSettings s = Return errors ->
        js "Max tokens must be between 1 and 400,000" ∉ errors).
Proof.
  split.
  - intros s t errors Ht Hnan Hr.
    rewrite (validateSettings_returns s errors Hr).
    assert (temperature_errors s = []) as ->.
    { unfold temperature_errors. by rewrite Ht, (nan_falsy t Hnan). }
    rewrite app_nil_l. intros H. apply elem_of_app in H as [H|H].
    + apply maxTokens_errors_message in H. vm_compute in H. discriminate H.
    + apply model_errors_message in H as [rest H]. vm_compute in H.
      discriminate H.
  - intros s m errors Hm Hnan Hr.
    rewrite (validateSettings_returns s errors Hr).
    assert (maxTokens_errors s = []) as ->.
    { unfold maxTokens_errors. by rewrite Hm, (nan_falsy m Hnan). }
    rewrite app_nil_l. intros H. apply elem_of_app in H as [H|H].
    + unfold temperature_errors in H.
      destruct (temperature s) as [t|]; [destruct (_ && _)|];
        try (by apply elem_of_nil in H).
      apply list_elem_of_singleton in H. vm_compute in H. discriminate H.
    + apply model_errors_message in H as [rest H]. vm_compute in H.
      discriminate H.
Qed.

Example validateSettings_nan :
  UltraAIService.validateSettings
    {| provider := None; model := None; temperature := Some nan;
       maxTokens := Some nan; topP := None; frequencyPenalty := None;
       presencePenalty := None; stream := None |} = Return []
  /\ UltraAIService.validateSettings
       {| provider := None; model := None; temperature := Some infinity;
          maxTokens := Some neg_infinity; topP := None;
          frequencyPenalty := None; presencePenalty := None;
          stream := None |}
     = Return [ js "Temperature must be between 0 and 2";
                js "Max tokens must be between 1 and 400,000" ].
Proof. vm_compute. done. Qed.

(** X17: getAvailableModels and validateSettings read the same table
    through the same lookup.  Where getAvailableModels returns an array,
    validateSettings returns a list, and every model of the array passes
    the model check; for a name the table has nothing under, the array
    is empty, yet validateSettings reports no model at all.  Where the
    provider's name is that of a member of Object.prototype -- such as
    'constructor' or 'toString' -- getAvailableModels returns that
    member, which is no array, and validateSettings throws a TypeError
    on it. *)
Theorem getAvailableModels_and_validation (s : settings) (mdl : jsstring) :
  model s = Some mdl -> mdl <> [] ->
  let p := UltraAIService.provider_or_default s in
  (forall models,
      UltraAIService2.getAvailableModels (Some p)
      = UltraAIService2.Models models ->
      exists errors,
        UltraAIService.validateSettings s = Return errors
        /\ (mdl ∈ models ->
            forall models', UltraAIService2.model_error models' ∉ errors)
        /\ (UltraAIService.availableModels !! p = None ->
            models = []
            /\ forall models',
                UltraAIService2.model_error models' ∉ errors))
  /\ (p ∈ JS.Object_prototype ->
      UltraAIService2.getAvailableModels (Some p) = UltraAIService2.Member p
      /\ UltraAIService.validateSettings s
         = Throw (TypeError (js "models.includes is not a function")))
  /\ (forall name,
        UltraAIService2.getAvailableModels (Some p)
        = UltraAIService2.Member name ->
        name = p /\ p ∈ JS.Object_prototype).
Proof.
  intros Hm Hne p.
  destruct (validateSettings_model_check s mdl Hm Hne)
    as (Hown & Hnone & Hinh). fold p in Hown, Hnone, Hinh.
  assert (JS.truthy_string p = true) as Htruthy.
  { unfold p, UltraAIService.provider_or_default.
    destruct (provider s) as [q|]; [|done].
    by destruct (JS.truthy_string q) eqn:Hq. }
  assert (p ∈ JS.Object_prototype ->
          UltraAIService.availableModels !! p = None) as Hdisjoint.
  { intros Hin.
    destruct (UltraAIService.availableModels !! p) as [models|] eqn:Hp;
      [|done].
    apply availableModels_keys in Hp. exfalso.
    repeat (apply elem_of_cons in Hp as [Hp|Hp];
            [rewrite Hp in Hin; apply (bool_decide_eq_true_2 _) in Hin;
             vm_compute in Hin; discriminate Hin|]).
    by apply elem_of_nil in Hp. }
  unfold UltraAIService2.getAvailableModels. rewrite Htruthy.
  split; [|split].
  - intros models. unfold JS.get in *.
    destruct (UltraAIService.availableModels !! p) as [models0|] eqn:Hp.
    + intros [= <-]. destruct (Hown models0 eq_refl) as (errors & Hr & Hin & _).
      exists errors. split; [done|]. split; [done|]. done.
    + destruct (bool_decide (p ∈ JS.Object_prototype)); [done|].
      intros [= <-]. destruct (Hnone eq_refl) as (errors & Hr & Hno).
      exists errors. split; [done|]. split; [|done].
      intros H. by apply elem_of_nil in H.
  - intros Hin. unfold JS.get in *. rewrite (Hdisjoint Hin) in *.
    rewrite bool_decide_eq_true_2 in * by done.
    split; [done|]. by apply (Hinh p).
  - intros name. unfold JS.get.
    destruct (UltraAIService.availableModels !! p) as [models0|]; [done|].
    destruct (bool_decide (p ∈ JS.Object_prototype)) eqn:Hproto; [|done].
    intros [= <-]. split; [done|]. by apply bool_decide_eq_true_1 in Hproto.
Qed.

Lemma getAvailableModels_and_validation_witness :
  (exists errors,
      UltraAIService.validateSettings Sample.zero_tokens_settings
      = Return errors
      /\ forall models', UltraAIService2.model_error models' ∉ errors)
  /\ (UltraAIService2.getAvailableModels (Some (js "local"))
      = UltraAIService2.Models []
      /\ exists errors,
          UltraAIService.validateSettings Sample2.local_settings
          = Return errors
          /\ forall models', UltraAIService2.model_error models' ∉ errors)
  /\ (UltraAIService2.getAvailableModels (Some (js "constructor"))
      = UltraAIService2.Member (js "constructor")
      /\ UltraAIService.validateSettings Sample2.constructor_settings
         = Throw (TypeError (js "models.includes is not a function"))).
Proof.
  split; [|split].
  - destruct (getAvailableModels_and_validation Sample.zero_tokens_settings
                (js "gpt-4") eq_refl ltac:(discriminate))
      as (Hmodels & _ & _).
    destruct (Hmodels _ ltac:(vm_compute; reflexivity))
      as (errors & Hr & Hin & _).
    exists errors. split; [exact Hr|]. apply Hin. in_list.
  - split; [vm_compute; reflexivity|].
    destruct (getAvailableModels_and_validation Sample2.local_settings
                (js "llama3") eq_refl ltac:(discriminate))
      as (Hmodels & _ & _).
    destruct (Hmodels _ ltac:(vm_compute; reflexivity))
      as (errors & Hr & _ & Hnone).
    exists errors. split; [exact Hr|].
    apply Hnone. vm_compute. reflexivity.
  - destruct (getAvailableModels_and_validation
                Sample2.constructor_settings (js "gpt-4") eq_refl
                ltac:(discriminate))
      as (_ & Hproto & _).
    apply Hproto. vm_compute. in_list.
Defined.

Example getAvailableModels_edges :
  UltraAIService2.getAvailableModels (Some (js "local"))
  = UltraAIService2.Models []
  /\ UltraAIService2.getAvailableModels (Some (js "toString"))
     = UltraAIService2.Member (js "toString")
  /\ UltraAIService2.getAvailableModels (Some (js ""))
     = UltraAIService2.Table UltraAIService.availableModels
  /\ UltraAIService2.getAvailableModels None
     = UltraAIService2.Table UltraAIService.availableModels.
Proof.
  split; [vm_compute; reflexivity|]. split; [vm_compute; reflexivity|].
  split; reflexivity.
Qed.

(** ** Defaults *)

(** X19: settings that name the provider 'anthropic' and no model pass the
    model check of validateSettings, yet generateResponse fills in the
    default model 'gpt-3.5-turbo' and sends it to Anthropic: the request
    carries a model that validateSettings reports for that provider. *)
Theorem generateResponse_default_model_for_anthropic
  (createChatCompletion : nat -> completion UltraAIService.openai_response)
  (messagesCreate : nat -> completion UltraAIService.anthropic_response)
  (messages : list message) (s : settings) (n : nat) :
  provider s = Some (js "anthropic") -> model s = None ->
  let final := UltraAIService.spread UltraAIService.defaultSettings s in
  let anthropic_models :=
    [ js "claude-3-opus-20240229"; js "claude-3-sonnet-20240229";
      js "claude-2.1"; js "claude-instant-1.2" ] in
  (exists errors,
      UltraAIService.validateSettings s = Return errors
      /\ forall models, UltraAIService2.model_error models ∉ errors)
  /\ filter is_upstream_call
       (trace (UltraAIService.generateResponse createChatCompletion
                 messagesCreate messages s n))
     = [MessagesCreate
          {| req_settings := final;
             req_messages :=
               UltraAIService.formatMessagesForAnthropic messages;
             req_stream := false |}]
  /\ model final = Some (js "gpt-3.5-turbo")
  /\ (exists errors,
        UltraAIService.validateSettings final = Return errors
        /\ UltraAIService2.model_error anthropic_models ∈ errors).
Proof.
  intros Hp Hm. cbv zeta.
  assert (provider (UltraAIService.spread UltraAIService.defaultSettings s)
          = Some (js "anthropic")) as Hfinal.
  { unfold UltraAIService.spread. simpl. by rewrite Hp. }
  assert (model (UltraAIService.spread UltraAIService.defaultSettings s)
          = Some (js "gpt-3.5-turbo")) as Hmodel.
  { unfold UltraAIService.spread. simpl. by rewrite Hm. }
  split; [|split; [|split]].
  - pose proof (validateSettings_own s (model_check_no_model s Hm)) as Hr.
    eexists. split; [exact Hr|]. intros models H.
    apply (model_error_only_from_model s _ _ Hr) in H.
    unfold model_errors in H. rewrite Hm in H. by apply elem_of_nil in H.
  - rewrite (generate_anthropic _ _ messages s n Hfinal).
    by destruct (messagesCreate n).
  - done.
  - assert (UltraAIService.availableModels
              !! UltraAIService.provider_or_default
                   (UltraAIService.spread UltraAIService.defaultSettings s)
            = Some [ js "claude-3-opus-20240229";
                     js "claude-3-sonnet-20240229";
                     js "claude-2.1"; js "claude-instant-1.2" ]) as Hlist.
    { unfold UltraAIService.provider_or_default. rewrite Hfinal.
      vm_compute. reflexivity. }
    pose proof (validateSettings_own _ (model_check_own _ _ Hlist)) as Hr.
    eexists. split; [exact Hr|].
    apply (in_validateSettings_model _ _ _ Hr).
    rewrite (model_errors_provider _ (js "gpt-3.5-turbo") _ Hmodel
               ltac:(discriminate) Hlist).
    rewrite bool_decide_eq_false_2; [by apply list_elem_of_singleton|].
    intros H.
    repeat (apply elem_of_cons in H as [H|H]; [discriminate H|]).
    by apply elem_of_nil in H.
Qed.

Lemma generateResponse_default_model_for_anthropic_witness :
  let final :=
    UltraAIService.spread UltraAIService.defaultSettings
      Sample2.anthropic_settings in
  let anthropic_models :=
    [ js "claude-3-opus-20240229"; js "claude-3-sonnet-20240229";
      js "claude-2.1"; js "claude-instant-1.2" ] in
  (exists errors,
      UltraAIService.validateSettings Sample2.anthropic_settings
      = Return errors
      /\ forall models, UltraAIService2.model_error models ∉ errors)
  /\ filter is_upstream_call
       (trace (UltraAIService.generateResponse Sample.createChatCompletion
                 Sample.messagesCreate Sample.conversation
                 Sample2.anthropic_settings 0))
     = [MessagesCreate
          {| req_settings := final;
             req_messages :=
               UltraAIService.formatMessagesForAnthropic Sample.conversation;
             req_stream := false |}]
  /\ model final = Some (js "gpt-3.5-turbo")
  /\ (exists errors,
        UltraAIService.validateSettings final = Return errors
        /\ UltraAIService2.model_error anthropic_models ∈ errors).
Proof.
  apply (generateResponse_default_model_for_anthropic
           Sample.createChatCompletion Sample.messagesCreate
           Sample.conversation Sample2.anthropic_settings 0);
    reflexivity.
Defined.

(** X20: an empty provider name is read differently by the three methods:
    streamResponse and validateSettings take it for the default 'openai'
    -- the stream request is issued, and validateSettings gives what it
    gives for the same settings under 'openai', so that a model of
    another provider is reported against the 'openai' list -- while
    generateResponse rejects it as an unsupported provider without
    contacting any upstream. *)
Theorem empty_provider_read_differently
  (JSON_parse : jsstring -> completion json) (fetch : nat -> fetch_outcome)
  (createChatCompletion : nat -> completion UltraAIService.openai_response)
  (messagesCreate : nat -> completion UltraAIService.anthropic_response)
  (messages : list message) (s : settings) (n : nat) :
  provider s = Some [] ->
  let openai_models :=
    [ js "gpt-4"; js "gpt-4-32k"; js "gpt-4-turbo-preview";
      js "gpt-3.5-turbo"; js "gpt-3.5-turbo-16k";
      js "gpt-4-vision-preview" ] in
  (exists rest,
      trace (UltraAIService.streamResponse JSON_parse fetch messages s n)
      = FetchOpenAI {| req_settings := s;
                       req_messages :=
                         UltraAIService.formatMessagesForOpenAI messages;
                       req_stream := true |} :: rest)
  /\ UltraAIService.generateResponse createChatCompletion messagesCreate
       messages s n
     = (Throw (Error (js "Error configuring  request: Unsupported provider: ")),
        [ConsoleError (js "AI Service Error ():")
           (Error (js "Unsupported provider: "))],
        n)
  /\ UltraAIService.validateSettings s
     = UltraAIService.validateSettings
         {| provider := Some (js "openai"); model := model s;
            temperature := temperature s; maxTokens := maxTokens s;
            topP := topP s; frequencyPenalty := frequencyPenalty s;
            presencePenalty := presencePenalty s; stream := stream s |}
  /\ (forall mdl, model s = Some mdl -> mdl <> [] ->
      exists errors,
        UltraAIService.validateSettings s = Return errors
        /\ (mdl ∈ openai_models ->
            forall models, UltraAIService2.model_error models ∉ errors)
        /\ (mdl ∉ openai_models ->
            UltraAIService2.model_error openai_models ∈ errors)).
Proof.
  intros Hp. cbv zeta.
  assert (UltraAIService.provider_or_default s = js "openai") as Hd.
  { unfold UltraAIService.provider_or_default. by rewrite Hp. }
  split; [|split; [|split]].
  - unfold UltraAIService.streamResponse, UltraAIService.openAIStream,
      try_catch, mbind, M_bind, bind, await_call, lift, perform, throw,
      trace.
    rewrite decide_True by done.
    destruct (fetch n) as [e|status b]; simpl; [by eexists|].
    destruct (status_ok status); simpl; [|by eexists].
    destruct (UltraAIService.read_loop _ _ _ _ _) as [[[]|e] t];
      simpl; by eexists.
  - unfold UltraAIService.generateResponse, UltraAIService.spread.
    simpl. by rewrite Hp.
  - unfold UltraAIService.validateSettings. by rewrite Hd.
  - intros mdl Hm Hne.
    destruct (validateSettings_model_check s mdl Hm Hne) as (Hown & _ & _).
    apply Hown. rewrite Hd. vm_compute. reflexivity.
Qed.

Lemma empty_provider_read_differently_witness :
  let s := {| provider := Some []; model := Some (js "claude-2.1");
              temperature := None; maxTokens := None; topP := None;
              frequencyPenalty := None; presencePenalty := None;
              stream := None |} in
  let openai_models :=
    [ js "gpt-4"; js "gpt-4-32k"; js "gpt-4-turbo-preview";
      js "gpt-3.5-turbo"; js "gpt-3.5-turbo-16k";
      js "gpt-4-vision-preview" ] in
  (exists rest,
      trace (UltraAIService.streamResponse Sample.JSON_parse
               Sample.flaky_fetch Sample.conversation s 0)
      = FetchOpenAI {| req_settings := s;
                       req_messages :=
                         UltraAIService.formatMessagesForOpenAI
                           Sample.conversation;
                       req_stream := true |} :: rest)
  /\ UltraAIService.generateResponse Sample.createChatCompletion
       Sample.messagesCreate Sample.conversation s 0
     = (Throw (Error (js "Error configuring  request: Unsupported provider: ")),
        [ConsoleError (js "AI Service Error ():")
           (Error (js "Unsupported provider: "))],
        0)
  /\ UltraAIService.validateSettings s
     = UltraAIService.validateSettings
         {| provider := Some (js "openai"); model := model s;
            temperature := temperature s; maxTokens := maxTokens s;
            topP := topP s; frequencyPenalty := frequencyPenalty s;
            presencePenalty := presencePenalty s; stream := stream s |}
  /\ (forall mdl, model s = Some mdl -> mdl <> [] ->
      exists errors,
        UltraAIService.validateSettings s = Return errors
        /\ (mdl ∈ openai_models ->
            forall models, UltraAIService2.model_error models ∉ errors)
        /\ (mdl ∉ openai_models ->
            UltraAIService2.model_error openai_models ∈ errors)).
Proof.
  apply (empty_provider_read_differently Sample.JSON_parse
           Sample.flaky_fetch Sample.createChatCompletion
           Sample.messagesCreate Sample.conversation
           {| provider := Some []; model := Some (js "claude-2.1");
              temperature := None; maxTokens := None; topP := None;
              frequencyPenalty := None; presencePenalty := None;
              stream := None |} 0).
  reflexivity.
Defined.

(** The model of another provider under an empty provider name. *)
Example validateSettings_empty_provider :
  UltraAIService.validateSettings
    {| provider := Some []; model := Some (js "claude-2.1");
       temperature := None; maxTokens := None; topP := None;
       frequencyPenalty := None; presencePenalty := None; stream := None |}
  = Return
      [js "Model must be one of: gpt-4, gpt-4-32k, gpt-4-turbo-preview, "
       ++ js "gpt-3.5-turbo, gpt-3.5-turbo-16k, gpt-4-vision-preview"].
Proof. vm_compute. reflexivity. Qed.

(** ** Message normalisation, again *)

(** X21: formatMessagesForAnthropic yields only the roles 'user' and
    'assistant', is idempotent, and gives the same result after
    formatMessagesForOpenAI as on the messages themselves. *)
Theorem formatMessagesForAnthropic_idempotent (messages : list message) :
  Forall (fun msg => role msg = js "user" \/ role msg = js "assistant")
    (UltraAIService.formatMessagesForAnthropic messages)
  /\ UltraAIService.formatMessagesForAnthropic
       (UltraAIService.formatMessagesForAnthropic messages)
     = UltraAIService.formatMessagesForAnthropic messages
  /\ UltraAIService.formatMessagesForAnthropic
       (UltraAIService.formatMessagesForOpenAI messages)
     = UltraAIService.formatMessagesForAnthropic messages.
Proof.
  unfold UltraAIService.formatMessagesForAnthropic,
    UltraAIService.formatMessagesForOpenAI.
  split; [|split].
  - induction messages as [|m messages IH]; simpl; constructor; [|done].
    simpl. destruct (decide _); auto.
  - induction messages as [|m messages IH]; simpl; [done|].
    rewrite IH. f_equal. simpl.
    by destruct (decide (role m = js "assistant")).
  - induction messages as [|m messages IH]; simpl; [done|].
    by rewrite IH.
Qed.

(** ** Token estimation on short texts *)

Lemma whitespace_runs_bound (s : jsstring) :
  forall prev : bool,
    2 * Design.whitespace_runs prev s
    <= length s + (if prev then 0 else 1).
Proof.
  induction s as [|c s IH]; intros prev; simpl; [destruct prev; lia|].
  destruct (JS.is_whitespace c); simpl.
  - specialize (IH true). simpl in IH. destruct prev; simpl; lia.
  - specialize (IH false). simpl in IH. destruct prev; simpl; lia.
Qed.

Lemma estimate_agrees_small (w c : nat) :
  1 <= w <= 120 -> c <= 240 -> Design.estimate_agrees w c = true.
Proof.
  intros Hw Hc. pose proof estimate_agrees_grid as H.
  rewrite forallb_forall in H.
  assert (In w (seq 1 120)) as Hin by (apply in_seq; lia).
  specialize (H w Hin). rewrite forallb_forall in H.
  apply H, in_seq. lia.
Qed.

(** X22: for a text of at most 237 code units estimateTokens is the whole
    number ceil((26 w + 5 c) / 40), w being its word count and c its
    length: the rounding of the intermediate products never shows, and
    the estimate is at least 1 -- also for the empty text. *)
Theorem estimateTokens_short_text (text : jsstring) :
  length text <= 237 ->
  let k := Design.estimate (Z.of_nat (Design.wordCount text))
             (Z.of_nat (Design.charCount text)) in
  (UltraAIService.estimateTokens text =? JSNumber.of_Z k)%float = true
  /\ (1 <= k)%Z.
Proof.
  intros Hlen. cbv zeta. split.
  - unfold UltraAIService.estimateTokens, JS.split_ws.
    rewrite split_ws_from_length.
    apply (estimate_agrees_small (Design.wordCount text)
             (Design.charCount text)).
    + unfold Design.wordCount.
      pose proof (whitespace_runs_bound text false). simpl in *. lia.
    + unfold Design.charCount. lia.
  - unfold Design.estimate, Design.wordCount.
    apply Z.div_le_lower_bound; lia.
Qed.

Lemma estimateTokens_short_text_witness :
  let text := js "hello world, this is a test" in
  let k := Design.estimate (Z.of_nat (Design.wordCount text))
             (Z.of_nat (Design.charCount text)) in
  (UltraAIService.estimateTokens text =? JSNumber.of_Z k)%float = true
  /\ (1 <= k)%Z.
Proof.
  apply (estimateTokens_short_text (js "hello world, this is a test")).
  vm_compute. lia.
Defined.

(** ** connectDB *)

Section ConnectDB.

Variable connect : nat -> option js_error.









End ConnectDB.

(** ** Chat: participants and permissions *)

Section Participants.

Implicit Types (u v role : jsstring) (ps : list Chat.participant).

Lemma find_set_role_same u role ps :
  Chat.find u (Chat.set_role u role ps)
  = (fun p => {| Chat.p_userId := Chat.p_userId p; Chat.p_role := role;
                 Chat.p_joinedAt := Chat.p_joinedAt p |})
      <$> Chat.find u ps.
Proof.
  induction ps as [|p ps IH]; simpl; [done|].
  destruct (decide (Chat.p_userId p = u)) as [H|H]; simpl.
  - by rewrite decide_True.
  - by rewrite decide_False.
Qed.

Lemma find_set_role_other u v role ps :
  v <> u -> Chat.find v (Chat.set_role u role ps) = Chat.find v ps.
Proof.
  intros Hv. induction ps as [|p ps IH]; simpl; [done|].
  destruct (decide (Chat.p_userId p = u)) as [H|H]; simpl.
  - rewrite !decide_False by congruence. done.
  - by rewrite IH.
Qed.

Lemma find_snoc u ps (p : Chat.participant) :
  Chat.find u (ps ++ [p])
  = match Chat.find u ps with
    | Some x => Some x
    | None => if decide (Chat.p_userId p = u) then Some p else None
    end.
Proof.
  induction ps as [|q ps IH]; simpl; [done|].
  by destruct (decide (Chat.p_userId q = u)).
Qed.

Lemma find_removed u ps :
  Chat.find u (filter (fun p => Chat.p_userId p <> u) ps) = None.
Proof.
  induction ps as [|p ps IH]; [done|].
  rewrite filter_cons. destruct (decide (Chat.p_userId p <> u)) as [H|H].
  - simpl. by rewrite decide_False.
  - done.
Qed.

Lemma find_removed_other u v ps :
  v <> u ->
  Chat.find v (filter (fun p => Chat.p_userId p <> u) ps) = Chat.find v ps.
Proof.
  intros Hv. induction ps as [|p ps IH]; [done|].
  rewrite filter_cons. destruct (decide (Chat.p_userId p <> u)) as [H|H].
  - simpl. by rewrite IH.
  - simpl. rewrite decide_False; [done|].
    intros Hp. apply H. congruence.
Qed.

Lemma find_None_ids u ps :
  Chat.find u ps = None <-> u ∉ Chat.p_userId <$> ps.
Proof.
  induction ps as [|p ps IH]; simpl.
  - split; [intros _; apply not_elem_of_nil|done].
  - rewrite not_elem_of_cons. destruct (decide (Chat.p_userId p = u)).
    + split; [done|]. intros [H _]. congruence.
    + rewrite IH. split; [intros H; split; [congruence|done]|by intros [_ H]].
Qed.

(** X25: addParticipant gives the user the right to view; the right to
    edit exactly when the user owns the chat or the role given is
    'editor' -- also when the user was a participant before, whose role is
    replaced; nobody else's rights change. *)
Theorem addParticipant_rights (now : Z) u (role : option jsstring)
  (c : Chat.chat) :
  let c' := Chat.addParticipant now u role c in
  Chat.canView u c' = true
  /\ (Chat.granted (Chat.canEdit u c') = true
      <-> Chat.userId c = u \/ default (js "viewer") role = js "editor")
  /\ forall v, v <> u ->
       Chat.canView v c' = Chat.canView v c
       /\ Chat.canEdit v c' = Chat.canEdit v c.
Proof.
  cbv zeta. unfold Chat.addParticipant, Chat.canView, Chat.canEdit.
  destruct (Chat.find u (Chat.participants c)) as [p|] eqn:Hfind; simpl.
  - rewrite find_set_role_same, Hfind. simpl. split; [|split].
    + by repeat destruct (decide _).
    + destruct (decide (Chat.userId c = u)); simpl; [tauto|].
      rewrite bool_decide_eq_true. tauto.
    + intros v Hv. rewrite (find_set_role_other u v _ _ Hv).
      split; reflexivity.
  - rewrite find_snoc, Hfind. simpl.
    rewrite (decide_True (P := u = u)) by done.
    split; [|split].
    + by repeat destruct (decide _).
    + destruct (decide (Chat.userId c = u)); simpl; [tauto|].
      rewrite bool_decide_eq_true. tauto.
    + intros v Hv. rewrite find_snoc. simpl.
      rewrite (decide_False (P := u = v)) by congruence.
      by destruct (Chat.find v (Chat.participants c)).
Qed.

(** X26: removeParticipant takes the rights a participation gave: the
    user can still view only if the chat is public or the user's own, and
    still edit only as the owner -- however often the user was listed;
    nobody else's rights change. *)
Theorem removeParticipant_rights u (c : Chat.chat) :
  let c' := Chat.removeParticipant u c in
  (Chat.canView u c' = true
   <-> Chat.visibility c = js "public" \/ Chat.userId c = u)
  /\ (Chat.granted (Chat.canEdit u c') = true <-> Chat.userId c = u)
  /\ forall v, v <> u ->
       Chat.canView v c' = Chat.canView v c
       /\ Chat.canEdit v c' = Chat.canEdit v c.
Proof.
  cbv zeta. unfold Chat.removeParticipant, Chat.canView, Chat.canEdit.
  simpl. rewrite find_removed. split; [|split].
  - destruct (decide (Chat.visibility c = js "public")); [tauto|].
    destruct (decide (Chat.userId c = u)); [tauto|].
    split; [done|tauto].
  - destruct (decide (Chat.userId c = u)); simpl; [tauto|].
    split; [done|tauto].
  - intros v Hv. rewrite (find_removed_other u v _ Hv).
    split; reflexivity.
Qed.

(** X27: whoever may edit may view; the roles 'viewer' and 'commenter'
    give no right to edit, and a chat that is shared but not public
    stays closed to a user who neither owns it nor takes part in it. *)
Theorem canEdit_implies_canView u (c : Chat.chat) :
  (Chat.granted (Chat.canEdit u c) = true -> Chat.canView u c = true)
  /\ (forall p, Chat.userId c <> u ->
        Chat.find u (Chat.participants c) = Some p ->
        Chat.p_role p <> js "editor" ->
        Chat.granted (Chat.canEdit u c) = false)
  /\ (Chat.visibility c <> js "public" -> Chat.userId c <> u ->
      u ∉ Chat.p_userId <$> Chat.participants c ->
      Chat.canView u c = false).
Proof.
  unfold Chat.canView, Chat.canEdit. split; [|split].
  - destruct (decide (Chat.visibility c = js "public")); [done|].
    destruct (decide (Chat.userId c = u)); [done|].
    by destruct (Chat.find u (Chat.participants c)).
  - intros p Ho Hp Hr. rewrite decide_False, Hp by done. simpl.
    by apply bool_decide_eq_false_2.
  - intros Hv Ho Hu. apply find_None_ids in Hu.
    by rewrite !decide_False, Hu by done.
Qed.

Lemma set_role_ids u role ps :
  Chat.p_userId <$> Chat.set_role u role ps = Chat.p_userId <$> ps.
Proof.
  induction ps as [|p ps IH]; simpl; [done|].
  destruct (decide _); simpl; [done|]. by f_equal.
Qed.

Lemma set_role_twice u role role' ps :
  Chat.set_role u role (Chat.set_role u role' ps) = Chat.set_role u role ps.
Proof.
  induction ps as [|p ps IH]; simpl; [done|].
  destruct (decide (Chat.p_userId p = u)) as [H|H]; simpl.
  - by rewrite decide_True.
  - by rewrite decide_False, IH.
Qed.

Lemma set_role_snoc u role role' now ps :
  Chat.find u ps = None ->
  Chat.set_role u role
    (ps ++ [{| Chat.p_userId := u; Chat.p_role := role';
               Chat.p_joinedAt := now |}])
  = ps ++ [{| Chat.p_userId := u; Chat.p_role := role;
              Chat.p_joinedAt := now |}].
Proof.
  induction ps as [|p ps IH]; simpl.
  - intros _. by rewrite decide_True.
  - destruct (decide (Chat.p_userId p = u)); [done|].
    intros H. by rewrite IH.
Qed.

Lemma filter_absent u ps :
  Chat.find u ps = None ->
  filter (fun p => Chat.p_userId p <> u) ps = ps.
Proof.
  induction ps as [|p ps IH]; [done|]. simpl.
  destruct (decide (Chat.p_userId p = u)) as [H|H]; [done|].
  intros Hf. rewrite filter_cons, decide_True by done. by rewrite IH.
Qed.

(** X28: addParticipant never lists a user twice: when the participants'
    ids are distinct they stay so, and the list grows by one exactly when
    the user was not a participant; adding the user again changes nothing
    but the role, whenever it happens; removing a user who was added to
    a chat not listing the user gives the chat back. *)
Theorem addParticipant_keeps_ids_distinct (now now' : Z) u
  (role role' : option jsstring) (c : Chat.chat) :
  let ids (c0 : Chat.chat) := Chat.p_userId <$> Chat.participants c0 in
  let c' := Chat.addParticipant now u role c in
  (NoDup (ids c) -> NoDup (ids c'))
  /\ Chat.participantCount c'
     = Chat.participantCount c + (if bool_decide (u ∈ ids c) then 0 else 1)
  /\ Chat.addParticipant now' u role' c'
     = Chat.addParticipant now u role' c
  /\ (u ∉ ids c -> Chat.removeParticipant u c' = c).
Proof.
  cbv zeta.
  unfold Chat.addParticipant, Chat.participantCount, Chat.removeParticipant.
  destruct (Chat.find u (Chat.participants c)) as [p|] eqn:Hfind; simpl.
  - assert (u ∈ Chat.p_userId <$> Chat.participants c) as Hin.
    { destruct (decide (u ∈ Chat.p_userId <$> Chat.participants c)) as [|H];
        [done|]. apply find_None_ids in H. congruence. }
    rewrite set_role_ids, find_set_role_same, Hfind. simpl.
    rewrite set_role_twice, bool_decide_eq_true_2 by done.
    split; [done|]. split.
    { rewrite <- (length_fmap Chat.p_userId), set_role_ids, length_fmap.
      lia. }
    split; [done|]. intros H. done.
  - pose proof (proj1 (find_None_ids _ _) Hfind) as Hout.
    rewrite find_snoc, Hfind. simpl.
    rewrite (decide_True (P := u = u)) by done.
    rewrite fmap_app, length_app, bool_decide_eq_false_2 by done. simpl.
    split.
    { intros Hnd. apply NoDup_app. split; [done|]. split.
      - intros x Hx Hx'. apply list_elem_of_singleton in Hx'. by subst.
      - apply NoDup_singleton. }
    split; [done|]. split.
    { by rewrite (set_role_snoc _ _ _ _ _ Hfind). }
    intros _. rewrite filter_app, (filter_absent _ _ Hfind).
    rewrite filter_cons, decide_False by (simpl; tauto).
    rewrite filter_nil, app_nil_r. by destruct c.
Qed.

End Participants.

(** ** Chat: the pre-save hook *)

Lemma role_counts (msgs : list Chat.chat_message) :
  length (filter (fun msg => Chat.msg_role msg = js "user") msgs)
  + length (filter (fun msg => Chat.msg_role msg = js "assistant") msgs)
  <= length msgs.
Proof.
  induction msgs as [|m msgs IH]; simpl; [lia|].
  rewrite !filter_cons.
  destruct (decide (Chat.msg_role m = js "user")) as [Hu|Hu];
    destruct (decide (Chat.msg_role m = js "assistant")) as [Ha|Ha];
    simpl; try lia.
  rewrite Hu in Ha. discriminate Ha.
Qed.

(** X29: after the pre-save hook the message counters fit the messages:
    the total is their number, and the 'user' and 'assistant' counters
    together never exceed it ('system' and 'tool' messages count in the
    total only).  A chat that is not private has a share token, a token
    already there is kept, and a private chat without a token gets
    none; saving twice changes nothing more. *)
Theorem pre_save_counters_and_token (random_hex random_hex' : jsstring)
  (c : Chat.chat) :
  JS.truthy_string random_hex = true ->
  let c' := Chat.pre_save random_hex c in
  Chat.messageCount_total c' = length (Chat.messages c)
  /\ Chat.messageCount_user c' + Chat.messageCount_assistant c'
     <= Chat.messageCount_total c'
  /\ (Chat.isShared c = true ->
      exists token, Chat.shareToken c' = Some token
                    /\ JS.truthy_string token = true)
  /\ (forall token, Chat.shareToken c = Some token ->
        JS.truthy_string token = true -> Chat.shareToken c' = Some token)
  /\ (Chat.isShared c = false -> Chat.shareToken c' = Chat.shareToken c)
  /\ Chat.pre_save random_hex' c' = c'.
Proof.
  intros Hhex. cbv zeta. unfold Chat.pre_save, Chat.isShared. simpl.
  split; [done|]. split; [apply role_counts|].
  split; [|split; [|split]].
  - intros ->. simpl.
    destruct (Chat.shareToken c) as [token|]; simpl.
    + destruct (JS.truthy_string token) eqn:Ht; simpl; by eexists.
    + by eexists.
  - intros token -> Ht. rewrite Ht. simpl. by rewrite andb_false_r.
  - by intros ->.
  - f_equal.
    + destruct (negb (bool_decide _)); simpl; [|done].
      destruct (Chat.shareToken c) as [token|]; simpl.
      * destruct (JS.truthy_string token) eqn:Ht; simpl;
          by rewrite ?Hhex, ?Ht.
      * by rewrite Hhex.
    + by destruct (last (Chat.messages c)).
Qed.

(** ** Chat: titles *)

Lemma split_ws_from_words (s : jsstring) :
  forall in_run piece,
    Forall (fun c => Chat.is_word c || JS.is_whitespace c = true) s ->
    Forall (fun c => Chat.is_word c = true) piece ->
    Forall (Forall (fun c => Chat.is_word c = true))
      (JS.split_ws_from in_run piece s).
Proof.
  induction s as [|c s IH]; intros in_run piece Hs Hp; simpl.
  - constructor; [by apply Forall_rev|constructor].
  - apply Forall_cons in Hs as [Hc Hs].
    destruct (JS.is_whitespace c) eqn:Hw.
    + destruct in_run; [by apply IH|].
      constructor; [by apply Forall_rev|]. by apply IH.
    + apply IH; [done|]. constructor; [|done].
      by rewrite orb_false_r in Hc.
Qed.

Lemma join_chars (P : N -> Prop) (sep : jsstring)
  (words : list jsstring) :
  Forall P sep -> Forall (Forall P) words -> Forall P (JS.join sep words).
Proof.
  intros Hsep. induction 1 as [|w words Hw Hwords IH]; simpl; [done|].
  destruct words as [|w' words]; [done|].
  apply Forall_app. split; [done|]. apply Forall_app. by split.
Qed.

Lemma split_ws_from_plain (s : jsstring) :
  forall piece,
    Forall (fun c => JS.is_whitespace c = false) s ->
    JS.split_ws_from false piece s = [rev piece ++ s].
Proof.
  induction s as [|c s IH]; intros piece Hs; simpl.
  - by rewrite app_nil_r.
  - apply Forall_cons in Hs as [Hc Hs]. rewrite Hc, IH by done.
    simpl. by rewrite <- app_assoc.
Qed.

Lemma filter_all {A} (P : A -> Prop) `{!forall x, Decision (P x)}
  (l : list A) :
  Forall P l -> filter P l = l.
Proof.
  induction 1 as [|x l Hx _ IH]; [done|].
  by rewrite filter_cons, decide_True, IH.
Qed.

Lemma filter_none {A} (P : A -> Prop) `{!forall x, Decision (P x)}
  (l : list A) :
  Forall (fun x => ~ P x) l -> filter P l = [].
Proof.
  induction 1 as [|x l Hx _ IH]; [done|].
  by rewrite filter_cons, decide_False, IH.
Qed.

Lemma word_not_whitespace (c : N) :
  Chat.is_word c = true -> JS.is_whitespace c = false.
Proof.
  intros Hc. apply not_true_iff_false. intros Hw. revert Hc Hw.
  unfold Chat.is_word, JS.is_whitespace.
  rewrite !orb_true_iff, !andb_true_iff, !N.leb_le, !N.eqb_eq. lia.
Qed.

(** X30: a generated title holds nothing but letters, digits,
    underscores, single spaces between words and the dots of the
    ellipsis.  Its length is not bounded: a content that is one word is
    its own title, with "..." added when longer than 50, whatever its
    length.  A content without any letter, digit, underscore or white
    space gives the empty title. *)
Theorem generateTitle_shape (content : jsstring) :
  Forall (fun c => Chat.is_word c = true \/ c = 32%N \/ c = 46%N)
    (Chat.generateTitle content)
  /\ (Forall (fun c => Chat.is_word c = true) content ->
      Chat.generateTitle content
      = content ++ (if (50 <? length content)%nat then js "..." else []))
  /\ (Forall (fun c => Chat.is_word c || JS.is_whitespace c = false)
        content ->
      Chat.generateTitle content = []).
Proof.
  unfold Chat.generateTitle. split; [|split].
  - apply Forall_app. split.
    + apply join_chars.
      { change (js " ") with [32%N].
        constructor; [right; left; reflexivity|constructor]. }
      apply Forall_take.
      eapply Forall_impl;
        [apply split_ws_from_words|
         intros w Hw; eapply Forall_impl; [exact Hw|]; simpl; tauto].
      * apply Forall_forall. intros c Hc.
        apply list_elem_of_filter in Hc as [Hc _].
        by apply Is_true_true in Hc.
      * constructor.
    + destruct (_ <? _)%nat; [|constructor].
      change (js "...") with [46%N; 46%N; 46%N].
      repeat (constructor; [right; right; reflexivity|]). constructor.
  - intros Hword.
    assert (filter (fun c => Chat.is_word c || JS.is_whitespace c) content
            = content) as ->.
    { apply filter_all. eapply Forall_impl; [exact Hword|].
      intros c Hc. simpl in *. rewrite Hc. done. }
    unfold JS.split_ws. rewrite split_ws_from_plain.
    + done.
    + eapply Forall_impl; [exact Hword|]. intros c Hc.
      by apply word_not_whitespace.
  - intros Hnone.
    assert (filter (fun c => Chat.is_word c || JS.is_whitespace c) content
            = []) as ->; [|done].
    apply filter_none. eapply Forall_impl; [exact Hnone|].
    intros c Hc H. simpl in Hc. by rewrite Hc in H.
Qed.

Example generateTitle_samples :
  Chat.generateTitle (js "What's the time, please?")
  = js "Whats the time please"
  /\ Chat.generateTitle (js "?!") = []
  /\ Chat.generateTitle
       (js "one two three four five six seven eight nine ten eleven twelve")
     = js "one two three four five six seven eight...".
Proof. vm_compute. done. Qed.

(** ** Runs with callbacks that throw *)

Section CallbackRuns.

Variable JSON_parse : jsstring -> completion json.
Variable fetch : nat -> Callbacks.response.
Variable throws : list effect -> effect -> option js_error.

Lemma handle_line_cases (h : list effect) (line : jsstring) :
  (exists effects,
      Callbacks.handle_line JSON_parse throws h line
      = (effects, Callbacks.Continue) /\ quiet effects)
  \/ (Callbacks.handle_line JSON_parse throws h line
      = ([OnComplete], Callbacks.Returned)
      /\ throws h OnComplete = None)
  \/ (exists e,
        Callbacks.handle_line JSON_parse throws h line
        = ([OnComplete], Callbacks.Thrown e)
        /\ throws h OnComplete = Some e).
Proof.
  unfold Callbacks.handle_line, Callbacks.call.
  destruct (_ || _).
  { destruct (throws h OnComplete) as [e|] eqn:He;
      [right; right; by exists e|right; by left]. }
  left. destruct (JS.startsWith _ _); [|by eexists].
  destruct (_ ≫= _) as [[c|]|e]; try (eexists; split; [reflexivity|]).
  - destruct (Json.truthy _); [|by eexists].
    destruct (throws h (OnChunk c)); eexists; (split; [reflexivity|]);
      repeat constructor.
  - constructor.
  - repeat constructor.
Qed.

Lemma handle_lines_cases (lines : list jsstring) (h : list effect) :
  (exists effects,
      Callbacks.handle_lines JSON_parse throws h lines
      = (effects, Callbacks.Continue) /\ quiet effects)
  \/ (exists q,
        Callbacks.handle_lines JSON_parse throws h lines
        = (q ++ [OnComplete], Callbacks.Returned)
        /\ quiet q /\ throws (h ++ q) OnComplete = None)
  \/ (exists q e,
        Callbacks.handle_lines JSON_parse throws h lines
        = (q ++ [OnComplete], Callbacks.Thrown e)
        /\ quiet q /\ throws (h ++ q) OnComplete = Some e).
Proof.
  revert h. induction lines as [|line rest IH]; intros h; simpl.
  { left. by exists []. }
  destruct (handle_line_cases h line)
    as [(effects & -> & Hq)|[[-> Hc]|(e & -> & Hc)]].
  - destruct (IH (h ++ effects))
      as [(effects' & -> & Hq')|[(q & -> & Hq' & Hc)|(q & e & -> & Hq' & Hc)]].
    + left. eexists. split; [reflexivity|]. by apply Forall_app.
    + right; left. exists (effects ++ q).
      split; [by rewrite app_assoc|]. split; [by apply Forall_app|].
      by rewrite app_assoc.
    + right; right. exists (effects ++ q), e.
      split; [by rewrite app_assoc|]. split; [by apply Forall_app|].
      by rewrite app_assoc.
  - right; left. exists []. rewrite app_nil_r. by repeat split.
  - right; right. exists [], e. rewrite app_nil_r. by repeat split.
Qed.

Lemma read_loop_cases (reads : list (list Byte.byte)) (fin : body_end)
  (h : list effect) (decoder : TextDecoder.state) (buffer : jsstring) :
  (exists effects,
      Callbacks.read_loop JSON_parse throws h decoder buffer reads fin
      = (fst (finish fin), effects) /\ quiet effects)
  \/ (exists q,
        Callbacks.read_loop JSON_parse throws h decoder buffer reads fin
        = (Return tt, q ++ [OnComplete])
        /\ quiet q /\ throws (h ++ q) OnComplete = None)
  \/ (exists q e,
        Callbacks.read_loop JSON_parse throws h decoder buffer reads fin
        = (Throw e, q ++ [OnComplete])
        /\ quiet q /\ throws (h ++ q) OnComplete = Some e).
Proof.
  revert h decoder buffer.
  induction reads as [|value reads' IH]; intros h decoder buffer; simpl.
  { left. exists []. by destruct fin. }
  destruct (TextDecoder.decode decoder value) as [decoder' text].
  match goal with
  | |- context [Callbacks.handle_lines _ _ h ?lines] =>
      destruct (handle_lines_cases lines h)
        as [(effects & -> & Hq)|[(q & -> & Hq & Hc)|(q & e & -> & Hq & Hc)]]
  end.
  - match goal with
    | |- context [Callbacks.read_loop _ _ _ decoder' ?buffer' _ _] =>
        destruct (IH (h ++ effects) decoder' buffer')
          as [(effects' & -> & Hq')
             |[(q & -> & Hq' & Hc)|(q & e & -> & Hq' & Hc)]]
    end.
    + left. eexists. split; [reflexivity|]. by apply Forall_app.
    + right; left. exists (effects ++ q).
      split; [by rewrite app_assoc|]. split; [by apply Forall_app|].
      by rewrite app_assoc.
    + right; right. exists (effects ++ q), e.
      split; [by rewrite app_assoc|]. split; [by apply Forall_app|].
      by rewrite app_assoc.
  - right; left. by exists q.
  - right; right. by exists q, e.
Qed.


Lemma openAIStream_cases (messages : list message) (s : settings)
  (n : nat) :
  exists others terminals c,
    Callbacks.openAIStream JSON_parse fetch throws messages s n
    = (c, others ++ terminals, S n)
    /\ quiet others
    /\ (terminals = [] /\ c = Return tt
        \/ terminals = [OnComplete]
           /\ throws others OnComplete = None /\ c = Return tt
        \/ (exists e,
              terminals = [OnError e]
              /\ c = Callbacks.call throws others (OnError e))
        \/ (exists e,
              terminals = [OnComplete; OnError e]
              /\ throws others OnComplete = Some e
              /\ c = Callbacks.call throws (others ++ [OnComplete])
                       (OnError e))).
Proof.
  unfold Callbacks.openAIStream.
  set (request := FetchOpenAI _).
  assert (forall e,
             exists others terminals c,
               (Callbacks.catch_onError throws (request :: []) (Throw e),
                S n)
               = (c, others ++ terminals, S n)
               /\ quiet others
               /\ (terminals = [] /\ c = Return tt
                   \/ terminals = [OnComplete]
                      /\ throws others OnComplete = None /\ c = Return tt
                   \/ (exists e,
                         terminals = [OnError e]
                         /\ c = Callbacks.call throws others (OnError e))
                   \/ (exists e,
                         terminals = [OnComplete; OnError e]
                         /\ throws others OnComplete = Some e
                         /\ c = Callbacks.call throws
                                  (others ++ [OnComplete]) (OnError e))))
    as Hfail.
  { intros e. eexists [request], [OnError e], _.
    split; [reflexivity|]. split; [by repeat constructor|].
    right; right; left. by exists e. }
  destruct (fetch n) as [e|status [b|]]; [apply Hfail| |].
  2: { destruct (negb _); apply Hfail. }
  destruct (negb _); [apply Hfail|].
  destruct (read_loop_cases (chunks b) (ending b) [request]
              TextDecoder.init [])
    as [(effects & -> & Hq)|[(q & -> & Hq & Hc)|(q & e & -> & Hq & Hc)]].
  - destruct (ending b) as [|e]; simpl.
    + eexists (request :: effects), [], _. rewrite app_nil_r.
      split; [reflexivity|]. split; [by constructor|]. by left.
    + eexists (request :: effects), [OnError e], _.
      split; [reflexivity|]. split; [by constructor|].
      right; right; left. by exists e.
  - eexists (request :: q), [OnComplete], _.
    split; [reflexivity|]. split; [by constructor|]. right; left. done.
  - eexists (request :: q), [OnComplete; OnError e], _. simpl.
    split; [by rewrite <- app_assoc|]. split; [by constructor|].
    right; right; right. exists e. split; [done|]. split; [done|].
    done.
Qed.

(** The runs of streamResponse, by their terminal callbacks. *)
Lemma streamResponse_cases (messages : list message) (s : settings)
  (callbacks : unit) (n : nat) :
  exists others terminals c n',
    Callbacks.streamResponse JSON_parse fetch throws messages
      (Callbacks.Given s) (Callbacks.Given callbacks) n
    = (c, others ++ terminals, n')
    /\ quiet others
    /\ (terminals = [] /\ c = Return tt
        \/ terminals = [OnComplete]
           /\ throws others OnComplete = None /\ c = Return tt
        \/ (exists e,
              terminals = [OnError e]
              /\ c = Callbacks.call throws others (OnError e))
        \/ (exists e e2,
              terminals = [OnError e; OnError e2]
              /\ throws others (OnError e) = Some e2
              /\ c = Callbacks.call throws (others ++ [OnError e])
                       (OnError e2))
        \/ (exists e,
              terminals = [OnComplete; OnError e]
              /\ throws others OnComplete = Some e
              /\ throws (others ++ [OnComplete]) (OnError e) = None
              /\ c = Return tt)
        \/ (exists e e2,
              terminals = [OnComplete; OnError e; OnError e2]
              /\ throws others OnComplete = Some e
              /\ throws (others ++ [OnComplete]) (OnError e) = Some e2
              /\ c = Callbacks.call throws
                       (others ++ [OnComplete; OnError e]) (OnError e2))).
Proof.
  unfold Callbacks.streamResponse.
  destruct (decide (UltraAIService.provider_or_default s = js "openai"))
    as [Hp|Hp].
  2: { destruct (decide _); eexists [], [_], _, n;
       (split; [reflexivity|]); (split; [constructor|]);
       right; right; left; by eexists. }
  destruct (openAIStream_cases messages s n)
    as (others & terminals & c & -> & Hq
        & [[-> ->]|[(-> & Hc & ->)|[(e & -> & ->)|(e & -> & Hc & ->)]]]).
  - eexists others, [], _, (S n). split; [reflexivity|]. split; [done|].
    by left.
  - eexists others, [OnComplete], _, (S n). split; [reflexivity|].
    split; [done|]. right; left. done.
  - unfold Callbacks.call.
    destruct (throws others (OnError e)) as [e2|] eqn:He; simpl.
    + eexists others, [OnError e; OnError e2], _, (S n).
      split; [by rewrite <- app_assoc|]. split; [done|].
      right; right; right; left. by exists e, e2.
    + eexists others, [OnError e], _, (S n). split; [reflexivity|].
      split; [done|]. right; right; left. exists e.
      unfold Callbacks.call. by rewrite He.
  - unfold Callbacks.call.
    destruct (throws (others ++ [OnComplete]) (OnError e)) as [e2|] eqn:He;
      simpl.
    + eexists others, [OnComplete; OnError e; OnError e2], _, (S n).
      split; [by rewrite <- app_assoc|]. split; [done|].
      do 5 right. exists e, e2. split; [done|]. split; [done|].
      split; [done|]. reflexivity.
    + eexists others, [OnComplete; OnError e], _, (S n).
      split; [reflexivity|]. split; [done|].
      do 4 right. left. by exists e.
Qed.

(** X1: the terminal callbacks of a run of streamResponse, the callbacks
    being free to throw.  They come last in the run and are at most
    three: each one after the first is onError, called with what the
    callback before it threw -- a throwing onComplete is followed by
    onError, a throwing onError inside openAIStream by a second onError
    from streamResponse.  When no terminal callback throws, the run has
    at most one terminal callback, and nothing follows it. *)
Theorem streamResponse_terminal_callbacks (messages : list message)
  (s : Callbacks.argument settings) (callbacks : Callbacks.argument unit)
  (n : nat) :
  let run :=
    Callbacks.streamResponse JSON_parse fetch throws messages s callbacks n
  in
  exists others terminals,
    trace run = others ++ terminals
    /\ Forall (fun g => is_terminal g = false) others
    /\ Forall (fun g => is_terminal g = true) terminals
    /\ length terminals <= 3
    /\ match terminals with
       | [] => True
       | f :: rest => Callbacks.error_chain throws others f rest
       end
    /\ ((forall h f, is_terminal f = true -> throws h f = None) ->
        length terminals <= 1).
Proof.
  cbv zeta.
  destruct callbacks as [| |cb]; destruct s as [| |s0];
    try (exists [], []; simpl; repeat split;
         by first [done | intros; lia | constructor]).
  destruct (streamResponse_cases messages s0 cb n)
    as (others & terminals & c & n' & -> & Hq & Hshape).
  exists others, terminals. unfold trace; simpl.
  split; [done|]. split; [done|].
  destruct Hshape
    as [[-> _]|[(-> & Hc & _)|[(e & -> & _)|[(e & e2 & -> & Hc & _)
       |[(e & -> & Hc & He & _)|(e & e2 & -> & Hc & He & _)]]]]]; simpl.
  - split; [constructor|]. split; [lia|]. split; [done|]. intros _; lia.
  - split; [by repeat constructor|]. split; [lia|]. split; [done|].
    intros _; lia.
  - split; [by repeat constructor|]. split; [lia|]. split; [done|].
    intros _; lia.
  - split; [by repeat constructor|]. split; [lia|].
    split; [by exists e2|].
    intros Hno. by rewrite Hno in Hc.
  - split; [by repeat constructor|]. split; [lia|].
    split; [by exists e|].
    intros Hno. by rewrite Hno in Hc.
  - split; [by repeat constructor|]. split; [lia|].
    split; [exists e; split; [done|]; split; [done|]; by exists e2|].
    intros Hno. by rewrite Hno in Hc.
Qed.

(** X9: when streamResponse rejects.  Called without callbacks or
    without settings it rejects with a TypeError before anything
    happens.  Otherwise every failure goes to onError, and the method
    rejects only if the last call of onError itself throws: it then
    rejects with what that call threw.  With an onError that returns it
    never rejects, whatever the provider, the response and the other
    callbacks do. *)
Theorem streamResponse_rejection (messages : list message)
  (s : Callbacks.argument settings) (callbacks : Callbacks.argument unit)
  (n : nat) :
  let run :=
    Callbacks.streamResponse JSON_parse fetch throws messages s callbacks n
  in
  match callbacks, s with
  | Callbacks.Given _, Callbacks.Given _ =>
      (forall e,
          fst (fst run) = Throw e ->
          exists h e0,
            trace run = h ++ [OnError e0]
            /\ throws h (OnError e0) = Some e)
      /\ ((forall h e0, throws h (OnError e0) = None) ->
          fst (fst run) = Return tt)
  | _, _ => exists message, run = (Throw (TypeError message), [], n)
  end.
Proof.
  cbv zeta.
  destruct callbacks as [| |cb]; destruct s as [| |s0]; try (by eexists).
  destruct (streamResponse_cases messages s0 cb n)
    as (others & terminals & c & n' & -> & Hq & Hshape).
  unfold trace; simpl.
  assert (forall h e0 e,
             Callbacks.call throws h (OnError e0) = Throw e ->
             throws h (OnError e0) = Some e) as Hcall.
  { intros h e0 e. unfold Callbacks.call.
    destruct (throws h (OnError e0)); [by intros [= ->]|done]. }
  assert (forall h e0,
             (forall h e0, throws h (OnError e0) = None) ->
             Callbacks.call throws h (OnError e0) = Return tt) as Hret.
  { intros h e0 Hno. unfold Callbacks.call. by rewrite Hno. }
  destruct Hshape
    as [[-> ->]|[(-> & Hc & ->)|[(e & -> & ->)|[(e & e2 & -> & Hc & ->)
       |[(e & -> & Hc & He & ->)|(e & e2 & -> & Hc & He & ->)]]]]].
  - split; [done|done].
  - split; [done|done].
  - split; [|by apply Hret]. intros e' H. exists others, e.
    split; [done|]. by apply Hcall.
  - split; [|by apply Hret]. intros e' H.
    exists (others ++ [OnError e]), e2.
    split; [by rewrite <- app_assoc|]. by apply Hcall.
  - split; [done|done].
  - split; [|by apply Hret]. intros e' H.
    exists (others ++ [OnComplete; OnError e]), e2.
    split; [by rewrite <- app_assoc|]. by apply Hcall.
Qed.

End CallbackRuns.

(** *** Callbacks that return

    With callbacks that return, arguments that are objects and responses
    that have a body, a run is the run of [UltraAIService]. *)

Section Returning.

Variable JSON_parse : jsstring -> completion json.

Lemma handle_line_returning (h : list effect) (line : jsstring) :
  Callbacks.handle_line JSON_parse Callbacks.returning h line
  = (fst (UltraAIService.handle_line JSON_parse line),
     if snd (UltraAIService.handle_line JSON_parse line)
     then Callbacks.Returned else Callbacks.Continue).
Proof.
  unfold Callbacks.handle_line, UltraAIService.handle_line, Callbacks.call,
    Callbacks.returning.
  destruct (_ || _); [done|]. destruct (JS.startsWith _ _); [|done].
  destruct (_ ≫= _) as [[c|]|e]; try done. by destruct (Json.truthy _).
Qed.

Lemma handle_lines_returning (lines : list jsstring) (h : list effect) :
  Callbacks.handle_lines JSON_parse Callbacks.returning h lines
  = (fst (UltraAIService.handle_lines JSON_parse lines),
     if snd (UltraAIService.handle_lines JSON_parse lines)
     then Callbacks.Returned else Callbacks.Continue).
Proof.
  revert h. induction lines as [|line rest IH]; intros h; simpl; [done|].
  rewrite handle_line_returning.
  destruct (UltraAIService.handle_line JSON_parse line)
    as [effects [|]]; simpl; [done|].
  rewrite IH.
  by destruct (UltraAIService.handle_lines JSON_parse rest)
    as [effects' [|]].
Qed.

Lemma read_loop_returning (reads : list (list Byte.byte)) (fin : body_end)
  (h : list effect) (decoder : TextDecoder.state) (buffer : jsstring) :
  Callbacks.read_loop JSON_parse Callbacks.returning h decoder buffer
    reads fin
  = UltraAIService.read_loop JSON_parse decoder buffer reads fin.
Proof.
  revert h decoder buffer.
  induction reads as [|value reads' IH]; intros h decoder buffer; simpl;
    [done|].
  destruct (TextDecoder.decode decoder value) as [decoder' text].
  rewrite handle_lines_returning.
  destruct (UltraAIService.handle_lines JSON_parse _)
    as [effects [|]]; simpl; [done|].
  by rewrite IH.
Qed.

Theorem streamResponse_returning (fetch : nat -> fetch_outcome)
  (messages : list message) (s : settings) (n : nat) :
  Callbacks.streamResponse JSON_parse
    (fun k => Callbacks.with_body (fetch k)) Callbacks.returning messages
    (Callbacks.Given s) (Callbacks.Given tt) n
  = UltraAIService.streamResponse JSON_parse fetch messages s n.
Proof.
  unfold Callbacks.streamResponse, UltraAIService.streamResponse,
    Callbacks.openAIStream, UltraAIService.openAIStream,
    Callbacks.catch_onError, Callbacks.call, Callbacks.returning,
    try_catch, mbind, M_bind, bind, await_call, lift, perform, throw.
  destruct (decide (UltraAIService.provider_or_default s = js "openai"))
    as [Hp|Hp]; [|by destruct (decide _)].
  destruct (fetch n) as [e|status b]; simpl; [done|].
  destruct (status_ok status); simpl; [|done].
  rewrite read_loop_returning.
  by destruct (UltraAIService.read_loop _ _ _ _ _) as [[[]|e] t].
Qed.

End Returning.

(** Runs with callbacks that throw: onComplete throws and onError
    takes the error; without an onError the failure comes back as a
    rejection after three terminal calls; a throwing onChunk is logged
    like a parse error and the stream goes on; a response without a
    body fails in onError; without callbacks nothing happens. *)
Example streamResponse_throwing_callbacks :
  let request :=
    FetchOpenAI {| req_settings := Sample.no_settings;
                   req_messages := Sample.conversation;
                   req_stream := true |} in
  let run fetch throws :=
    Callbacks.streamResponse Sample.JSON_parse fetch throws
      Sample.conversation (Callbacks.Given Sample.no_settings)
      (Callbacks.Given tt) 0 in
  run (Sample4.respond Sample.clean_response) Sample4.failing_onComplete
  = (Return tt,
     [request; OnChunk (JStr (js "Hel")); OnChunk (JStr (js "lo"));
      OnComplete; OnError (Error (js "render failed"))], 1)
  /\ run (Sample4.respond Sample.clean_response) Sample4.no_onError
     = (Throw (TypeError (js "onError is not a function")),
        [request; OnChunk (JStr (js "Hel")); OnChunk (JStr (js "lo"));
         OnComplete; OnError (Error (js "render failed"));
         OnError (TypeError (js "onError is not a function"))], 1)
  /\ run (Sample4.respond Sample.clean_response) Sample4.failing_onChunk
     = (Return tt,
        [request; OnChunk (JStr (js "Hel")); OnChunk (JStr (js "lo"));
         ConsoleError (js "Error parsing stream data:")
           (Error (js "append failed"));
         OnComplete], 1)
  /\ run Sample4.no_content Callbacks.returning
     = (Return tt,
        [request;
         OnError (TypeError (js
           "Cannot read properties of null (reading 'getReader')"))], 1)
  /\ Callbacks.streamResponse Sample.JSON_parse
       (Sample4.respond Sample.clean_response) Callbacks.returning
       Sample.conversation (Callbacks.Given Sample.no_settings)
       Callbacks.Undefined 0
     = (Throw (TypeError (js
          "Cannot destructure property 'onChunk' of 'callbacks' as it is "
                  ++ js "undefined.")),
        [], 0).
Proof. vm_compute. done. Qed.

(** ** Instances *)

Lemma validateSettings_zero_unchecked_witness :
  UltraAIService.validateSettings Sample.zero_tokens_settings = Return [].
Proof.
  apply (proj1 validateSettings_zero_unchecked Sample.zero_tokens_settings
           0%float).
  - reflexivity.
  - reflexivity.
  - split; reflexivity.
  - unfold Design.provider_valid. simpl. in_list.
  - unfold Design.model_valid. simpl. intros models H.
    vm_compute in H. injection H as <-. in_list.
Defined.

Lemma read_loop_content_witness :
  emitted_text
    (snd (UltraAIService.read_loop Sample.JSON_parse TextDecoder.init []
            [Sample.utf8 Sample.clean_response] EndOfStream))
  = Design.sent_content Sample.JSON_parse
      (decoded TextDecoder.init [Sample.utf8 Sample.clean_response]).
Proof.
  apply (read_loop_content Sample.JSON_parse
           [Sample.utf8 Sample.clean_response] EndOfStream).
  - vm_compute. repeat (constructor; [discriminate|]). constructor.
  - vm_compute. reflexivity.
Defined.



Example connectDB_first_log :
  head (default [] (Server.connectDB Sample3.refusing 5 None))
  = Some Server.MongooseConnect
  /\ default [] (Server.connectDB Sample3.refusing 5 None) !! 1
     = Some (Server.LoggerError
               (js "MongoDB connection failed. Retries left: 5")
               (Error (js "connect ECONNREFUSED"))).
Proof. vm_compute. done. Qed.

Lemma pre_save_counters_and_token_witness :
  let c' := Chat.pre_save Sample3.random_hex Sample3.shared_chat in
  Chat.messageCount_total c' = length (Chat.messages Sample3.shared_chat)
  /\ Chat.messageCount_user c' + Chat.messageCount_assistant c'
     <= Chat.messageCount_total c'
  /\ (Chat.isShared Sample3.shared_chat = true ->
      exists token, Chat.shareToken c' = Some token
                    /\ JS.truthy_string token = true)
  /\ (forall token, Chat.shareToken Sample3.shared_chat = Some token ->
        JS.truthy_string token = true -> Chat.shareToken c' = Some token)
  /\ (Chat.isShared Sample3.shared_chat = false ->
      Chat.shareToken c' = Chat.shareToken Sample3.shared_chat)
  /\ Chat.pre_save Sample3.random_hex c' = c'.
Proof.
  apply (pre_save_counters_and_token Sample3.random_hex Sample3.random_hex
           Sample3.shared_chat).
  reflexivity.
Defined.

Example pre_save_sample :
  let c' := Chat.pre_save Sample3.random_hex Sample3.shared_chat in
  (Chat.messageCount_user c', Chat.messageCount_assistant c',
   Chat.messageCount_total c') = (1, 1, 3)
  /\ Chat.tokenCount_total c' = 8%float
  /\ Chat.lastMessageAt c' = Some 3000%Z
  /\ Chat.shareToken c' = Some Sample3.random_hex.
Proof. vm_compute. done. Qed.

Example permissions_sample :
  Chat.canView (js "64b2") Sample3.shared_chat = true
  /\ Chat.canEdit (js "64b2") Sample3.shared_chat = Some false
  /\ Chat.canEdit (js "64c3") Sample3.shared_chat = None
  /\ Chat.canView (js "64c3") Sample3.shared_chat = false
  /\ Chat.canEdit (js "64b2")
       (Chat.addParticipant 9000 (js "64b2") (Some (js "editor"))
          Sample3.shared_chat) = Some true
  /\ Chat.participantCount
       (Chat.addParticipant 9000 (js "64b2") (Some (js "editor"))
          Sample3.shared_chat) = 1.
Proof. vm_compute. done. Qed.
